(** * Garrison repository: a shallow embedding of [garrison.repo.ts]

    The development follows [src/repos/dynamic/garrison/garrison.repo.ts]
    function by function.  A garrison document is a record; each
    repository method becomes a function from the loaded document (and the
    clock readings, payload and fresh identifiers it consumes) to an
    [Outcome]: either the method threw an [ErrorHandler] with an HTTP status
    (the in-memory document as it stood at the throw is kept for
    inspection), or it reached [garrison.save()].  The sources hold a
    second copy of the file; where the two differ on a modelled line (the
    refund of a cancelled improvement), both are given.

    Conventions.
    - A JavaScript [number] is an IEEE double.  The products and quotients
      the code floors, rounds or turns into a date (the accrual of
      [updateResources]; the duration, the costs and the gift of
      [extendBuilding]; the gift of [upgradeBuilding]) are computed in
      binary64, with the operations of the standard library's [SpecFloat].
      The resources, the unit costs, the refunds of a cancellation and the
      training step of [addUnit] are kept as exact rationals ([Q]), and
      counts (quantities, work force, levels) as integers ([Z]).
    - A [Date] is its [getTime()] value: whole milliseconds, in [Z].
    - An [ObjectId] is an integer; [new ObjectId()] is an argument of the
      method that calls it.
    - [new Date()] is an argument as well ([now]); [updateResources] reads
      the clock a second time, so methods calling it take that reading too. *)

From Stdlib Require Import ZArith QArith Qround Qpower Qabs List String Bool Lia Lqa.
From Stdlib Require Import Floats.SpecFloat.
Import ListNotations.

Open Scope Z_scope.

(** ** JavaScript array and Math primitives used by the repository *)

Module JS.

Section Arrays.
Context {A : Type}.

(** [Array.prototype.findIndex]: index of the first match, [-1] if none. *)
Fixpoint findIndexFrom (p : A -> bool) (i : Z) (l : list A) : Z :=
  match l with
  | [] => -1
  | x :: r => if p x then i else findIndexFrom p (i + 1) r
  end.

Definition findIndex (p : A -> bool) (l : list A) : Z := findIndexFrom p 0 l.

(** [l[i]]: [undefined] out of range. *)
Definition at_ (l : list A) (i : Z) : option A :=
  if i <? 0 then None else nth_error l (Z.to_nat i).

(** [Array.prototype.splice(start, deleteCount)] with no inserted item:
    a negative [start] counts from the end, and both arguments are
    clamped to the array. *)
Definition splice (start deleteCount : Z) (l : list A) : list A :=
  let len := Z.of_nat (List.length l) in
  let s := if start <? 0 then Z.max (len + start) 0 else Z.min start len in
  let c := Z.min (Z.max deleteCount 0) (len - s) in
  firstn (Z.to_nat s) l ++ skipn (Z.to_nat (s + c)) l.

(** [l[i] = x] for an index inside the array. *)
Fixpoint setNth (n : nat) (x : A) (l : list A) : list A :=
  match l, n with
  | [], _ => []
  | _ :: r, O => x :: r
  | y :: r, S m => y :: setNth m x r
  end.

Definition set_at (l : list A) (i : Z) (x : A) : list A :=
  if i <? 0 then l else setNth (Z.to_nat i) x l.
End Arrays.

(** [Math.pow] at an integer exponent, in exact arithmetic. *)
Definition pow (b : Q) (e : Z) : Q := Qpower b e.

(** [x < y] on numbers. *)
Definition ltb (x y : Q) : bool := negb (Qle_bool y x).

(** [ToIntegerOrInfinity]: truncation toward zero, as [Date] applies it. *)
Definition trunc (x : Q) : Z := Z.quot (Qnum x) (Zpos (Qden x)).

End JS.

(** ** Binary64 arithmetic

    A [number] is a [spec_float] of the binary64 format: 53 bits of
    precision, infinities at exponent 1024.  [SFmul] and [SFdiv] round to
    nearest, ties to even, as [*] and [/] do. *)

Module Double.

Definition prec : Z := 53.
Definition emax : Z := 1024.
Definition number := spec_float.

(** The double nearest to an integer: the value of an integer variable. *)
Definition ofZ (z : Z) : number := binary_normalize prec emax z 0 false.

(** The double nearest to a rational: the value of a numeric literal of
    the source or of a number of the catalog. *)
Definition ofQ (q : Q) : number :=
  match Qnum q with
  | Z0 => S754_zero false
  | n =>
      let '(mz, ez, lz) :=
        SFdiv_core_binary prec emax (Z.abs n) 0 (Zpos (Qden q)) 0 in
      binary_round_aux prec emax (n <? 0) mz ez lz
  end.

(** The rational a finite double stands for.  Infinities and NaN stand
    for no rational; they are read as 0: the embedding follows the code as
    long as the products it computes are finite. *)
Definition toQ (x : number) : Q :=
  match x with
  | S754_finite s m e =>
      let v := match e with
               | Zneg p => Zpos m # Pos.pow 2 p
               | _ => inject_Z (Zpos m * 2 ^ e)
               end in
      if s then Qopp v else v
  | _ => 0%Q
  end.

Definition mul : number -> number -> number := SFmul prec emax.
Definition div : number -> number -> number := SFdiv prec emax.

(** [x === 0]. *)
Definition isZero (x : number) : bool :=
  match x with S754_zero _ => true | _ => false end.

Definition finite (x : number) : bool :=
  match x with S754_zero _ | S754_finite _ _ _ => true | _ => false end.

(** Neither a negative number nor minus infinity. *)
Definition nonnegative (x : number) : bool :=
  match x with S754_finite true _ _ | S754_infinity true => false | _ => true end.

(** The leading bit of [x] is at position [k] or above: [x] is an
    infinity, or a finite number with [2 ^ (k - 1) <= |x|]. *)
Definition atLeast (k : Z) (x : number) : Prop :=
  match x with
  | S754_finite _ m e => k <= Zpos (digits2_pos m) + e
  | S754_infinity _ => True
  | _ => False
  end.

(** [Math.floor] and [Math.round] (half up) of a finite double. *)
Definition floor (x : number) : Z := Qfloor (toQ x).
Definition round (x : number) : Z := Qfloor (toQ x + (1 # 2)).

(** [Math.pow(b, e)] at a literal base and an integer exponent.  The
    language leaves the accuracy of [Math.pow] to the implementation; it
    is taken correctly rounded: the double nearest to the power of the
    double [b]. *)
Definition pow (b : Q) (e : Z) : number := ofQ (Qpower (toQ (ofQ b)) e).

End Double.

(** ** Data model (garrison.types, building.types, unit.types) *)

Definition ObjectId := Z.
Definition Date := Z.

Inductive IBuildingImprovementType := upgrade | extension.

Record Improvement := mkImprovement {
  i_type : IBuildingImprovementType;
  i_level : Z
}.

Record IOperatedConstruction := mkConstruction {
  c_id : ObjectId;
  c_beginDate : Date;
  c_endDate : Date;
  c_workforce : Z;
  c_improvement : option Improvement
}.

Record IGarrisonBuilding := mkBuilding {
  b_id : option ObjectId;
  b_code : string;
  b_constructions : list IOperatedConstruction
}.

Inductive AssignmentType := instantiation | construction | harvest.

Record IUnitAssignment := mkAssignment {
  a_id : option ObjectId;
  a_buildingId : option ObjectId;
  a_quantity : Z;
  a_type : AssignmentType;
  a_endDate : Date
}.

Record IGarrisonUnit := mkUnit {
  u_code : string;
  u_quantity : Z;
  u_assignments : list IUnitAssignment
}.

Record IGarrisonResources := mkResources {
  gold : Q;
  wood : Q;
  food : Q;
  plot : Q;
  goldLastUpdate : option Date;
  woodLastUpdate : option Date
}.

(** The document: identity, name and zone never change after [create] and
    play no part in the methods below, so only the mutable part is kept. *)
Record IGarrison := mkGarrison {
  resources : IGarrisonResources;
  buildings : list IGarrisonBuilding;
  units : list IGarrisonUnit
}.

(** Static catalog entries. *)
Inductive ResourceKind := Gold | Wood | Plot | Food.

Record IHarvest := mkHarvest {
  h_resource : ResourceKind;
  h_amount : Q;
  h_maxWorkforce : option Z
}.

Record IBuildingCost := mkBuildingCost {
  bc_gold : Q;
  bc_wood : Q;
  bc_plot : Q
}.

Record IRequiredBuilding := mkRequired {
  rb_code : string;
  rb_upgradeLevel : option Z;
  rb_level : option Z
}.

Record IExtension := mkExtension {
  ext_requiredEntities : option (list IRequiredBuilding);
  ext_maxLevel : option Z
}.

Record IBuilding := mkStaticBuilding {
  sb_code : string;
  sb_cost : IBuildingCost;
  sb_minWorkforce : Z;
  sb_duration : Q;
  sb_requiredEntities : option (list IRequiredBuilding);
  sb_extension : option IExtension;
  sb_harvest : option IHarvest
}.

Record IUnitCost := mkUnitCost {
  uc_gold : Q;
  uc_wood : Q;
  uc_food : Q
}.

Record IUnit := mkStaticUnit {
  su_code : string;
  su_cost : IUnitCost;
  su_duration : Q;
  su_requiredEntities : option (list IRequiredBuilding)
}.

(** ** Outcome of a repository method *)

Inductive Outcome :=
| Threw (status : Z) (mem : IGarrison)
| Done (g : IGarrison).

(** Reading a property of [null] throws a [TypeError], which is no
    [ErrorHandler] and carries no status.  It is written as a throw of
    status 500, a status no [ErrorHandler] of the repository carries. *)
Definition typeError : Z := 500.

Definition andThen (o : Outcome) (k : IGarrison -> Outcome) : Outcome :=
  match o with
  | Threw s m => Threw s m
  | Done g => k g
  end.

(** What the database holds after a method ran on the loaded document
    [db]: the saved document, or [db] itself when the method threw before
    [garrison.save()]. *)
Definition persisted (db : IGarrison) (o : Outcome) : IGarrison :=
  match o with
  | Threw _ _ => db
  | Done g => g
  end.

(** ** Record updates *)

Definition withResources (g : IGarrison) (r : IGarrisonResources) : IGarrison :=
  {| resources := r; buildings := buildings g; units := units g |}.

Definition withBuildings (g : IGarrison) (bs : list IGarrisonBuilding) : IGarrison :=
  {| resources := resources g; buildings := bs; units := units g |}.

Definition withUnits (g : IGarrison) (us : list IGarrisonUnit) : IGarrison :=
  {| resources := resources g; buildings := buildings g; units := us |}.

Definition withConstructions (b : IGarrisonBuilding) (cs : list IOperatedConstruction)
  : IGarrisonBuilding :=
  {| b_id := b_id b; b_code := b_code b; b_constructions := cs |}.

Definition withAssignments (u : IGarrisonUnit) (l : list IUnitAssignment) : IGarrisonUnit :=
  {| u_code := u_code u; u_quantity := u_quantity u; u_assignments := l |}.

Definition withQuantity (a : IUnitAssignment) (q : Z) : IUnitAssignment :=
  {| a_id := a_id a; a_buildingId := a_buildingId a; a_quantity := q;
     a_type := a_type a; a_endDate := a_endDate a |}.

(** [resources[kind]] and [resources[kind] = v]. *)
Definition getResource (k : ResourceKind) (r : IGarrisonResources) : Q :=
  match k with
  | Gold => gold r
  | Wood => wood r
  | Plot => plot r
  | Food => food r
  end.

Definition setResource (k : ResourceKind) (v : Q) (r : IGarrisonResources)
  : IGarrisonResources :=
  match k with
  | Gold => {| gold := v; wood := wood r; food := food r; plot := plot r;
               goldLastUpdate := goldLastUpdate r; woodLastUpdate := woodLastUpdate r |}
  | Wood => {| gold := gold r; wood := v; food := food r; plot := plot r;
               goldLastUpdate := goldLastUpdate r; woodLastUpdate := woodLastUpdate r |}
  | Plot => {| gold := gold r; wood := wood r; food := food r; plot := v;
               goldLastUpdate := goldLastUpdate r; woodLastUpdate := woodLastUpdate r |}
  | Food => {| gold := gold r; wood := wood r; food := v; plot := plot r;
               goldLastUpdate := goldLastUpdate r; woodLastUpdate := woodLastUpdate r |}
  end.

Definition setGoldLastUpdate (d : option Date) (r : IGarrisonResources) : IGarrisonResources :=
  {| gold := gold r; wood := wood r; food := food r; plot := plot r;
     goldLastUpdate := d; woodLastUpdate := woodLastUpdate r |}.

Definition setWoodLastUpdate (d : option Date) (r : IGarrisonResources) : IGarrisonResources :=
  {| gold := gold r; wood := wood r; food := food r; plot := plot r;
     goldLastUpdate := goldLastUpdate r; woodLastUpdate := d |}.

(** [a || b] on optional dates (a [Date] object is always truthy). *)
Definition orElse {A} (a b : option A) : option A :=
  match a with Some _ => a | None => b end.

Definition sameId (a b : ObjectId) : bool := a =? b.

(** [c.endDate.getTime() > now.getTime()] for some construction. *)
Definition isBusy (now : Date) (b : IGarrisonBuilding) : bool :=
  existsb (fun c => c_endDate c >? now) (b_constructions b).

Definition isHarvest (t : AssignmentType) : bool :=
  match t with harvest => true | _ => false end.

(** ** The collaborators injected into the repository *)

(** Modelled from the spec: [BuildingRepository.findByCode] and
    [UnitRepository.findByCode] are not part of the sources at hand.  They
    are the read-only catalog lookup, which answers the definition of a
    code; [None] stands for its answer to a code the catalog does not
    know.  [assignUnit], [unassignUnit], [extendBuilding] and [addUnit]
    test the answer and throw a 404 of their own.  [addBuilding],
    [cancelBuildingConstruction] and [upgradeBuilding] hand it on untested:
    for them a missing definition is the [NotFound] (404) failure of the
    spec.  [updateResources] reads a property of the answer without a test
    (see [typeError]).  [getFactor], [areSameString] and the validators of
    [helper.utils.garrison.repo] are not part of the sources either: the
    validators only gate a method ([Some status] or [inl status] is a
    throw) or compute a value, and the repository is generic in them. *)

Class Collaborators := {
  findBuildingByCode : string -> option IBuilding;
  findUnitByCode : string -> option IUnit;
  (** [getFactor('default')] and [getFactor('decreased')] *)
  defaultFactor : Q;
  decreasedFactor : Q;
  areSameString : string -> string -> bool;
  checkWorkforceCoherence :
    Date -> Z -> IGarrisonUnit -> IBuilding -> option IBuildingImprovementType ->
    list IOperatedConstruction -> option Z;
  checkConstructionRequirements :
    Date -> list IRequiredBuilding -> list IGarrisonBuilding -> option Z;
  computeConstructionDuration : Z -> IBuilding -> option Z -> Q;
  checkBuildingImprovable :
    Date -> IGarrisonBuilding -> IBuilding -> Z + (Z * option (list IRequiredBuilding));
  improvementCost :
    IBuildingCost -> IBuildingImprovementType -> list IOperatedConstruction -> IBuildingCost
}.

(** ** The repository *)

Section Repository.
Context `{Collaborators}.

(** *** updateResources *)

(** The quantity of the first harvest assignment of the peasants that
    names the building ([undefined] when there is none). *)
Definition assignedWorkers (us : list IGarrisonUnit) (b : IGarrisonBuilding) : option Z :=
  match find (fun u => String.eqb (u_code u) "peasant") us with
  | None => None
  | Some u =>
      match find (fun a =>
                    match a_type a, a_buildingId a, b_id b with
                    | harvest, Some aid, Some bid => sameId aid bid
                    | _, _, _ => false
                    end) (u_assignments u) with
      | None => None
      | Some a => Some (a_quantity a)
      end
  end.

(** [(now.getTime() - lastUpdate.getTime()) / 1000 / 60]. *)
Definition elapsedMinutes (now t : Date) : Double.number :=
  Double.div (Double.div (Double.ofZ (now - t)) (Double.ofZ 1000)) (Double.ofZ 60).

(** Elapsed minutes and the refreshed timestamps for one building;
    [None] stands for the [continue] taken when the timestamp is absent. *)
Definition elapsedSinceLastUpdate (now : Date) (code : string) (r : IGarrisonResources)
  : option (Double.number * option Date * option Date) :=
  if String.eqb code "goldmine" then
    match goldLastUpdate r with
    | None => None
    | Some t => Some (elapsedMinutes now t, Some now, None)
    end
  else if String.eqb code "sawmill" then
    match woodLastUpdate r with
    | None => None
    | Some t => Some (elapsedMinutes now t, None, Some now)
    end
  else Some (Double.ofZ 0, None, None).

(** [Math.floor((harvest.amount * elapsedMinutes) * assignedWorkers)]. *)
Definition gained (amount : Q) (elapsed : Double.number) (workers : Z) : Z :=
  Double.floor
    (Double.mul (Double.mul (Double.ofQ amount) elapsed) (Double.ofZ workers)).

(** One iteration of the loop over [garrison.instances.buildings].  The
    loop does not test what [findByCode] answers before it reads
    [matchStatics.harvest]: for a code the catalog does not know the
    iteration ends in a [TypeError]. *)
Definition updateResourcesFor (now : Date) (b : IGarrisonBuilding) (g : IGarrison)
  : Outcome :=
  match findBuildingByCode (b_code b) with
  | None => Threw typeError g
  | Some matchStatics =>
      match sb_harvest matchStatics with
      | None => Done g
      | Some h =>
          if isBusy now b then Done g
          else
            match assignedWorkers (units g) b with
            | None => Done g
            | Some w =>
                if w =? 0 then Done g
                else
                  match elapsedSinceLastUpdate now (b_code b) (resources g) with
                  | None => Done g
                  | Some (elapsed, goldNew, woodNew) =>
                      if Double.isZero elapsed then Done g
                      else
                        let r := resources g in
                        let newResources :=
                          (getResource (h_resource h) r
                           + inject_Z (gained (h_amount h) elapsed w))%Q in
                        Done (withResources g
                                (setWoodLastUpdate (orElse woodNew (woodLastUpdate r))
                                   (setGoldLastUpdate (orElse goldNew (goldLastUpdate r))
                                      (setResource (h_resource h) newResources r))))
                  end
            end
      end
  end.

Fixpoint updateResourcesLoop (now : Date) (bs : list IGarrisonBuilding) (g : IGarrison)
  : Outcome :=
  match bs with
  | [] => Done g
  | b :: rest => andThen (updateResourcesFor now b g) (updateResourcesLoop now rest)
  end.

Definition updateResources (now : Date) (g : IGarrison) : Outcome :=
  updateResourcesLoop now (buildings g) g.

(** *** Helpers of [helper.utils] and [helper.utils.garrison.repo] *)

(** Modelled from the spec: [_h.addTime(date, ms)] is not part of the
    sources at hand; it returns the date [ms] milliseconds later, a [Date]
    holding whole milliseconds. *)
Definition addTime (d : Date) (ms : Q) : Date := d + JS.trunc ms.

(** First element satisfying [p], with its index. *)
Definition findWithIndex {A} (p : A -> bool) (l : list A) : option (A * Z) :=
  let i := JS.findIndex p l in
  match JS.at_ l i with
  | Some x => Some (x, i)
  | None => None
  end.

(** Modelled from the spec: [_gH.findBuilding] (not part of the sources at
    hand) returns the building of that id and its index, a missing one
    being a [NotFound] (404) failure. *)
Definition findBuilding (g : IGarrison) (id : ObjectId) : option (IGarrisonBuilding * Z) :=
  findWithIndex (fun b => match b_id b with Some x => sameId x id | None => false end)
                (buildings g).

(** Modelled from the spec: [_gH.findBuildingConstruction] (not part of the
    sources at hand) returns the construction of that id and its index, a
    missing one being a [NotFound] (404) failure. *)
Definition findBuildingConstruction (b : IGarrisonBuilding) (id : ObjectId)
  : option (IOperatedConstruction * Z) :=
  findWithIndex (fun c => sameId (c_id c) id) (b_constructions b).

(** Modelled from the spec: [_gH.findUnit] (not part of the sources at
    hand) returns the unit cohort of that code and its index, a missing one
    being a [NotFound] (404) failure. *)
Definition findUnit (g : IGarrison) (code : string) : option (IGarrisonUnit * Z) :=
  findWithIndex (fun u => String.eqb (u_code u) code) (units g).

(** Modelled from the spec: [_gH.checkBuildingAvailability] is not part of
    the sources at hand; a building with a construction ending after [now]
    is busy, which is a [Conflict] (409) failure. *)
Definition checkBuildingAvailability (now : Date) (b : IGarrisonBuilding) : option Z :=
  if isBusy now b then Some 409 else None.

(** Modelled from the spec: [_gH.checkConstructionPaymentCapacity] is not
    part of the sources at hand; it debits the (level-scaled, for an
    improvement) cost in gold, wood and plot and fails with
    [PreconditionFailed] (412) when a resource is insufficient. *)
Definition checkConstructionPaymentCapacity (r : IGarrisonResources) (cost : IBuildingCost)
  (type : option IBuildingImprovementType) (cs : list IOperatedConstruction)
  : Z + IGarrisonResources :=
  let c := match type with
           | None => cost
           | Some t => improvementCost cost t cs
           end in
  if JS.ltb (gold r - bc_gold c) 0 || JS.ltb (wood r - bc_wood c) 0
     || JS.ltb (plot r - bc_plot c) 0
  then inl 412
  else inr (setResource Plot (plot r - bc_plot c)
              (setResource Wood (wood r - bc_wood c)
                 (setResource Gold (gold r - bc_gold c) r)))%Q.

(** [payload.quantity || 1]. *)
Definition quantityOr1 (q : option Z) : Z :=
  match q with
  | Some n => if n =? 0 then 1 else n
  | None => 1
  end.

(** [filter(a => a.endDate > now).map(a => a.quantity).reduce(+, 0)]. *)
Definition unavailableQuantity (now : Date) (l : list IUnitAssignment) : Z :=
  fold_left (fun prev next => prev + next)
            (map a_quantity (filter (fun a => a_endDate a >? now) l)) 0.

(** Appending an assignment to the unit found at [index]. *)
Definition pushAssignment (g : IGarrison) (index : Z) (u : IGarrisonUnit)
  (a : IUnitAssignment) : IGarrison :=
  withUnits g (JS.set_at (units g) index (withAssignments u (u_assignments u ++ [a]))).

(** "gift-harvest" buildings: [harvest && !harvest.maxWorkforce]. *)
Definition giftOf (st : IBuilding) : option IHarvest :=
  match sb_harvest st with
  | Some h => match h_maxWorkforce h with
              | None => Some h
              | Some m => if m =? 0 then Some h else None
              end
  | None => None
  end.

Definition creditGift (st : IBuilding) (amount : IHarvest -> Q) (r : IGarrisonResources)
  : IGarrisonResources :=
  match giftOf st with
  | Some h => setResource (h_resource h) (getResource (h_resource h) r + amount h)%Q r
  | None => r
  end.

(** *** create *)

(** The document [create] stores. *)
Definition newGarrison : IGarrison :=
  {| resources := {| gold := 625; wood := 320; food := 3; plot := 32;
                     goldLastUpdate := None; woodLastUpdate := None |};
     buildings := [];
     units := [ {| u_code := "peasant"; u_quantity := 3; u_assignments := [] |} ] |}.

(** [characterGarrisonName] is the name of the garrison the character
    already owns, if any; [zoneSide] and [faction] come from the zone and
    character lookups. *)
Definition create (characterGarrisonName : option string) (name zoneSide faction : string)
  : Z + IGarrison :=
  match characterGarrisonName with
  | Some n => if areSameString n name then inl 409
              else if negb (areSameString zoneSide faction) then inl 400
                   else inr newGarrison
  | None => if negb (areSameString zoneSide faction) then inl 400 else inr newGarrison
  end.

(** *** addBuilding *)

Definition addBuilding (now nowU : Date) (constructionId buildingId assignmentId : ObjectId)
  (code : string) (workforce : Z) (g : IGarrison) : Outcome :=
  match findBuildingByCode code with
  | None => Threw 404 g
  | Some staticBuilding =>
  match findUnit g "peasant" with
  | None => Threw 404 g
  | Some (peasants, pIndex) =>
  match checkWorkforceCoherence now workforce peasants staticBuilding None [] with
  | Some s => Threw s g
  | None =>
  match match sb_requiredEntities staticBuilding with
        | Some req => checkConstructionRequirements now req (buildings g)
        | None => None
        end with
  | Some s => Threw s g
  | None =>
      let duration := computeConstructionDuration workforce staticBuilding None in
      let built :=
        {| c_id := constructionId; c_beginDate := now;
           c_endDate := addTime now (duration * 1000);
           c_workforce := workforce; c_improvement := None |} in
      let g1 := withBuildings g
                  (buildings g ++ [ {| b_id := Some buildingId; b_code := code;
                                       b_constructions := [built] |} ]) in
      andThen (updateResources nowU g1) (fun g2 =>
        match checkConstructionPaymentCapacity (resources g2) (sb_cost staticBuilding)
                None [] with
        | inl s => Threw s g2
        | inr r =>
            let g3 := withResources g2 (creditGift staticBuilding h_amount r) in
            Done (pushAssignment g3 pIndex peasants
                    {| a_id := Some assignmentId; a_buildingId := Some buildingId;
                       a_quantity := workforce; a_type := construction;
                       a_endDate := addTime now (duration * 1000) |})
        end)
  end end end end.

(** *** cancelBuildingConstruction *)

(** The refund of an improvement of level [l], as [garrison.repo.ts]
    computes it: the three scalings are all assigned to [gold]. *)
Definition improvementRefund (cost : IBuildingCost) (l : Z) : Q * Q * Q :=
  let gold0 := bc_gold cost in
  let wood0 := bc_wood cost in
  let plot0 := bc_plot cost in
  let gold1 := (gold0 * JS.pow defaultFactor l)%Q in
  let gold2 := (wood0 * JS.pow defaultFactor l)%Q in
  let gold3 := (plot0 * JS.pow decreasedFactor l)%Q in
  (gold3, wood0, plot0).

(** The same computation in the second copy of the repository
    (unnamed/part_002), where each scaling is assigned to its own
    variable. *)
Definition improvementRefund_rev (cost : IBuildingCost) (l : Z) : Q * Q * Q :=
  let gold1 := (bc_gold cost * JS.pow defaultFactor l)%Q in
  let wood1 := (bc_wood cost * JS.pow defaultFactor l)%Q in
  let plot1 := (bc_plot cost * JS.pow decreasedFactor l)%Q in
  (gold1, wood1, plot1).

(** [delete garrison.resources[`${harvest.resource}LastUpdate`]]: only
    gold and wood have such a key. *)
Definition deleteLastUpdate (k : ResourceKind) (r : IGarrisonResources) : IGarrisonResources :=
  match k with
  | Gold => setGoldLastUpdate None r
  | Wood => setWoodLastUpdate None r
  | _ => r
  end.

(** The [switch (typeof harvest.maxWorkforce)]: the ['number'] case clears
    the timestamp when a building of the same code is still owned; the
    case labelled [undefined] is never selected, [typeof] yielding a
    string. *)
Definition cancelHarvestUpdate (st : IBuilding) (bs : list IGarrisonBuilding)
  (r : IGarrisonResources) : IGarrisonResources :=
  match sb_harvest st with
  | Some h =>
      match h_maxWorkforce h with
      | Some _ =>
          if existsb (fun b => String.eqb (b_code b) (sb_code st)) bs
          then deleteLastUpdate (h_resource h) r
          else r
      | None => r
      end
  | None => r
  end.

Definition cancelWith (refund : IBuildingCost -> Z -> Q * Q * Q)
  (buildingId constructionId : ObjectId) (g : IGarrison) : Outcome :=
  match findBuilding g buildingId with
  | None => Threw 404 g
  | Some (building, bIndex) =>
  match findBuildingByCode (b_code building) with
  | None => Threw 404 g
  | Some staticBuilding =>
  match findBuildingConstruction building constructionId with
  | None => Threw 404 g
  | Some (target, cIndex) =>
      let cost := sb_cost staticBuilding in
      (* the refund, the building as it stands after the removal, and the
         building list *)
      let '(gold1, wood1, plot1, building1, buildings1) :=
        match c_improvement target with
        | Some improvement =>
            let building1 :=
              withConstructions building (JS.splice cIndex 1 (b_constructions building)) in
            (refund cost (i_level improvement), building1,
             JS.set_at (buildings g) bIndex building1)
        | None =>
            (bc_gold cost, bc_wood cost, bc_plot cost, building,
             JS.splice bIndex 1 (buildings g))
        end in
      let r := resources g in
      let r1 := setResource Plot (plot r + plot1)
                  (setResource Wood (wood r + wood1)
                     (setResource Gold (gold r + gold1) r))%Q in
      let r2 := cancelHarvestUpdate staticBuilding buildings1 r1 in
      let g1 := withResources (withBuildings g buildings1) r2 in
      match findUnit g1 "peasant" with
      | None => Threw 404 g1
      | Some (peasants, pIndex) =>
          let aIndex :=
            JS.findIndex
              (fun a => match JS.at_ (b_constructions building1) cIndex with
                        | Some c => a_endDate a =? c_endDate c
                        | None => false
                        end)
              (u_assignments peasants) in
          Done (withUnits g1
                  (JS.set_at (units g1) pIndex
                     (withAssignments peasants (JS.splice aIndex 1 (u_assignments peasants)))))
      end
  end end end.

Definition cancelBuildingConstruction := cancelWith improvementRefund.
Definition cancelBuildingConstruction_rev := cancelWith improvementRefund_rev.

(** *** upgradeBuilding *)

Definition upgradeBuilding (now nowU : Date) (constructionId assignmentId : ObjectId)
  (buildingId : ObjectId) (workforce : Z) (g : IGarrison) : Outcome :=
  match findBuilding g buildingId with
  | None => Threw 404 g
  | Some (building, bIndex) =>
  match findBuildingByCode (b_code building) with
  | None => Threw 404 g
  | Some staticBuilding =>
  match checkBuildingAvailability now building with
  | Some s => Threw s g
  | None =>
  match checkBuildingImprovable now building staticBuilding with
  | inl s => Threw s g
  | inr (level, requiredEntities) =>
  match match requiredEntities with
        | Some req => checkConstructionRequirements now req (buildings g)
        | None => None
        end with
  | Some s => Threw s g
  | None =>
  let duration := computeConstructionDuration workforce staticBuilding (Some level) in
  match findUnit g "peasant" with
  | None => Threw 404 g
  | Some (peasants, pIndex) =>
  match checkWorkforceCoherence now workforce peasants staticBuilding (Some upgrade)
          (b_constructions building) with
  | Some s => Threw s g
  | None =>
      let built :=
        {| c_id := constructionId; c_beginDate := now;
           c_endDate := addTime now (duration * 1000);
           c_workforce := workforce;
           c_improvement := Some {| i_type := upgrade; i_level := level |} |} in
      let building1 := withConstructions building (b_constructions building ++ [built]) in
      let g1 := withBuildings g (JS.set_at (buildings g) bIndex building1) in
      andThen (updateResources nowU g1) (fun g2 =>
        match checkConstructionPaymentCapacity (resources g2) (sb_cost staticBuilding)
                (Some upgrade) (b_constructions building1) with
        | inl s => Threw s g2
        | inr r =>
            let gift h :=
              inject_Z (Double.floor (Double.mul (Double.ofQ (h_amount h))
                                                 (Double.pow (12 # 10) level))) in
            let g3 := withResources g2 (creditGift staticBuilding gift r) in
            Done (pushAssignment g3 pIndex peasants
                    {| a_id := Some assignmentId; a_buildingId := b_id building;
                       a_quantity := workforce; a_type := construction;
                       a_endDate := addTime now (duration * 1000) |})
        end)
  end end end end end end end.

(** *** extendBuilding *)

(** [filter(extension).map(level).reduce((prev, next) => next > prev ? next : prev, 0)]. *)
Definition currentExtensionLevel (b : IGarrisonBuilding) : Z :=
  fold_left (fun prev next => if next >? prev then next else prev)
    (map (fun c => match c_improvement c with Some i => i_level i | None => 0 end)
       (filter (fun c => match c_improvement c with
                         | Some {| i_type := extension |} => true
                         | _ => false
                         end) (b_constructions b)))
    0.

(** The callback of [requiredEntities.buildings.some(...)]: [true] when the
    required building [b] is not fulfilled.  [levelApplies] is the extra
    conjunct of [extendBuilding] ([b.level === currentLevel + 1]), constantly
    true in [addUnit]. *)
Definition unfulfilledRequirement (now : Date) (bs : list IGarrisonBuilding)
  (levelApplies : IRequiredBuilding -> bool) (b : IRequiredBuilding) : bool :=
  match find (fun gB => String.eqb (b_code gB) (rb_code b)) bs with
  | None => true
  | Some existing =>
      (match rb_upgradeLevel b with
       | Some upgradeLevel =>
           if negb (upgradeLevel =? 0) && levelApplies b then
             match find (fun c => match c_improvement c with
                                  | Some i => i_level i >=? upgradeLevel
                                  | None => false
                                  end) (b_constructions existing) with
             | None => true
             | Some upgraded => c_endDate upgraded >? now
             end
           else false
       | None => false
       end)
      || existsb (fun c => match c_improvement c with
                           | None => c_endDate c >? now
                           | Some _ => false
                           end) (b_constructions existing)
  end.

Definition unfulfilled (now : Date) (bs : list IGarrisonBuilding)
  (levelApplies : IRequiredBuilding -> bool) (req : option (list IRequiredBuilding)) : bool :=
  match req with
  | Some l => existsb (unfulfilledRequirement now bs levelApplies) l
  | None => false
  end.

(** Duration and minimum work force raised to the next extension level:
    [Math.round(duration * Math.pow(1.3, currentLevel + 1))] and
    [minWorkforce * Math.pow(2, currentLevel + 1)], a product of integers. *)
Definition extensionDuration (building : IBuilding) (currentLevel : Z) : Z :=
  Double.round
    (Double.mul (Double.ofQ (sb_duration building))
                (Double.pow (13 # 10) (currentLevel + 1))).

Definition extensionMinWorkforce (building : IBuilding) (currentLevel : Z) : Z :=
  sb_minWorkforce building * 2 ^ (currentLevel + 1).

(** [newDuration = duration * Math.pow(0.97, workforce - minWorkforce)]:
    each additional worker reduces the duration by 3%. *)
Definition extensionNewDuration (building : IBuilding) (currentLevel workforce : Z)
  : Double.number :=
  Double.mul (Double.ofZ (extensionDuration building currentLevel))
             (Double.pow (97 # 100)
                (workforce - extensionMinWorkforce building currentLevel)).

(** [newDuration * 1000], the milliseconds handed to [addTime]. *)
Definition extensionMilliseconds (newDuration : Double.number) : Q :=
  Double.toQ (Double.mul newDuration (Double.ofZ 1000)).

Definition extendBuilding (now : Date) (constructionId assignmentId : ObjectId)
  (buildingId : ObjectId) (workforce : Z) (g : IGarrison) : Outcome :=
  match findBuilding g buildingId with
  | None => Threw 404 g
  | Some (garrBuilding, _) =>
  match findBuildingByCode (b_code garrBuilding) with
  | None => Threw 404 g
  | Some building =>
  match sb_extension building with
  | None => Threw 412 g
  | Some ext =>
  if isBusy now garrBuilding then Threw 412 g else
  let currentLevel := currentExtensionLevel garrBuilding in
  if match ext_maxLevel ext with
     | Some maxLevel => currentLevel + 1 >? maxLevel
     | None => false
     end
  then Threw 400 g else
  if unfulfilled now (buildings g)
       (fun b => match rb_level b with Some l => l =? currentLevel + 1 | None => false end)
       (ext_requiredEntities ext)
  then Threw 412 g else
  let minWorkforce := extensionMinWorkforce building currentLevel in
  match findUnit g "peasant" with
  | None => Threw 404 g
  | Some (peasants, pIndex) =>
  if workforce >? u_quantity peasants then Threw 400 g else
  let unavailablePeasants := unavailableQuantity now (u_assignments peasants) in
  if workforce >? u_quantity peasants - unavailablePeasants then Threw 412 g else
  if workforce <? minWorkforce then Threw 400 g else
  if workforce >? minWorkforce * 2 then Threw 400 g else
  let newDuration := extensionNewDuration building currentLevel workforce in
  let constructed :=
    {| c_id := constructionId; c_beginDate := now;
       c_endDate := addTime now (extensionMilliseconds newDuration);
       c_workforce := workforce;
       c_improvement := Some {| i_type := extension; i_level := currentLevel + 1 |} |} in
  let g1 := withBuildings g
              (map (fun b => if String.eqb (b_code b) (sb_code building)
                             then withConstructions b (b_constructions b ++ [constructed])
                             else b) (buildings g)) in
  let cost := sb_cost building in
  let goldCost :=
    inject_Z (Double.round (Double.mul (Double.ofQ (bc_gold cost))
                                       (Double.pow (16 # 10) (currentLevel + 1)))) in
  let woodCost :=
    inject_Z (Double.round (Double.mul (Double.ofQ (bc_wood cost))
                                       (Double.pow (16 # 10) (currentLevel + 1)))) in
  let plotCost :=
    inject_Z (Double.round
                (Double.mul (Double.div (Double.ofQ (bc_plot cost)) (Double.ofZ 2))
                            (Double.pow (15 # 10) (currentLevel + 1)))) in
  let r := resources g1 in
  if JS.ltb (gold r - goldCost) 0 || JS.ltb (wood r - woodCost) 0
     || JS.ltb (plot r - plotCost) 0
  then Threw 412 g1 else
  let r1 := (setResource Plot (plot r - plotCost)
               (setResource Wood (wood r - woodCost)
                  (setResource Gold (gold r - goldCost) r)))%Q in
  let gift h :=
    inject_Z (Double.floor (Double.mul (Double.ofQ (h_amount h))
                                       (Double.pow (12 # 10) (currentLevel + 1)))) in
  let g2 := withResources g1 (creditGift building gift r1) in
  Done (pushAssignment g2 pIndex peasants
          {| a_id := Some assignmentId; a_buildingId := b_id garrBuilding;
             a_quantity := workforce; a_type := construction;
             a_endDate := addTime now (extensionMilliseconds newDuration) |})
  end end end end.

(** *** addUnit *)

(** The training loop: [n] assignments of one unit each, every end date
    chained off the previous one ([prev] is [now] for the first). *)
Fixpoint trainingAssignments (n : nat) (prev : Date) (duration : Q) : list IUnitAssignment :=
  match n with
  | O => []
  | S m =>
      let e := addTime prev (duration * 1000) in
      {| a_id := None; a_buildingId := None; a_quantity := 1;
         a_type := instantiation; a_endDate := e |} :: trainingAssignments m e duration
  end.

(** The unit list once the new cohort is merged in. *)
Definition withTrainedUnits (newUnit : IGarrisonUnit) (us : list IGarrisonUnit)
  : list IGarrisonUnit :=
  let index := JS.findIndex (fun u => String.eqb (u_code u) (u_code newUnit)) us in
  if index <? 0 then us ++ [newUnit]
  else match JS.at_ us index with
       | Some u =>
           JS.set_at us index
             {| u_code := u_code u;
                u_quantity := u_quantity u + u_quantity newUnit;
                u_assignments := u_assignments u ++ u_assignments newUnit |}
       | None => us
       end.

Definition addUnit (now nowU : Date) (code : string) (quantity : option Z) (g : IGarrison)
  : Outcome :=
  match findUnitByCode code with
  | None => Threw 404 g
  | Some unit =>
  if unfulfilled now (buildings g) (fun _ => true) (su_requiredEntities unit)
  then Threw 412 g else
  let assignments :=
    trainingAssignments (Z.to_nat (quantityOr1 quantity)) now (su_duration unit) in
  let newUnit :=
    {| u_code := su_code unit; u_quantity := quantityOr1 quantity;
       u_assignments := assignments |} in
  let g1 := withUnits g (withTrainedUnits newUnit (units g)) in
  andThen (updateResources nowU g1) (fun g2 =>
    let r := resources g2 in
    let goldCost := (uc_gold (su_cost unit) * inject_Z (u_quantity newUnit))%Q in
    let woodCost := (uc_wood (su_cost unit) * inject_Z (u_quantity newUnit))%Q in
    let foodCost := (uc_food (su_cost unit) * inject_Z (u_quantity newUnit))%Q in
    if JS.ltb (gold r - goldCost) 0 || JS.ltb (wood r - woodCost) 0
       || JS.ltb (food r - foodCost) 0
    then Threw 412 g2
    else Done (withResources g2
                 (setResource Food (food r - foodCost)
                    (setResource Wood (wood r - woodCost)
                       (setResource Gold (gold r - goldCost) r)))%Q))
  end.

(** *** assignUnit *)

(** [new Date('2099-01-01').getTime()]. *)
Definition harvestEndDate : Date := 4070908800000.

(** [a.buildingId?.toHexString() === garrBuilding._id?.toHexString()]. *)
Definition sameHex (a b : option ObjectId) : bool :=
  match a, b with
  | Some x, Some y => sameId x y
  | None, None => true
  | _, _ => false
  end.

Fixpoint assignLoop (n : nat) (bid : option ObjectId) (l : list IUnitAssignment)
  : list IUnitAssignment :=
  match n with
  | O => l
  | S m =>
      let index :=
        JS.findIndex (fun a => sameHex (a_buildingId a) bid && isHarvest (a_type a)) l in
      assignLoop m bid
        (if index <? 0 then
           l ++ [ {| a_id := None; a_buildingId := bid; a_quantity := 1;
                     a_type := harvest; a_endDate := harvestEndDate |} ]
         else match JS.at_ l index with
              | Some a => JS.set_at l index (withQuantity a (a_quantity a + 1))
              | None => l
              end)
  end.

Definition isNone {A} (o : option A) : bool :=
  match o with None => true | Some _ => false end.

Definition refreshIfPeasant (nowU : Date) (unit : IUnit) (g : IGarrison) : Outcome :=
  if String.eqb (su_code unit) "peasant" then updateResources nowU g else Done g.

Definition assignUnit (now nowU : Date) (buildingId : ObjectId) (code : string)
  (quantity : option Z) (g : IGarrison) : Outcome :=
  match findBuilding g buildingId with
  | None => Threw 404 g
  | Some (garrBuilding, _) =>
  match findBuildingByCode (b_code garrBuilding) with
  | None => Threw 404 g
  | Some building =>
  match sb_harvest building with
  | None => Threw 400 g
  | Some _ =>
  match findUnitByCode code with
  | None => Threw 404 g
  | Some unit =>
  match findUnit g code with
  | None => Threw 404 g
  | Some (garrUnits, uIndex) =>
  let qty := quantityOr1 quantity in
  if qty >? u_quantity garrUnits then Threw 412 g else
  if isBusy now garrBuilding then Threw 412 g else
  let unavailableUnits := unavailableQuantity now (u_assignments garrUnits) in
  if qty >? u_quantity garrUnits - unavailableUnits then Threw 412 g else
  andThen (refreshIfPeasant nowU unit g) (fun g1 =>
    let g2 := withUnits g1
                (JS.set_at (units g1) uIndex
                   (withAssignments garrUnits
                      (assignLoop (Z.to_nat qty) (b_id garrBuilding)
                         (u_assignments garrUnits)))) in
    let r := resources g2 in
    Done (withResources g2
            (if String.eqb (sb_code building) "goldmine" && isNone (goldLastUpdate r)
             then setGoldLastUpdate (Some now) r
             else if String.eqb (sb_code building) "sawmill" && isNone (woodLastUpdate r)
                  then setWoodLastUpdate (Some now) r
                  else r)))
  end end end end end.

(** *** unassignUnit *)

(** [assignments.some(a => a.type === 'harvest' && buildings.find(b =>
    b._id.equals(a.buildingId) && b.code === code))]. *)
Definition hasActiveWorker (code : string) (bs : list IGarrisonBuilding)
  (l : list IUnitAssignment) : bool :=
  existsb (fun a =>
             isHarvest (a_type a)
             && match find (fun b => match b_id b, a_buildingId a with
                                     | Some x, Some y => sameId x y
                                     | _, _ => false
                                     end && String.eqb (b_code b) code) bs with
                | Some _ => true
                | None => false
                end) l.

(** The harvest assignment [unassignUnit] looks up. *)
Definition isHarvestOf (garrBuilding : IGarrisonBuilding) (a : IUnitAssignment) : bool :=
  match b_id garrBuilding, a_buildingId a with
  | Some x, Some y => sameId x y && isHarvest (a_type a)
  | _, _ => false
  end.

(** The assignment list after [quantity] workers left the entry at [index]. *)
Definition unassignFrom (index : Z) (a : IUnitAssignment) (qty : Z)
  (l : list IUnitAssignment) : list IUnitAssignment :=
  let l1 := JS.set_at l index (withQuantity a (a_quantity a - qty)) in
  if a_quantity a - qty =? 0 then JS.splice index 1 l1 else l1.

Definition unassignUnit (nowU : Date) (buildingId : ObjectId) (code : string)
  (quantity : option Z) (g : IGarrison) : Outcome :=
  match findBuilding g buildingId with
  | None => Threw 404 g
  | Some (garrBuilding, _) =>
  match findBuildingByCode (b_code garrBuilding) with
  | None => Threw 404 g
  | Some building =>
  match sb_harvest building with
  | None => Threw 400 g
  | Some _ =>
  match findUnitByCode code with
  | None => Threw 404 g
  | Some unit =>
  match findUnit g code with
  | None => Threw 404 g
  | Some (garrUnits, uIndex) =>
  match findWithIndex (isHarvestOf garrBuilding) (u_assignments garrUnits) with
  | None => Threw 404 g
  | Some (a, index) =>
  let qty := quantityOr1 quantity in
  if a_quantity a <? qty then Threw 412 g else
  andThen (refreshIfPeasant nowU unit g) (fun g1 =>
    let l := unassignFrom index a qty (u_assignments garrUnits) in
    let g2 := withUnits g1 (JS.set_at (units g1) uIndex (withAssignments garrUnits l)) in
    let r := resources g2 in
    Done (withResources g2
            (if String.eqb (sb_code building) "goldmine" then
               if negb (hasActiveWorker (sb_code building) (buildings g2) l)
               then setGoldLastUpdate None r else r
             else if String.eqb (sb_code building) "sawmill" then
               if negb (hasActiveWorker (sb_code building) (buildings g2) l)
               then setWoodLastUpdate None r else r
             else r)))
  end end end end end end.

End Repository.

(** ** Derived notions used by the statements *)

(** Idle availability of a unit cohort at time [at_time]:
    [quantity - sum(unexpired assignment quantities)]. *)
Definition idle (at_time : Date) (u : IGarrisonUnit) : Z :=
  u_quantity u - unavailableQuantity at_time (u_assignments u).

(** The timestamp the accrual loop reads and resets for a building code. *)
Definition lastUpdateOfCode (code : string) (r : IGarrisonResources) : option Date :=
  if String.eqb code "goldmine" then goldLastUpdate r
  else if String.eqb code "sawmill" then woodLastUpdate r
  else None.

(** The timestamp attached to a resource kind ([goldLastUpdate],
    [woodLastUpdate]; food and plot have none). *)
Definition lastUpdateOf (k : ResourceKind) (r : IGarrisonResources) : option Date :=
  match k with
  | Gold => goldLastUpdate r
  | Wood => woodLastUpdate r
  | _ => None
  end.

(** What one visit credits, as the code computes it:
    [Math.floor((rate * ((now - t) / 1000 / 60)) * workers)] in doubles. *)
Definition accrued (rate : Q) (now t : Date) (workers : Z) : Z :=
  gained rate (elapsedMinutes now t) workers.

(** The product the visit floors. *)
Definition accrualProduct (rate : Q) (now t : Date) (workers : Z) : Double.number :=
  Double.mul (Double.mul (Double.ofQ rate) (elapsedMinutes now t)) (Double.ofZ workers).

(** The same amount in exact arithmetic:
    [floor(rate * ((now - t) / 60000) * workers)]. *)
Definition accruedExactly (rate : Q) (now t : Date) (workers : Z) : Z :=
  Qfloor (rate * (inject_Z (now - t) / 60000) * inject_Z workers).

(** ** Notions about the accrual loop and the cancellation *)

Section Notions.
Context `{Collaborators}.

(** The three ways one iteration can end. *)
Inductive IterationResult (now : Date) (b : IGarrisonBuilding) (g : IGarrison)
  : Outcome -> Prop :=
| unknownCode :
    findBuildingByCode (b_code b) = None ->
    IterationResult now b g (Threw typeError g)
| skipped :
    IterationResult now b g (Done g)
| credited st h w t :
    findBuildingByCode (b_code b) = Some st ->
    sb_harvest st = Some h ->
    isBusy now b = false ->
    assignedWorkers (units g) b = Some w ->
    w <> 0 ->
    lastUpdateOfCode (b_code b) (resources g) = Some t ->
    Double.isZero (elapsedMinutes now t) = false ->
    IterationResult now b g
      (Done (withResources g
               (let r := resources g in
                let v := (getResource (h_resource h) r
                          + inject_Z (accrued (h_amount h) now t w))%Q in
                if String.eqb (b_code b) "goldmine"
                then setGoldLastUpdate (Some now) (setResource (h_resource h) v r)
                else setWoodLastUpdate (Some now) (setResource (h_resource h) v r)))).

(** A timestamp is settled at [now] when an iteration at [now] cannot
    accrue from it: it is absent, or no minute has elapsed since. *)
Definition settled (now : Date) (o : option Date) : Prop :=
  match o with
  | None => True
  | Some t => Double.isZero (elapsedMinutes now t) = true
  end.

(** The building passes every test of the iteration that does not look at
    the resources. *)
Definition isActive (now : Date) (us : list IGarrisonUnit) (b : IGarrisonBuilding) : bool :=
  match findBuildingByCode (b_code b) with
  | Some st =>
      match sb_harvest st with
      | Some _ =>
          negb (isBusy now b)
          && match assignedWorkers us b with
             | Some w => negb (w =? 0)
             | None => false
             end
      | None => false
      end
  | None => false
  end.

(** The end date the release step compares the peasants' assignments
    with: that of the entry found at the cancelled index once the
    construction list has been updated. *)
Definition releaseReference (building : IGarrisonBuilding) (target : IOperatedConstruction)
  (cIndex : Z) : option IOperatedConstruction :=
  match c_improvement target with
  | Some _ => JS.at_ (JS.splice cIndex 1 (b_constructions building)) cIndex
  | None => JS.at_ (b_constructions building) cIndex
  end.

Definition releaseIndex (reference : option IOperatedConstruction)
  (l : list IUnitAssignment) : Z :=
  JS.findIndex (fun a => match reference with
                         | Some c => a_endDate a =? c_endDate c
                         | None => false
                         end) l.

End Notions.

(** ** Notions about training *)

Definition mapOutcome (f : IGarrison -> IGarrison) (o : Outcome) : Outcome :=
  match o with
  | Threw s m => Threw s (f m)
  | Done g => Done (f g)
  end.

(** The resources cannot pay for [quantity || 1] units of the kind. *)
Definition cannotPay (unit : IUnit) (quantity : option Z) (r : IGarrisonResources) : bool :=
  JS.ltb (gold r - uc_gold (su_cost unit) * inject_Z (quantityOr1 quantity)) 0
  || JS.ltb (wood r - uc_wood (su_cost unit) * inject_Z (quantityOr1 quantity)) 0
  || JS.ltb (food r - uc_food (su_cost unit) * inject_Z (quantityOr1 quantity)) 0.

(** The cohort [addUnit] builds and merges into the unit list. *)
Definition trainedCohort (now : Date) (unit : IUnit) (quantity : option Z) : IGarrisonUnit :=
  {| u_code := su_code unit; u_quantity := quantityOr1 quantity;
     u_assignments :=
       trainingAssignments (Z.to_nat (quantityOr1 quantity)) now (su_duration unit) |}.


(** The [i]-th assignment of a training batch whose end dates are [step]
    milliseconds apart. *)
Definition trainingSlot (now step i : Z) : IUnitAssignment :=
  {| a_id := None; a_buildingId := None; a_quantity := 1; a_type := instantiation;
     a_endDate := now + (i + 1) * step |}.

(** The no-partial-commit rule read with its ordering clause: when the
    refreshed resources cannot pay, [addUnit] fails with status 412, the
    stored document is what it was, and the in-memory document has not been
    touched when the failure is raised. *)
Definition failsBeforeMutating `{Collaborators} (now nowU : Date) (code : string)
  (quantity : option Z) (g : IGarrison) : Prop :=
  forall unit refreshed,
    findUnitByCode code = Some unit ->
    updateResources nowU g = Done refreshed ->
    cannotPay unit quantity (resources refreshed) = true ->
    exists mem,
      addUnit now nowU code quantity g = Threw 412 mem
      /\ persisted g (addUnit now nowU code quantity g) = g
      /\ mem = g.

(** ** Notions about busy buildings *)

(** The method threw a [Conflict] (409) or a [PreconditionFailed] (412). *)
Definition conflictOrPreconditionFailed (o : Outcome) : Prop :=
  exists mem, o = Threw 409 mem \/ o = Threw 412 mem.

(** The busy-building rule read for every request: whatever else the request
    holds, a request aimed at a building with a construction ending after
    [now] is answered by [Conflict] or [PreconditionFailed] and leaves the
    stored document as it was. *)
Definition busyRejected `{Collaborators} (now nowU : Date) (bid : ObjectId) (g : IGarrison)
  : Prop :=
  forall building bIndex,
    findBuilding g bid = Some (building, bIndex) ->
    isBusy now building = true ->
    (forall cId aId w,
        conflictOrPreconditionFailed (upgradeBuilding now nowU cId aId bid w g)
        /\ persisted g (upgradeBuilding now nowU cId aId bid w g) = g)
    /\ (forall cId aId w,
           conflictOrPreconditionFailed (extendBuilding now cId aId bid w g)
           /\ persisted g (extendBuilding now cId aId bid w g) = g)
    /\ (forall code quantity,
           conflictOrPreconditionFailed (assignUnit now nowU bid code quantity g)
           /\ persisted g (assignUnit now nowU bid code quantity g) = g).

(** ** Notions about harvest assignments *)

(** Some harvest assignment of the list names an owned building of the
    given code. *)
Definition stillWorked (code : string) (bs : list IGarrisonBuilding)
  (l : list IUnitAssignment) : Prop :=
  exists a b i,
    In a l /\ a_type a = harvest
    /\ In b bs /\ b_code b = code
    /\ b_id b = Some i /\ a_buildingId a = Some i.

(** ** Sequences of requests

    The operations the repository exposes on an existing garrison, with
    the payload and the fresh identifiers each one consumes, and the two
    clock readings of the call: [now] taken on entry and [nowU] taken by
    [updateResources] when the method calls it. *)

Inductive Request :=
| AddBuilding (constructionId buildingId assignmentId : ObjectId) (code : string)
    (workforce : Z)
| CancelBuildingConstruction (buildingId constructionId : ObjectId)
| UpgradeBuilding (constructionId assignmentId buildingId : ObjectId) (workforce : Z)
| ExtendBuilding (constructionId assignmentId buildingId : ObjectId) (workforce : Z)
| AddUnit (code : string) (quantity : option Z)
| AssignUnit (buildingId : ObjectId) (code : string) (quantity : option Z)
| UnassignUnit (buildingId : ObjectId) (code : string) (quantity : option Z).

Record Call := mkCall {
  call_now : Date;
  call_nowU : Date;
  call_request : Request
}.

Section Serving.
Context `{Collaborators}.

Definition serve (c : Call) (g : IGarrison) : Outcome :=
  let now := call_now c in
  let nowU := call_nowU c in
  match call_request c with
  | AddBuilding cId bId aId code w => addBuilding now nowU cId bId aId code w g
  | CancelBuildingConstruction bId cId => cancelBuildingConstruction bId cId g
  | UpgradeBuilding cId aId bId w => upgradeBuilding now nowU cId aId bId w g
  | ExtendBuilding cId aId bId w => extendBuilding now cId aId bId w g
  | AddUnit code q => addUnit now nowU code q g
  | AssignUnit bId code q => assignUnit now nowU bId code q g
  | UnassignUnit bId code q => unassignUnit nowU bId code q g
  end.

(** The stored document after the calls were served one after the other,
    a failed call leaving it as it was. *)
Fixpoint serveAll (cs : list Call) (db : IGarrison) : IGarrison :=
  match cs with
  | [] => db
  | c :: rest => serveAll rest (persisted db (serve c db))
  end.

(** The catalog holds no negative cost, harvest amount or factor. *)
Definition nonnegativeCatalog : Prop :=
  (forall code st,
      findBuildingByCode code = Some st ->
      (0 <= bc_gold (sb_cost st))%Q /\ (0 <= bc_wood (sb_cost st))%Q
      /\ (0 <= bc_plot (sb_cost st))%Q
      /\ forall h, sb_harvest st = Some h -> (0 <= h_amount h)%Q)
  /\ (0 <= defaultFactor)%Q /\ (0 <= decreasedFactor)%Q.

End Serving.

(** The clock never goes back: within a call and from one call to the
    next. *)
Fixpoint clockOrdered (t : Date) (cs : list Call) : Prop :=
  match cs with
  | [] => True
  | c :: rest => t <= call_now c /\ call_now c <= call_nowU c /\ clockOrdered (call_nowU c) rest
  end.

Definition nonnegative (r : IGarrisonResources) : Prop :=
  (0 <= gold r)%Q /\ (0 <= wood r)%Q /\ (0 <= food r)%Q /\ (0 <= plot r)%Q.

(** No timestamp lies after [t]. *)
Definition notAfter (t : Date) (r : IGarrisonResources) : Prop :=
  (forall x, goldLastUpdate r = Some x -> x <= t)
  /\ (forall x, woodLastUpdate r = Some x -> x <= t).

(** No harvest assignment holds a negative quantity. *)
Definition harvestersCounted (us : list IGarrisonUnit) : Prop :=
  forall u a, In u us -> In a (u_assignments u) -> a_type a = harvest -> 0 <= a_quantity a.

(** The invariant carried along a sequence of calls. *)
Definition sound (t : Date) (g : IGarrison) : Prop :=
  nonnegative (resources g) /\ notAfter t (resources g) /\ harvestersCounted (units g).

(** Some unit of the garrison holds a harvest assignment at an owned
    building of the given code. *)
Definition harvestedBy (code : string) (g : IGarrison) : Prop :=
  exists u, In u (units g) /\ stillWorked code (buildings g) (u_assignments u).

(** ** The second copy of assignUnit (unnamed/part_002)

    The loop of the second copy looks the harvest assignment up once,
    before the loop ([aIndex]), where [garrison.repo.ts] looks it up at
    every round. *)

Fixpoint assignLoop_rev (n : nat) (aIndex : Z) (bid : option ObjectId)
  (l : list IUnitAssignment) : list IUnitAssignment :=
  match n with
  | O => l
  | S m =>
      assignLoop_rev m aIndex bid
        (if aIndex <? 0 then
           l ++ [ {| a_id := None; a_buildingId := bid; a_quantity := 1;
                     a_type := harvest; a_endDate := harvestEndDate |} ]
         else match JS.at_ l aIndex with
              | Some a => JS.set_at l aIndex (withQuantity a (a_quantity a + 1))
              | None => l
              end)
  end.

(** ** Notions for the further properties *)

(** Every harvest assignment holds a positive quantity. *)
Definition harvestersPositive (us : list IGarrisonUnit) : Prop :=
  forall u a, In u us -> In a (u_assignments u) -> a_type a = harvest -> 0 < a_quantity a.

(** The look-up of [assignUnit]'s loop at a building that has an id. *)
Definition isHarvestAt (x : ObjectId) (a : IUnitAssignment) : bool :=
  sameHex (a_buildingId a) (Some x) && isHarvest (a_type a).

(** The harvest assignment [assignUnit] creates. *)
Definition newHarvest (bid : option ObjectId) (quantity : Z) : IUnitAssignment :=
  {| a_id := None; a_buildingId := bid; a_quantity := quantity;
     a_type := harvest; a_endDate := harvestEndDate |}.

(** The owned buildings of a code. *)
Definition ownedOfCode (code : string) (bs : list IGarrisonBuilding)
  : list IGarrisonBuilding :=
  filter (fun b => String.eqb (b_code b) code) bs.

(** [findByCode] answers with an entity of the code it was asked for. *)
Definition answersByCode `{Collaborators} : Prop :=
  forall code st, findBuildingByCode code = Some st -> sb_code st = code.

(** No construction of the building carries the id. *)
Definition freshConstruction (id : ObjectId) (b : IGarrisonBuilding) : Prop :=
  forall c, In c (b_constructions b) -> c_id c <> id.

(** No owned building carries the id. *)
Definition freshBuilding (id : ObjectId) (bs : list IGarrisonBuilding) : Prop :=
  forall b, In b bs -> b_id b <> Some id.

(** A required building is fulfilled at [now]: the garrison owns a
    building of that code whose instantiation is over and, when an upgrade
    level is asked for, which carries a finished improvement of that level
    at least. *)
Definition fulfilled (now : Date) (bs : list IGarrisonBuilding) (b : IRequiredBuilding)
  : Prop :=
  exists existing,
    find (fun gB => String.eqb (b_code gB) (rb_code b)) bs = Some existing
    /\ (forall c, In c (b_constructions existing) ->
                  c_improvement c = None -> c_endDate c <= now)
    /\ (forall l, rb_upgradeLevel b = Some l -> l <> 0 ->
                  exists c i,
                    In c (b_constructions existing)
                    /\ c_improvement c = Some i /\ l <= i_level i
                    /\ c_endDate c <= now).

(** The first owned building of the required code is missing, or its
    instantiation is still under way at [now]. *)
Definition notStanding (now : Date) (bs : list IGarrisonBuilding) (b : IRequiredBuilding)
  : Prop :=
  match find (fun gB => String.eqb (b_code gB) (rb_code b)) bs with
  | None => True
  | Some existing =>
      exists c, In c (b_constructions existing)
                /\ c_improvement c = None /\ now < c_endDate c
  end.

(** ** A small catalog and garrisons for the examples *)

Module Demo.

Definition goldmine : IBuilding :=
  {| sb_code := "goldmine";
     sb_cost := {| bc_gold := 100; bc_wood := 50; bc_plot := 5 |};
     sb_minWorkforce := 1; sb_duration := 60;
     sb_requiredEntities := None;
     sb_extension := Some {| ext_requiredEntities := None; ext_maxLevel := Some 3 |};
     sb_harvest := Some {| h_resource := Gold; h_amount := 3; h_maxWorkforce := Some 5 |} |}.

Definition sawmill : IBuilding :=
  {| sb_code := "sawmill";
     sb_cost := {| bc_gold := 80; bc_wood := 20; bc_plot := 4 |};
     sb_minWorkforce := 1; sb_duration := 45;
     sb_requiredEntities := None;
     sb_extension := None;
     sb_harvest := Some {| h_resource := Wood; h_amount := 2; h_maxWorkforce := Some 5 |} |}.

(** A harvest building for gold that is not the gold mine. *)
Definition quarry : IBuilding :=
  {| sb_code := "quarry";
     sb_cost := {| bc_gold := 60; bc_wood := 60; bc_plot := 3 |};
     sb_minWorkforce := 1; sb_duration := 30;
     sb_requiredEntities := None;
     sb_extension := None;
     sb_harvest := Some {| h_resource := Gold; h_amount := 1; h_maxWorkforce := Some 2 |} |}.

(** A gift building: its harvest has no [maxWorkforce]. *)
Definition farm : IBuilding :=
  {| sb_code := "farm";
     sb_cost := {| bc_gold := 40; bc_wood := 30; bc_plot := 2 |};
     sb_minWorkforce := 1; sb_duration := 20;
     sb_requiredEntities := None;
     sb_extension := None;
     sb_harvest := Some {| h_resource := Food; h_amount := 3; h_maxWorkforce := None |} |}.

Definition barracks : IBuilding :=
  {| sb_code := "barracks";
     sb_cost := {| bc_gold := 150; bc_wood := 100; bc_plot := 6 |};
     sb_minWorkforce := 2; sb_duration := 90;
     sb_requiredEntities := None;
     sb_extension := None;
     sb_harvest := None |}.

Definition peasant : IUnit :=
  {| su_code := "peasant";
     su_cost := {| uc_gold := 25; uc_wood := 0; uc_food := 1 |};
     su_duration := 10;
     su_requiredEntities := None |}.

Definition footman : IUnit :=
  {| su_code := "footman";
     su_cost := {| uc_gold := 60; uc_wood := 10; uc_food := 1 |};
     su_duration := 20;
     su_requiredEntities := None |}.

Definition catalog : Collaborators :=
  {| findBuildingByCode := fun code =>
       if String.eqb code "goldmine" then Some goldmine
       else if String.eqb code "sawmill" then Some sawmill
       else if String.eqb code "quarry" then Some quarry
       else if String.eqb code "farm" then Some farm
       else if String.eqb code "barracks" then Some barracks
       else None;
     findUnitByCode := fun code =>
       if String.eqb code "peasant" then Some peasant
       else if String.eqb code "footman" then Some footman
       else None;
     defaultFactor := 16 # 10;
     decreasedFactor := 13 # 10;
     areSameString := String.eqb;
     checkWorkforceCoherence := fun _ _ _ _ _ _ => None;
     checkConstructionRequirements := fun _ _ _ => None;
     computeConstructionDuration := fun _ st _ => sb_duration st;
     checkBuildingImprovable := fun _ _ _ => inr (1, None);
     improvementCost := fun cost _ _ => cost |}.

(** A finished construction (it ended at time 0). *)
Definition built (id : ObjectId) : IOperatedConstruction :=
  {| c_id := id; c_beginDate := 0; c_endDate := 0; c_workforce := 1;
     c_improvement := None |}.

Definition harvesters (bid : ObjectId) (n : Z) : IUnitAssignment :=
  {| a_id := None; a_buildingId := Some bid; a_quantity := n; a_type := harvest;
     a_endDate := harvestEndDate |}.

Definition stock (t : option Date) : IGarrisonResources :=
  {| gold := 625; wood := 320; food := 3; plot := 32;
     goldLastUpdate := t; woodLastUpdate := None |}.

(** One gold mine worked by two peasants since time 0. *)
Definition mine1 : IGarrisonBuilding :=
  {| b_id := Some 1; b_code := "goldmine"; b_constructions := [built 11] |}.

Definition oneMine : IGarrison :=
  {| resources := stock (Some 0);
     buildings := [mine1];
     units := [ {| u_code := "peasant"; u_quantity := 3;
                   u_assignments := [harvesters 1 2] |} ] |}.

(** Two gold mines, worked by two peasants and one peasant. *)
Definition mine2 : IGarrisonBuilding :=
  {| b_id := Some 2; b_code := "goldmine"; b_constructions := [built 21] |}.

Definition twoMines : IGarrison :=
  {| resources := stock (Some 0);
     buildings := [mine1; mine2];
     units := [ {| u_code := "peasant"; u_quantity := 3;
                   u_assignments := [harvesters 1 2; harvesters 2 1] |} ] |}.

(** A quarry worked by one peasant, the gold timestamp being set. *)
Definition pit : IGarrisonBuilding :=
  {| b_id := Some 3; b_code := "quarry"; b_constructions := [built 31] |}.

Definition withQuarry : IGarrison :=
  {| resources := stock (Some 0);
     buildings := [pit];
     units := [ {| u_code := "peasant"; u_quantity := 3;
                   u_assignments := [harvesters 3 1] |} ] |}.

(** A gold mine whose first extension (level 1) is under way until time
    100000, one peasant being committed to the site, and a saw mill worked
    by one peasant. *)
Definition extension1 : IOperatedConstruction :=
  {| c_id := 12; c_beginDate := 50000; c_endDate := 100000; c_workforce := 1;
     c_improvement := Some {| i_type := extension; i_level := 1 |} |}.

Definition mineSite : IGarrisonBuilding :=
  {| b_id := Some 1; b_code := "goldmine"; b_constructions := [built 11; extension1] |}.

Definition mill : IGarrisonBuilding :=
  {| b_id := Some 2; b_code := "sawmill"; b_constructions := [built 21] |}.

Definition onSite : IUnitAssignment :=
  {| a_id := Some 5; a_buildingId := Some 1; a_quantity := 1; a_type := construction;
     a_endDate := 100000 |}.

Definition extending : IGarrison :=
  {| resources := stock None;
     buildings := [mineSite; mill];
     units := [ {| u_code := "peasant"; u_quantity := 3;
                   u_assignments := [onSite; harvesters 2 1] |} ] |}.

(** Barracks under construction until time 100000. *)
Definition barracksSite : IGarrisonBuilding :=
  {| b_id := Some 7; b_code := "barracks";
     b_constructions := [ {| c_id := 71; c_beginDate := 10000; c_endDate := 100000;
                             c_workforce := 2; c_improvement := None |} ] |}.

Definition fortifying : IGarrison :=
  {| resources := stock None;
     buildings := [barracksSite];
     units := [ {| u_code := "peasant"; u_quantity := 3;
                   u_assignments :=
                     [ {| a_id := Some 72; a_buildingId := Some 7; a_quantity := 2;
                          a_type := construction; a_endDate := 100000 |} ] |} ] |}.

(** A finished gold mine and three idle peasants. *)
Definition settledMine : IGarrison :=
  {| resources := stock None;
     buildings := [mine1];
     units := [ {| u_code := "peasant"; u_quantity := 3; u_assignments := [] |} ] |}.

(** The gold mine worked by two peasants and one footman. *)
Definition mixedCrew : IGarrison :=
  {| resources := stock (Some 0);
     buildings := [mine1];
     units := [ {| u_code := "peasant"; u_quantity := 3;
                   u_assignments := [harvesters 1 2] |};
                {| u_code := "footman"; u_quantity := 1;
                   u_assignments := [harvesters 1 1] |} ] |}.

(** A gold mine extended twice (levels 1 and 2, both finished) and twelve
    idle peasants. *)
Definition extended (id level : Z) : IOperatedConstruction :=
  {| c_id := id; c_beginDate := 0; c_endDate := 0; c_workforce := 2;
     c_improvement := Some {| i_type := extension; i_level := level |} |}.

Definition grownMine : IGarrisonBuilding :=
  {| b_id := Some 1; b_code := "goldmine";
     b_constructions := [built 11; extended 12 1; extended 13 2] |}.

Definition grown : IGarrison :=
  {| resources := stock None;
     buildings := [grownMine];
     units := [ {| u_code := "peasant"; u_quantity := 12; u_assignments := [] |} ] |}.

(** A finished gold mine and six idle peasants. *)
Definition crew : IGarrison :=
  {| resources := stock None;
     buildings := [mine1];
     units := [ {| u_code := "peasant"; u_quantity := 6; u_assignments := [] |} ] |}.

(** A unit that requires barracks, and the catalog that knows it. *)
Definition knight : IUnit :=
  {| su_code := "knight";
     su_cost := {| uc_gold := 120; uc_wood := 20; uc_food := 2 |};
     su_duration := 30;
     su_requiredEntities :=
       Some [ {| rb_code := "barracks"; rb_upgradeLevel := None; rb_level := None |} ] |}.

Definition catalogWithKnight : Collaborators :=
  {| findBuildingByCode := findBuildingByCode (Collaborators := catalog);
     findUnitByCode := fun code =>
       if String.eqb code "knight" then Some knight
       else findUnitByCode (Collaborators := catalog) code;
     defaultFactor := 16 # 10;
     decreasedFactor := 13 # 10;
     areSameString := String.eqb;
     checkWorkforceCoherence := fun _ _ _ _ _ _ => None;
     checkConstructionRequirements := fun _ _ _ => None;
     computeConstructionDuration := fun _ st _ => sb_duration st;
     checkBuildingImprovable := fun _ _ _ => inr (1, None);
     improvementCost := fun cost _ _ => cost |}.

(** A session: build a gold mine with two peasants, put two peasants to
    harvest once it stands, train a peasant ten minutes later, take the
    harvesters off. *)
Definition session : list Call :=
  [ mkCall 1000 1001 (AddBuilding 101 100 102 "goldmine" 2);
    mkCall 70000 70002 (AssignUnit 100 "peasant" (Some 2));
    mkCall 670000 670003 (AddUnit "peasant" (Some 1));
    mkCall 700000 700001 (UnassignUnit 100 "peasant" (Some 2)) ].

End Demo.

(** * Properties *)

(** ** Binary64: signs and zeros *)

Lemma binary_round_aux_sign s m e l :
  match binary_round_aux Double.prec Double.emax s m e l with
  | S754_zero s' | S754_infinity s' | S754_finite s' _ _ => s' = s
  | S754_nan => True
  end.
Proof.
  unfold binary_round_aux.
  destruct (shr_fexp Double.prec Double.emax m e l) as [mrs' e'].
  destruct (shr_fexp Double.prec Double.emax _ e' loc_Exact) as [mrs'' e''].
  destruct (shr_m mrs''); auto.
  destruct (Z.leb e'' (Double.emax - Double.prec)); reflexivity.
Qed.

Lemma binary_round_aux_nonnegative m e l :
  Double.nonnegative (binary_round_aux Double.prec Double.emax false m e l) = true.
Proof.
  pose proof (binary_round_aux_sign false m e l) as S.
  destruct (binary_round_aux Double.prec Double.emax false m e l); auto;
    rewrite S; reflexivity.
Qed.

Lemma ofZ_nonnegative z : 0 <= z -> Double.nonnegative (Double.ofZ z) = true.
Proof.
  intros Hz. unfold Double.ofZ, binary_normalize.
  destruct z as [|p|p]; [reflexivity| |lia].
  unfold binary_round. destruct (shl_align _ _ _) as [mz ez].
  apply binary_round_aux_nonnegative.
Qed.

Lemma ofQ_nonnegative q : (0 <= q)%Q -> Double.nonnegative (Double.ofQ q) = true.
Proof.
  intros Hq. unfold Double.ofQ.
  destruct q as [n d]. unfold Qle in Hq. cbn in Hq. cbn [Qnum Qden].
  destruct n as [|p|p]; [reflexivity| |lia].
  destruct (SFdiv_core_binary _ _ _ _ _ _) as [[mz ez] lz].
  apply binary_round_aux_nonnegative.
Qed.

Lemma mul_nonnegative x y :
  Double.nonnegative x = true -> Double.nonnegative y = true ->
  Double.nonnegative (Double.mul x y) = true.
Proof.
  unfold Double.mul.
  destruct x as [sx|sx| |sx mx ex], y as [sy|sy| |sy my ey];
    cbn [SFmul Double.nonnegative]; intros Hx Hy; try reflexivity;
    try (destruct sx; [discriminate Hx|]); try (destruct sy; [discriminate Hy|]);
    try reflexivity.
  cbn [xorb]. apply binary_round_aux_nonnegative.
Qed.

Lemma div_nonnegative x m e :
  Double.nonnegative x = true ->
  Double.nonnegative (Double.div x (S754_finite false m e)) = true.
Proof.
  unfold Double.div.
  destruct x as [sx|sx| |sx mx ex]; cbn [SFdiv Double.nonnegative]; intros Hx;
    try reflexivity; try (destruct sx; [discriminate Hx|]); try reflexivity.
  cbn [xorb].
  destruct (SFdiv_core_binary _ _ _ _ _ _) as [[mz ez] lz].
  apply binary_round_aux_nonnegative.
Qed.

Lemma elapsedMinutes_nonnegative now t :
  t <= now -> Double.nonnegative (elapsedMinutes now t) = true.
Proof.
  intros L. unfold elapsedMinutes.
  change (Double.ofZ 60) with (S754_finite false 8444249301319680 (-47)).
  change (Double.ofZ 1000) with (S754_finite false 8796093022208000 (-43)).
  apply div_nonnegative, div_nonnegative, ofZ_nonnegative. lia.
Qed.

Lemma toQ_nonnegative x : Double.nonnegative x = true -> (0 <= Double.toQ x)%Q.
Proof.
  destruct x as [s|s| |s m e]; cbn [Double.toQ]; try (intros _; apply Qle_refl).
  destruct s; [discriminate|]. intros _.
  destruct e as [|p|p]; unfold Qle; cbn [Qnum Qden inject_Z]; [lia| |lia].
  rewrite Z.mul_0_l, Z.mul_1_r. apply Z.mul_nonneg_nonneg; [lia|].
  apply Z.pow_nonneg. lia.
Qed.

Lemma floor_of_nonnegative x : Double.nonnegative x = true -> 0 <= Double.floor x.
Proof.
  intros N. unfold Double.floor.
  change 0 with (Qfloor 0). apply Qfloor_resp_le. apply toQ_nonnegative. exact N.
Qed.

Lemma pow_nonnegative b e : (0 <= b)%Q -> Double.nonnegative (Double.pow b e) = true.
Proof.
  intros Hb. unfold Double.pow. apply ofQ_nonnegative.
  apply Qpower_0_le. apply toQ_nonnegative. apply ofQ_nonnegative. exact Hb.
Qed.

(** ** Binary64: magnitudes *)

Lemma digits2_size p : digits2_pos p = Pos.size p.
Proof. induction p; cbn; congruence. Qed.

Lemma digits2_log2 p : Zpos (digits2_pos p) = Z.log2 (Zpos p) + 1.
Proof.
  rewrite digits2_size. destruct p; cbn; try reflexivity; rewrite Pos2Z.inj_succ; lia.
Qed.

Lemma shr_1_half r : 0 <= shr_m r -> shr_m (shr_1 r) = shr_m r / 2.
Proof.
  destruct r as [m r s]. cbn [shr_m]. intros Hm.
  destruct m as [|p|p]; [reflexivity| |lia].
  destruct p; cbn [shr_1 shr_m].
  - change (Zpos p~1) with (2 * Zpos p + 1). apply Z.div_unique with 1; lia.
  - change (Zpos p~0) with (2 * Zpos p). apply Z.div_unique with 0; lia.
  - reflexivity.
Qed.

Lemma pow2_double a : 0 <= a -> 2 ^ (2 * a) = 2 ^ a * 2 ^ a.
Proof. intros Ha. replace (2 * a) with (a + a) by lia. apply Z.pow_add_r; lia. Qed.

Lemma pow2_xI p : 2 ^ Zpos p~1 = 2 * (2 ^ Zpos p * 2 ^ Zpos p).
Proof.
  change (Zpos p~1) with (2 * Zpos p + 1). rewrite Z.pow_add_r by lia.
  rewrite pow2_double by lia. ring.
Qed.

Lemma pow2_xO p : 2 ^ Zpos p~0 = 2 ^ Zpos p * 2 ^ Zpos p.
Proof. change (Zpos p~0) with (2 * Zpos p). apply pow2_double. lia. Qed.

Lemma shr_m_iter p : forall r,
  0 <= shr_m r -> shr_m (iter_pos shr_1 p r) = shr_m r / 2 ^ Zpos p.
Proof.
  induction p as [p IH|p IH|]; intros r Hr; cbn [iter_pos].
  - assert (H1 : 0 <= shr_m (shr_1 r)).
    { rewrite shr_1_half by exact Hr. apply Z.div_pos; lia. }
    assert (H2 : 0 <= shr_m (iter_pos shr_1 p (shr_1 r))).
    { rewrite IH by exact H1. apply Z.div_pos; lia. }
    rewrite IH by exact H2. rewrite IH by exact H1. rewrite shr_1_half by exact Hr.
    rewrite !Z.div_div by lia. rewrite pow2_xI. f_equal; ring.
  - assert (H2 : 0 <= shr_m (iter_pos shr_1 p r)).
    { rewrite IH by exact Hr. apply Z.div_pos; lia. }
    rewrite IH by exact H2. rewrite IH by exact Hr.
    rewrite !Z.div_div by lia. rewrite pow2_xO. reflexivity.
  - rewrite shr_1_half by exact Hr. reflexivity.
Qed.

Lemma atLeast_weaken k k' x : k' <= k -> Double.atLeast k x -> Double.atLeast k' x.
Proof. destruct x; cbn; auto. lia. Qed.

Lemma Zdigits2_log2 m : 0 < m -> Zdigits2 m = Z.log2 m + 1.
Proof. destruct m as [|p|p]; try lia. intros _. apply digits2_log2. Qed.

Lemma shr_m_of_loc m l : shr_m (shr_record_of_loc m l) = m.
Proof. destruct l as [|[]]; reflexivity. Qed.

Lemma shr_positive m l e n :
  0 < m -> n < Zdigits2 m ->
  0 < shr_m (fst (shr (shr_record_of_loc m l) e n))
  /\ Zdigits2 (shr_m (fst (shr (shr_record_of_loc m l) e n)))
     + snd (shr (shr_record_of_loc m l) e n) = Zdigits2 m + e
  /\ Zdigits2 (shr_m (fst (shr (shr_record_of_loc m l) e n))) <= Z.max (Zdigits2 m - n) (Zdigits2 m)
  /\ Zdigits2 (shr_m (fst (shr (shr_record_of_loc m l) e n))) = Z.min (Zdigits2 m - n) (Zdigits2 m).
Proof.
  intros Hm Hn. rewrite (Zdigits2_log2 m Hm) in *.
  destruct n as [|p|p]; cbn [shr fst snd]; rewrite ?shr_m_of_loc.
  - rewrite (Zdigits2_log2 m Hm). repeat split; lia.
  - rewrite shr_m_iter by (rewrite shr_m_of_loc; lia). rewrite shr_m_of_loc.
    rewrite <- Z.shiftr_div_pow2 by lia.
    assert (L : Z.log2 (Z.shiftr m (Zpos p)) = Z.log2 m - Zpos p).
    { rewrite Z.log2_shiftr by exact Hm. lia. }
    assert (P : 0 < Z.shiftr m (Zpos p)).
    { rewrite Z.shiftr_div_pow2 by lia.
      apply Z.div_str_pos. split; [apply Z.pow_pos_nonneg; lia|].
      etransitivity; [|apply Z.log2_spec; exact Hm].
      apply Z.pow_le_mono_r; lia. }
    rewrite (Zdigits2_log2 _ P), L. repeat split; lia.
  - rewrite (Zdigits2_log2 m Hm). repeat split; lia.
Qed.

Lemma round_nearest_even_bounds m l :
  m <= round_nearest_even m l <= m + 1.
Proof. destruct l as [|[]]; cbn; try lia. destruct (Z.even m); lia. Qed.

Lemma round_atLeast s mx ex lx :
  -1021 <= Zpos (digits2_pos mx) + ex ->
  Double.atLeast (Zpos (digits2_pos mx) + ex) (binary_round_aux 53 1024 s (Zpos mx) ex lx).
Proof.
  intros Big. unfold binary_round_aux, shr_fexp.
  change (Zdigits2 (Zpos mx)) with (Zpos (digits2_pos mx)).
  set (D := Zpos (digits2_pos mx)) in *.
  assert (F1 : fexp 53 1024 (D + ex) = D + ex - 53).
  { unfold fexp, emin. lia. }
  rewrite F1.
  destruct (shr_positive (Zpos mx) lx ex (D + ex - 53 - ex)) as (P1 & S1 & _ & M1);
    [lia|change (Zdigits2 (Zpos mx)) with D; lia|].
  change (Zdigits2 (Zpos mx)) with D in *.
  destruct (shr (shr_record_of_loc (Zpos mx) lx) ex (D + ex - 53 - ex)) as [r1 e1].
  cbn [fst snd] in *.
  pose proof (round_nearest_even_bounds (shr_m r1) (loc_of_shr_record r1)) as B.
  set (m2 := round_nearest_even (shr_m r1) (loc_of_shr_record r1)) in *.
  assert (P2 : 0 < m2) by lia.
  assert (D2 : Zdigits2 (shr_m r1) <= Zdigits2 m2 <= Zdigits2 (shr_m r1) + 1).
  { rewrite (Zdigits2_log2 _ P1), (Zdigits2_log2 _ P2). split.
    - apply Z.add_le_mono_r. apply Z.log2_le_mono. lia.
    - assert (Z.log2 m2 <= Z.log2 (Z.succ (shr_m r1))) by (apply Z.log2_le_mono; lia).
      pose proof (Z.log2_succ_le (shr_m r1)). lia. }
  assert (F2 : fexp 53 1024 (Zdigits2 m2 + e1) = Zdigits2 m2 + e1 - 53).
  { unfold fexp, emin. lia. }
  rewrite F2.
  destruct (shr_positive m2 loc_Exact e1 (Zdigits2 m2 + e1 - 53 - e1)) as (P3 & S3 & _);
    [exact P2|lia|].
  destruct (shr (shr_record_of_loc m2 loc_Exact) e1 (Zdigits2 m2 + e1 - 53 - e1)) as [r3 e3].
  cbn [fst snd] in *.
  destruct (shr_m r3) as [|m3|m3]; try lia.
  destruct (e3 <=? 1024 - 53); cbn [Double.atLeast]; [|exact I].
  change (Zdigits2 (Zpos m3)) with (Zpos (digits2_pos m3)) in S3. lia.
Qed.

Lemma digits2_iter_xO m d :
  Zpos (digits2_pos (Pos.iter xO m d)) = Zpos (digits2_pos m) + Zpos d.
Proof.
  induction d as [|d IH] using Pos.peano_ind.
  - cbn. lia.
  - rewrite Pos.iter_succ. cbn [digits2_pos]. rewrite Pos2Z.inj_succ, IH. lia.
Qed.

Lemma normalize_atLeast (d : Z) :
  0 < d -> Double.atLeast 1 (binary_normalize 53 1024 d 0 false).
Proof.
  destruct d as [|p|p]; try lia. intros _.
  unfold binary_normalize, binary_round, shl_align.
  assert (One : 1 <= Zpos (digits2_pos p)) by lia.
  destruct (fexp 53 1024 (Zpos (digits2_pos p) + 0) - 0) as [|q|q] eqn:E.
  - apply (atLeast_weaken (Zpos (digits2_pos p) + 0)); [lia|].
    apply (round_atLeast false p 0 loc_Exact). lia.
  - apply (atLeast_weaken (Zpos (digits2_pos p) + 0)); [lia|].
    apply (round_atLeast false p 0 loc_Exact). lia.
  - assert (Ez : fexp 53 1024 (Zpos (digits2_pos p) + 0) = Zneg q).
    { rewrite <- E. symmetry. apply Z.sub_0_r. }
    rewrite Ez.
    apply (atLeast_weaken (Zpos (digits2_pos (Pos.iter xO p q)) + Zneg q));
      [rewrite digits2_iter_xO; lia|].
    apply (round_atLeast false (Pos.iter xO p q) (Zneg q) loc_Exact).
    rewrite digits2_iter_xO. lia.
Qed.

Lemma log2_div a b :
  0 < b -> Z.log2 b + 1 <= Z.log2 a -> Z.log2 a - Z.log2 b - 1 <= Z.log2 (a / b).
Proof.
  intros Hb L.
  assert (Ha : 0 < a).
  { destruct (Z.lt_trichotomy a 0) as [N | [-> | P]]; [|cbn in L|exact P].
    - rewrite (Z.log2_nonpos a) in L by lia. pose proof (Z.log2_nonneg b). lia.
    - pose proof (Z.log2_nonneg b). lia. }
  destruct (Z.log2_spec a Ha) as [La _].
  destruct (Z.log2_spec b Hb) as [_ Ub].
  pose proof (Z.log2_nonneg b) as Nb.
  assert (Q : 2 ^ (Z.log2 a - Z.log2 b - 1) <= a / b).
  { etransitivity; [|apply Z.div_le_compat_l with (q := b) (r := 2 ^ Z.succ (Z.log2 b)); lia].
    etransitivity; [|apply Z.div_le_mono; [apply Z.pow_pos_nonneg; lia|exact La]].
    replace (Z.log2 a) with ((Z.log2 a - Z.log2 b - 1) + Z.succ (Z.log2 b)) at 2 by lia.
    rewrite Z.pow_add_r by lia. rewrite Z.div_mul; [lia|].
    apply Z.pow_nonzero; lia. }
  rewrite <- (Z.log2_pow2 (Z.log2 a - Z.log2 b - 1)) by lia.
  apply Z.log2_le_mono. exact Q.
Qed.

Lemma div_atLeast k x my ey :
  Double.atLeast k x ->
  -1021 <= k - (Zpos (digits2_pos my) + ey) ->
  Double.atLeast (k - (Zpos (digits2_pos my) + ey)) (SFdiv 53 1024 x (S754_finite false my ey)).
Proof.
  destruct x as [sx|sx| |sx mx ex]; cbn [Double.atLeast SFdiv]; try contradiction; [auto|].
  intros Hk Big. unfold SFdiv_core_binary.
  change (Zdigits2 (Zpos mx)) with (Zpos (digits2_pos mx)).
  change (Zdigits2 (Zpos my)) with (Zpos (digits2_pos my)).
  set (d1 := Zpos (digits2_pos mx)) in *. set (d2 := Zpos (digits2_pos my)) in *.
  assert (F : fexp 53 1024 (d1 + ex - (d2 + ey)) = d1 + ex - (d2 + ey) - 53).
  { unfold fexp, emin. lia. }
  rewrite F.
  set (e' := Z.min (d1 + ex - (d2 + ey) - 53) (ex - ey)).
  set (s := ex - ey - e').
  assert (Hs : 0 <= s /\ d2 - d1 + 53 <= s) by (unfold s, e'; lia).
  set (m' := match s with Zpos _ => Z.shiftl (Zpos mx) s | Z0 => Zpos mx | Zneg _ => 0 end).
  assert (Em : m' = Zpos mx * 2 ^ s).
  { unfold m'. destruct s as [|p|p] eqn:Es; [lia| |lia].
    rewrite Z.shiftl_mul_pow2 by lia. reflexivity. }
  assert (Lm : Z.log2 m' = d1 - 1 + s).
  { rewrite Em. rewrite Z.log2_mul_pow2 by lia.
    unfold d1. rewrite digits2_log2. lia. }
  assert (Ly : Z.log2 (Zpos my) = d2 - 1) by (unfold d2; rewrite digits2_log2; lia).
  pose proof (log2_div m' (Zpos my) ltac:(lia) ltac:(lia)) as Lq.
  unfold Z.div in Lq.
  destruct (Z.div_eucl m' (Zpos my)) as [q r]. cbn [fst] in Lq.
  assert (Pq : 0 < q).
  { destruct (Z.lt_trichotomy q 0) as [N | [-> | P]]; [|change (Z.log2 0) with 0 in Lq; lia|exact P].
    rewrite (Z.log2_nonpos q) in Lq by lia. lia. }
  destruct q as [|mq|mq]; try lia.
  assert (Dq : d1 + ex - (d2 + ey) <= Zpos (digits2_pos mq) + e').
  { rewrite digits2_log2. unfold s in *. lia. }
  eapply atLeast_weaken; [|apply round_atLeast]; lia.
Qed.

(** Some time has elapsed: the elapsed minutes are not zero in binary64
    either, whatever the distance between the two dates. *)
Lemma elapsedMinutes_positive now t :
  t < now -> Double.isZero (elapsedMinutes now t) = false.
Proof.
  intros L. unfold elapsedMinutes, Double.div, Double.ofZ.
  change (binary_normalize Double.prec Double.emax 60 0 false)
    with (S754_finite false 8444249301319680 (-47)).
  change (binary_normalize Double.prec Double.emax 1000 0 false)
    with (S754_finite false 8796093022208000 (-43)).
  pose proof (normalize_atLeast (now - t) ltac:(lia)) as A0.
  pose proof (div_atLeast 1 _ 8796093022208000 (-43) A0 ltac:(vm_compute; discriminate)) as A1.
  pose proof (div_atLeast _ _ 8444249301319680 (-47) A1 ltac:(vm_compute; discriminate)) as A2.
  change Double.prec with 53. change Double.emax with 1024.
  destruct (SFdiv 53 1024 _ (S754_finite false 8444249301319680 (-47)));
    cbn [Double.atLeast] in A2; try contradiction; reflexivity.
Qed.

(** A product with a zero factor is a zero or a NaN: its floor is 0. *)
Lemma gained_nothing rate elapsed w :
  Double.isZero elapsed = true -> gained rate elapsed w = 0.
Proof.
  unfold gained, Double.floor. intros Z.
  destruct elapsed as [s| | |]; try discriminate.
  destruct (Double.ofQ rate) as [sr|sr| |sr mr er], (Double.ofZ w) as [sw|sw| |sw mw ew];
    reflexivity.
Qed.

Lemma elapsedMinutes_same now : Double.isZero (elapsedMinutes now now) = true.
Proof. unfold elapsedMinutes. rewrite Z.sub_diag. reflexivity. Qed.

Lemma accrued_same_instant (rate : Q) (now w : Z) : accrued rate now now w = 0.
Proof. apply gained_nothing, elapsedMinutes_same. Qed.

(** ** Reading and writing resources *)

Lemma getResource_setResource_same k v r : getResource k (setResource k v r) = v.
Proof. destruct k; reflexivity. Qed.

Lemma getResource_setResource_other k k' v r :
  k' <> k -> getResource k' (setResource k v r) = getResource k' r.
Proof. destruct k, k'; intros N; try reflexivity; congruence. Qed.

Lemma lastUpdate_setResource k v r :
  goldLastUpdate (setResource k v r) = goldLastUpdate r
  /\ woodLastUpdate (setResource k v r) = woodLastUpdate r.
Proof. destruct k; split; reflexivity. Qed.

Section AccrualProperties.
Context `{Collaborators}.

(** ** The accrual loop *)

Lemma updateResourcesFor_result now b g :
  IterationResult now b g (updateResourcesFor now b g).
Proof.
  unfold updateResourcesFor.
  destruct (findBuildingByCode (b_code b)) as [st|] eqn:Est; [|now constructor].
  destruct (sb_harvest st) as [h|] eqn:Eh; [|constructor].
  destruct (isBusy now b) eqn:Eb; [constructor|].
  destruct (assignedWorkers (units g) b) as [w|] eqn:Ew; [|constructor].
  destruct (w =? 0) eqn:Ew0; [constructor|].
  apply Z.eqb_neq in Ew0.
  unfold elapsedSinceLastUpdate.
  destruct (String.eqb (b_code b) "goldmine") eqn:Eg.
  - destruct (goldLastUpdate (resources g)) as [t|] eqn:Et; [|constructor].
    destruct (Double.isZero (elapsedMinutes now t)) eqn:Ez; [constructor|].
    pose proof (credited now b g st h w t Est Eh Eb Ew Ew0) as C.
    unfold lastUpdateOfCode in C. rewrite Eg in C. specialize (C Et Ez).
    unfold accrued in C. cbv zeta in *. cbn [orElse].
    destruct (resources g) as [rg rw rf rp tg tw]; destruct (h_resource h); exact C.
  - destruct (String.eqb (b_code b) "sawmill") eqn:Es.
    + destruct (woodLastUpdate (resources g)) as [t|] eqn:Et; [|constructor].
      destruct (Double.isZero (elapsedMinutes now t)) eqn:Ez; [constructor|].
      pose proof (credited now b g st h w t Est Eh Eb Ew Ew0) as C.
      unfold lastUpdateOfCode in C. rewrite Eg, Es in C. specialize (C Et Ez).
      unfold accrued in C. cbv zeta in *. cbn [orElse].
      destruct (resources g) as [rg rw rf rp tg tw]; destruct (h_resource h); exact C.
    + constructor.
Qed.

(** An iteration touches neither buildings nor units. *)
Lemma updateResourcesFor_frame now b g g' :
  updateResourcesFor now b g = Done g' ->
  units g' = units g /\ buildings g' = buildings g.
Proof.
  intros E. pose proof (updateResourcesFor_result now b g) as R.
  rewrite E in R. inversion R; subst; split; reflexivity.
Qed.

Lemma updateResourcesFor_keeps_settled now b g g' code :
  updateResourcesFor now b g = Done g' ->
  settled now (lastUpdateOfCode code (resources g)) ->
  settled now (lastUpdateOfCode code (resources g')).
Proof.
  intros E S. pose proof (updateResourcesFor_result now b g) as R.
  rewrite E in R. inversion R; subst; [exact S|].
  unfold lastUpdateOfCode in *. cbn [resources withResources].
  destruct (lastUpdate_setResource (h_resource h)
              (getResource (h_resource h) (resources g)
               + inject_Z (accrued (h_amount h) now t w))%Q (resources g)) as [Kg Kw].
  pose proof (elapsedMinutes_same now) as Same.
  destruct (String.eqb (b_code b) "goldmine");
    cbn [goldLastUpdate woodLastUpdate setGoldLastUpdate setWoodLastUpdate];
    destruct (String.eqb code "goldmine"); try exact Same;
    destruct (String.eqb code "sawmill"); try exact Same; try exact I;
    rewrite ?Kg, ?Kw; exact S.
Qed.

Lemma updateResourcesFor_settles now b g g' :
  updateResourcesFor now b g = Done g' ->
  isActive now (units g) b = true ->
  settled now (lastUpdateOfCode (b_code b) (resources g')).
Proof.
  unfold updateResourcesFor, isActive.
  destruct (findBuildingByCode (b_code b)) as [st|]; [|discriminate].
  destruct (sb_harvest st) as [h|]; [|discriminate 2].
  destruct (isBusy now b); [discriminate 2|].
  destruct (assignedWorkers (units g) b) as [w|]; [|discriminate 2].
  destruct (w =? 0); [discriminate 2|].
  pose proof (elapsedMinutes_same now) as Same.
  unfold elapsedSinceLastUpdate, lastUpdateOfCode.
  destruct (String.eqb (b_code b) "goldmine") eqn:Eg.
  - destruct (goldLastUpdate (resources g)) as [t|] eqn:Et.
    + destruct (Double.isZero (elapsedMinutes now t)) eqn:Ez.
      * intros [= <-] _. rewrite Et. exact Ez.
      * intros [= <-] _. exact Same.
    + intros [= <-] _. rewrite Et. exact I.
  - destruct (String.eqb (b_code b) "sawmill") eqn:Es.
    + destruct (woodLastUpdate (resources g)) as [t|] eqn:Et.
      * destruct (Double.isZero (elapsedMinutes now t)) eqn:Ez.
        -- intros [= <-] _. rewrite Et. exact Ez.
        -- intros [= <-] _. exact Same.
      * intros [= <-] _. rewrite Et. exact I.
    + intros _ _. exact I.
Qed.

(** An iteration that did not throw is a no-op on any document with the
    same units whose timestamp is settled. *)
Lemma updateResourcesFor_quiet now b g g1 g2 :
  updateResourcesFor now b g = Done g1 ->
  units g2 = units g ->
  (isActive now (units g) b = true ->
   settled now (lastUpdateOfCode (b_code b) (resources g2))) ->
  updateResourcesFor now b g2 = Done g2.
Proof.
  unfold updateResourcesFor, isActive. intros E U.
  rewrite U.
  destruct (findBuildingByCode (b_code b)) as [st|]; [|discriminate].
  destruct (sb_harvest st) as [h|]; [|reflexivity].
  destruct (isBusy now b); [reflexivity|].
  destruct (assignedWorkers (units g) b) as [w|]; [|reflexivity].
  destruct (w =? 0); [reflexivity|].
  intros S. specialize (S eq_refl).
  unfold elapsedSinceLastUpdate, lastUpdateOfCode in *.
  destruct (String.eqb (b_code b) "goldmine").
  - destruct (goldLastUpdate (resources g2)) as [t|]; [|reflexivity].
    cbn [settled] in S. rewrite S. reflexivity.
  - destruct (String.eqb (b_code b) "sawmill"); [|reflexivity].
    destruct (woodLastUpdate (resources g2)) as [t|]; [|reflexivity].
    cbn [settled] in S. rewrite S. reflexivity.
Qed.

Lemma updateResourcesLoop_frame now bs : forall g g',
  updateResourcesLoop now bs g = Done g' ->
  units g' = units g /\ buildings g' = buildings g.
Proof.
  induction bs as [|b rest IH]; cbn; intros g g' E.
  - injection E as <-. split; reflexivity.
  - destruct (updateResourcesFor now b g) as [|g1] eqn:E1; [discriminate|].
    cbn in E. destruct (IH _ _ E) as [U B].
    destruct (updateResourcesFor_frame _ _ _ _ E1) as [U1 B1].
    split; congruence.
Qed.

Lemma updateResourcesLoop_keeps_settled now bs code : forall g g',
  updateResourcesLoop now bs g = Done g' ->
  settled now (lastUpdateOfCode code (resources g)) ->
  settled now (lastUpdateOfCode code (resources g')).
Proof.
  induction bs as [|b rest IH]; cbn [updateResourcesLoop]; intros g g' E S.
  - injection E as <-. exact S.
  - destruct (updateResourcesFor now b g) as [|g1] eqn:E1; [discriminate|].
    cbn [andThen] in E. eapply IH; [exact E|].
    eapply updateResourcesFor_keeps_settled; eauto.
Qed.

Lemma updateResourcesLoop_settles now bs : forall g g' b,
  updateResourcesLoop now bs g = Done g' ->
  In b bs ->
  isActive now (units g) b = true ->
  settled now (lastUpdateOfCode (b_code b) (resources g')).
Proof.
  induction bs as [|b0 rest IH]; cbn [updateResourcesLoop In]; intros g g' b E I A;
    [contradiction|].
  destruct (updateResourcesFor now b0 g) as [|g1] eqn:E1; [discriminate|].
  cbn [andThen] in E. destruct (updateResourcesFor_frame _ _ _ _ E1) as [U1 _].
  destruct I as [-> | I].
  - eapply updateResourcesLoop_keeps_settled; [exact E|].
    eapply updateResourcesFor_settles; eauto.
  - eapply IH; eauto. rewrite U1. exact A.
Qed.

Lemma updateResourcesLoop_again now bs : forall g g' g2,
  updateResourcesLoop now bs g = Done g' ->
  units g2 = units g ->
  (forall b, In b bs -> isActive now (units g) b = true ->
             settled now (lastUpdateOfCode (b_code b) (resources g2))) ->
  updateResourcesLoop now bs g2 = Done g2.
Proof.
  induction bs as [|b rest IH]; cbn [updateResourcesLoop]; intros g g' g2 E U S;
    [reflexivity|].
  destruct (updateResourcesFor now b g) as [|g1] eqn:E1; [discriminate|].
  cbn [andThen] in E. destruct (updateResourcesFor_frame _ _ _ _ E1) as [U1 _].
  rewrite (updateResourcesFor_quiet now b g g1 g2 E1 U (S b (or_introl eq_refl))).
  cbn [andThen]. eapply IH; [exact E|congruence|].
  intros b' I A. apply S; [right; exact I|]. rewrite <- U1. exact A.
Qed.

(** Calling the ledger a second time at the same instant changes nothing. *)
Lemma updateResources_same_instant now g g' :
  updateResources now g = Done g' -> updateResources now g' = Done g'.
Proof.
  unfold updateResources. intros E.
  destruct (updateResourcesLoop_frame _ _ _ _ E) as [U B].
  rewrite B.
  eapply updateResourcesLoop_again; [exact E|exact U|].
  intros b I A. eapply updateResourcesLoop_settles; eauto.
Qed.

(** One visit of a worked, idle harvest building whose code selects a
    timestamp: the harvest resource grows by the floor of the double
    product, and the timestamp is reset to [now] unless the elapsed
    minutes are zero. *)
Lemma updateResourcesFor_credits now b g st h w t :
  findBuildingByCode (b_code b) = Some st ->
  sb_harvest st = Some h ->
  isBusy now b = false ->
  assignedWorkers (units g) b = Some w ->
  w <> 0 ->
  lastUpdateOfCode (b_code b) (resources g) = Some t ->
  exists g',
    updateResourcesFor now b g = Done g'
    /\ (getResource (h_resource h) (resources g')
        == getResource (h_resource h) (resources g)
           + inject_Z (accrued (h_amount h) now t w))%Q
    /\ (forall k, k <> h_resource h ->
                  getResource k (resources g') = getResource k (resources g))
    /\ (Double.isZero (elapsedMinutes now t) = false ->
        lastUpdateOfCode (b_code b) (resources g') = Some now)
    /\ units g' = units g
    /\ buildings g' = buildings g.
Proof.
  intros Est Eh Eb Ew Hw Et.
  unfold updateResourcesFor. rewrite Est, Eh, Eb, Ew.
  assert (W0 : (w =? 0) = false) by (apply Z.eqb_neq; exact Hw). rewrite W0.
  unfold lastUpdateOfCode in *. unfold elapsedSinceLastUpdate.
  assert (Idle : Double.isZero (elapsedMinutes now t) = true ->
                 (getResource (h_resource h) (resources g)
                  == getResource (h_resource h) (resources g)
                     + inject_Z (accrued (h_amount h) now t w))%Q).
  { intros Z. unfold accrued. rewrite (gained_nothing _ _ _ Z).
    change (inject_Z 0) with 0%Q. ring. }
  destruct (String.eqb (b_code b) "goldmine") eqn:Eg.
  - rewrite Et. destruct (Double.isZero (elapsedMinutes now t)) eqn:Ez.
    + exists g. split; [reflexivity|]. split; [apply Idle; reflexivity|].
      split; [reflexivity|]. split; [discriminate|]. split; reflexivity.
    + eexists. split; [reflexivity|].
      cbn [resources units buildings withResources orElse]. fold (accrued (h_amount h) now t w).
      destruct (resources g) as [rg rw rf rp tg tw].
      split; [destruct (h_resource h); cbn; apply Qeq_refl|].
      split; [intros k Hk; destruct (h_resource h), k; cbn; try reflexivity; congruence|].
      split; [intros _; destruct (h_resource h); reflexivity|]. split; reflexivity.
  - destruct (String.eqb (b_code b) "sawmill") eqn:Es; [|discriminate].
    rewrite Et. destruct (Double.isZero (elapsedMinutes now t)) eqn:Ez.
    + exists g. split; [reflexivity|]. split; [apply Idle; reflexivity|].
      split; [reflexivity|]. split; [discriminate|]. split; reflexivity.
    + eexists. split; [reflexivity|].
      cbn [resources units buildings withResources orElse]. fold (accrued (h_amount h) now t w).
      destruct (resources g) as [rg rw rf rp tg tw].
      split; [destruct (h_resource h); cbn; apply Qeq_refl|].
      split; [intros k Hk; destruct (h_resource h), k; cbn; try reflexivity; congruence|].
      split; [intros _; destruct (h_resource h); reflexivity|]. split; reflexivity.
Qed.

End AccrualProperties.

(** The floor is that of the double product.  Five peasants at 3 gold per
    worker and minute earn 10 gold in 44 seconds, where the product in
    exact arithmetic is 11; refreshed after 4 seconds and again 40 seconds
    later they earn 1 and 10. *)
Example accrued_in_binary64 :
  accrued 3 44000 0 5 = 10
  /\ accruedExactly 3 44000 0 5 = 11
  /\ accrued 3 4000 0 5 = 1
  /\ accrued 3 44000 4000 5 = 10.
Proof. repeat split; vm_compute; reflexivity. Qed.

(** C1 at a failing input.  Two gold mines yielding 3 gold per worker and
    minute, worked by two peasants and by one, ten minutes after the gold
    timestamp.  Both mines meet the conditions of the rule, which asks for
    60 more gold for the first and 30 for the second.  [updateResources]
    credits the 60 of the first mine only: the visit of the first mine
    resets [goldLastUpdate] to [now] inside the loop, so the visit of the
    second finds zero elapsed minutes and skips it. *)
Theorem updateResources_second_mine_lost :
  (forall b,
      In b (buildings Demo.twoMines) ->
      findBuildingByCode (Collaborators := Demo.catalog) (b_code b) = Some Demo.goldmine
      /\ isBusy 600000 b = false
      /\ lastUpdateOf Gold (resources Demo.twoMines) = Some 0)
  /\ assignedWorkers (units Demo.twoMines) Demo.mine1 = Some 2
  /\ assignedWorkers (units Demo.twoMines) Demo.mine2 = Some 1
  /\ accrued 3 600000 0 2 = 60 /\ accruedExactly 3 600000 0 2 = 60
  /\ accrued 3 600000 0 1 = 30 /\ accruedExactly 3 600000 0 1 = 30
  /\ exists g1 g',
       updateResourcesFor (H:=Demo.catalog) 600000 Demo.mine1 Demo.twoMines = Done g1
       /\ goldLastUpdate (resources g1) = Some 600000
       /\ updateResourcesFor (H:=Demo.catalog) 600000 Demo.mine2 g1 = Done g1
       /\ updateResources (H:=Demo.catalog) 600000 Demo.twoMines = Done g'
       /\ (gold (resources g') == 625 + 60)%Q
       /\ ~ (gold (resources g') == 625 + 60 + 30)%Q
       /\ goldLastUpdate (resources g') = Some 600000.
Proof.
  split.
  { intros b [<- | [<- | []]]; repeat split; reflexivity. }
  do 6 (split; [vm_compute; reflexivity|]).
  eexists. eexists.
  split; [vm_compute; reflexivity|]. split; [reflexivity|].
  split; [vm_compute; reflexivity|]. split; [vm_compute; reflexivity|].
  cbn [resources gold goldLastUpdate].
  split; [reflexivity|]. split; [|reflexivity].
  intros E. vm_compute in E. discriminate E.
Qed.

(** ** Arrays: [findIndex], indexing and [splice] *)

Section ArrayFacts.
Context {A : Type}.

Lemma findIndexFrom_spec (p : A -> bool) (l : list A) : forall i,
  0 <= i ->
  (JS.findIndexFrom p i l = -1 /\ forallb (fun x => negb (p x)) l = true)
  \/ exists pre x post,
       l = pre ++ x :: post
       /\ forallb (fun y => negb (p y)) pre = true
       /\ p x = true
       /\ JS.findIndexFrom p i l = i + Z.of_nat (List.length pre).
Proof.
  induction l as [|a l IH]; intros i Hi; cbn [JS.findIndexFrom].
  - left. auto.
  - destruct (p a) eqn:Pa.
    + right. exists [], a, l. cbn. repeat split; auto. lia.
    + destruct (IH (i + 1)) as [(E & F) | (pre & x & post & E & F & Px & R)]; [lia| |].
      * left. cbn. rewrite Pa. auto.
      * right. exists (a :: pre), x, post. subst l. cbn. rewrite Pa.
        repeat split; auto. rewrite R. lia.
Qed.

Lemma at_middle (pre post : list A) (x : A) :
  JS.at_ (pre ++ x :: post) (Z.of_nat (List.length pre)) = Some x.
Proof.
  unfold JS.at_.
  destruct (Z.ltb_spec (Z.of_nat (List.length pre)) 0); [lia|].
  rewrite Nat2Z.id, nth_error_app2 by lia. rewrite Nat.sub_diag. reflexivity.
Qed.

Lemma at_length (l : list A) : JS.at_ l (Z.of_nat (List.length l)) = None.
Proof.
  unfold JS.at_. destruct (Z.ltb_spec (Z.of_nat (List.length l)) 0); [reflexivity|].
  rewrite Nat2Z.id. apply nth_error_None. lia.
Qed.

Lemma at_minus_one (l : list A) : JS.at_ l (-1) = None.
Proof. reflexivity. Qed.

(** [findIndex] followed by indexing: the element found splits the array. *)
Lemma findWithIndex_Some (p : A -> bool) (l : list A) x i :
  findWithIndex p l = Some (x, i) ->
  exists pre post,
    l = pre ++ x :: post
    /\ i = Z.of_nat (List.length pre)
    /\ forallb (fun y => negb (p y)) pre = true
    /\ p x = true.
Proof.
  unfold findWithIndex, JS.findIndex.
  destruct (findIndexFrom_spec p l 0)
    as [(E & _) | (pre & y & post & E & F & Py & R)]; [lia| |].
  - rewrite E, at_minus_one. discriminate.
  - rewrite R, Z.add_0_l. subst l. rewrite at_middle.
    intros [= <- <-]. exists pre, post. auto.
Qed.

Lemma findWithIndex_None (p : A -> bool) (l : list A) :
  findWithIndex p l = None -> JS.findIndex p l = -1.
Proof.
  unfold findWithIndex, JS.findIndex.
  destruct (findIndexFrom_spec p l 0)
    as [(E & _) | (pre & y & post & E & F & Py & R)]; [lia|auto|].
  rewrite R, Z.add_0_l. subst l. rewrite at_middle. discriminate.
Qed.

Lemma findWithIndex_middle (p : A -> bool) pre x post :
  forallb (fun y => negb (p y)) pre = true -> p x = true ->
  findWithIndex p (pre ++ x :: post) = Some (x, Z.of_nat (List.length pre)).
Proof.
  intros F Px. unfold findWithIndex, JS.findIndex.
  assert (R : forall i, JS.findIndexFrom p i (pre ++ x :: post)
                        = i + Z.of_nat (List.length pre)).
  { clear -F Px. induction pre as [|a pre IH]; intros i; cbn [JS.findIndexFrom app].
    - rewrite Px. cbn. lia.
    - cbn in F. apply andb_prop in F as [Fa F]. apply negb_true_iff in Fa.
      rewrite Fa, IH by exact F. cbn [List.length]. lia. }
  rewrite R, Z.add_0_l, at_middle. reflexivity.
Qed.

(** Removing one element at its index. *)
Lemma splice_middle (pre post : list A) (x : A) :
  JS.splice (Z.of_nat (List.length pre)) 1 (pre ++ x :: post) = pre ++ post.
Proof.
  unfold JS.splice. rewrite length_app. cbn [List.length].
  destruct (Z.ltb_spec (Z.of_nat (List.length pre)) 0); [lia|].
  rewrite Z.min_l by lia.
  replace (Z.min (Z.max 1 0) _) with 1 by lia.
  rewrite Nat2Z.id.
  replace (Z.to_nat (Z.of_nat (List.length pre) + 1)) with (List.length pre + 1)%nat by lia.
  rewrite firstn_app, Nat.sub_diag, firstn_all, firstn_O, app_nil_r.
  rewrite skipn_app, skipn_all2 by lia.
  replace (List.length pre + 1 - List.length pre)%nat with 1%nat by lia.
  reflexivity.
Qed.

Lemma list_eq_dec_nil (l : list A) : {l = []} + {l <> []}.
Proof. destruct l; [left; reflexivity|right; discriminate]. Qed.

(** [splice(-1, 1)] removes the last element, whatever it is. *)
Lemma splice_minus_one (l : list A) : JS.splice (-1) 1 l = removelast l.
Proof.
  destruct (list_eq_dec_nil l) as [->|N]; [reflexivity|].
  destruct (exists_last N) as (pre & x & ->).
  rewrite removelast_last. unfold JS.splice. rewrite length_app. cbn [List.length].
    cbn [Z.ltb Z.compare].
    replace (Z.max (Z.of_nat (List.length pre + 1) + -1) 0)
      with (Z.of_nat (List.length pre)) by lia.
    replace (Z.min (Z.max 1 0) _) with 1 by lia.
    rewrite Nat2Z.id.
    replace (Z.to_nat (Z.of_nat (List.length pre) + 1)) with (List.length pre + 1)%nat by lia.
    rewrite firstn_app, Nat.sub_diag, firstn_all, firstn_O, app_nil_r.
    rewrite skipn_app, skipn_all2 by lia.
    replace (List.length pre + 1 - List.length pre)%nat with 1%nat by lia.
    rewrite app_nil_r. reflexivity.
Qed.

Lemma set_at_middle (pre post : list A) (x y : A) :
  JS.set_at (pre ++ x :: post) (Z.of_nat (List.length pre)) y = pre ++ y :: post.
Proof.
  unfold JS.set_at.
  destruct (Z.ltb_spec (Z.of_nat (List.length pre)) 0); [lia|].
  rewrite Nat2Z.id. induction pre as [|a pre IH]; cbn; [reflexivity|].
  f_equal. apply IH. lia.
Qed.

(** After [splice(i, 1)], index [i] holds what followed the removed
    element. *)
Lemma at_after_splice (pre post : list A) (x : A) :
  JS.at_ (pre ++ post) (Z.of_nat (List.length pre))
  = JS.at_ (pre ++ x :: post) (Z.of_nat (List.length pre) + 1).
Proof.
  unfold JS.at_.
  destruct (Z.ltb_spec (Z.of_nat (List.length pre)) 0); [lia|].
  destruct (Z.ltb_spec (Z.of_nat (List.length pre) + 1) 0); [lia|].
  rewrite Nat2Z.id.
  replace (Z.to_nat (Z.of_nat (List.length pre) + 1)) with (S (List.length pre)) by lia.
  rewrite !nth_error_app2 by lia.
  rewrite Nat.sub_diag.
  replace (S (List.length pre) - List.length pre)%nat with 1%nat by lia.
  destruct post; reflexivity.
Qed.

End ArrayFacts.

(** ** cancelBuildingConstruction *)

Section CancelProperties.
Context `{Collaborators}.

Lemma cancelHarvestUpdate_quantities st bs r :
  gold (cancelHarvestUpdate st bs r) = gold r
  /\ wood (cancelHarvestUpdate st bs r) = wood r
  /\ plot (cancelHarvestUpdate st bs r) = plot r
  /\ food (cancelHarvestUpdate st bs r) = food r.
Proof.
  unfold cancelHarvestUpdate.
  destruct (sb_harvest st) as [h|]; [|auto].
  destruct (h_maxWorkforce h); [|auto].
  destruct (existsb _ bs); [|auto].
  destruct (h_resource h); cbn; auto.
Qed.

(** The document saved by a cancellation whose look-ups all succeed. *)
Lemma cancelWith_saved refund bid cid g building bIndex st target cIndex peasants pIndex :
  findBuilding g bid = Some (building, bIndex) ->
  findBuildingByCode (b_code building) = Some st ->
  findBuildingConstruction building cid = Some (target, cIndex) ->
  findUnit g "peasant" = Some (peasants, pIndex) ->
  exists g',
    cancelWith refund bid cid g = Done g'
    /\ units g'
       = JS.set_at (units g) pIndex
           (withAssignments peasants
              (JS.splice (releaseIndex (releaseReference building target cIndex)
                                       (u_assignments peasants))
                         1 (u_assignments peasants)))
    /\ buildings g'
       = match c_improvement target with
         | Some _ =>
             JS.set_at (buildings g) bIndex
               (withConstructions building (JS.splice cIndex 1 (b_constructions building)))
         | None => JS.splice bIndex 1 (buildings g)
         end
    /\ food (resources g') = food (resources g)
    /\ (gold (resources g'), wood (resources g'), plot (resources g'))
       = match c_improvement target with
         | Some improvement =>
             let '(gold1, wood1, plot1) :=
               refund (sb_cost st) (i_level improvement) in
             (gold (resources g) + gold1, wood (resources g) + wood1,
              plot (resources g) + plot1)%Q
         | None =>
             (gold (resources g) + bc_gold (sb_cost st),
              wood (resources g) + bc_wood (sb_cost st),
              plot (resources g) + bc_plot (sb_cost st))%Q
         end.
Proof.
  intros Eb Est Ec Ep. unfold cancelWith. rewrite Eb, Est, Ec.
  unfold releaseReference, releaseIndex.
  destruct (c_improvement target) as [improvement|].
  - destruct (refund (sb_cost st) (i_level improvement)) as [[gold1 wood1] plot1].
    cbv zeta.
    match goal with
    | |- context [findUnit ?g1 "peasant"] =>
        change (findUnit g1 "peasant") with (findUnit g "peasant")
    end.
    rewrite Ep. eexists. split; [reflexivity|].
    cbn [units buildings resources withUnits withResources withBuildings].
    destruct (cancelHarvestUpdate_quantities st
                (JS.set_at (buildings g) bIndex
                   (withConstructions building
                      (JS.splice cIndex 1 (b_constructions building))))
                (setResource Plot (plot (resources g) + plot1)
                   (setResource Wood (wood (resources g) + wood1)
                      (setResource Gold (gold (resources g) + gold1) (resources g))))%Q)
      as (Kg & Kw & Kp & Kf).
    rewrite Kg, Kw, Kp, Kf. repeat split; reflexivity.
  - cbv zeta.
    match goal with
    | |- context [findUnit ?g1 "peasant"] =>
        change (findUnit g1 "peasant") with (findUnit g "peasant")
    end.
    rewrite Ep. eexists. split; [reflexivity|].
    cbn [units buildings resources withUnits withResources withBuildings].
    destruct (cancelHarvestUpdate_quantities st
                (JS.splice bIndex 1 (buildings g))
                (setResource Plot (plot (resources g) + bc_plot (sb_cost st))
                   (setResource Wood (wood (resources g) + bc_wood (sb_cost st))
                      (setResource Gold (gold (resources g) + bc_gold (sb_cost st))
                         (resources g))))%Q)
      as (Kg & Kw & Kp & Kf).
    rewrite Kg, Kw, Kp, Kf. repeat split; reflexivity.
Qed.

Lemma findIndex_no_match {A} (p : A -> bool) (l : list A) :
  forallb (fun x => negb (p x)) l = true -> JS.findIndex p l = -1.
Proof.
  intros F. unfold JS.findIndex.
  destruct (findIndexFrom_spec p l 0) as [(E & _) | (pre & x & post & E & _ & Px & _)];
    [lia|exact E|].
  subst l. rewrite forallb_app in F. apply andb_prop in F as [_ F].
  cbn in F. rewrite Px in F. discriminate.
Qed.

(** C7.  Cancelling the instantiation construction (the one without an
    improvement tag) removes the whole building from the building list and
    credits the unscaled static cost in gold, wood and plot; both copies of
    the repository agree on it. *)
Theorem cancelBuildingConstruction_instantiation
  bid cid g building bIndex st target cIndex peasants pIndex :
  findBuilding g bid = Some (building, bIndex) ->
  findBuildingByCode (b_code building) = Some st ->
  findBuildingConstruction building cid = Some (target, cIndex) ->
  c_improvement target = None ->
  findUnit g "peasant" = Some (peasants, pIndex) ->
  exists g' pre post,
    cancelBuildingConstruction bid cid g = Done g'
    /\ cancelBuildingConstruction_rev bid cid g = Done g'
    /\ buildings g = pre ++ building :: post
    /\ Z.of_nat (List.length pre) = bIndex
    /\ buildings g' = pre ++ post
    /\ gold (resources g') = (gold (resources g) + bc_gold (sb_cost st))%Q
    /\ wood (resources g') = (wood (resources g) + bc_wood (sb_cost st))%Q
    /\ plot (resources g') = (plot (resources g) + bc_plot (sb_cost st))%Q
    /\ food (resources g') = food (resources g).
Proof.
  intros Eb Est Ec Ei Ep.
  destruct (cancelWith_saved improvementRefund _ _ _ _ _ _ _ _ _ _ Eb Est Ec Ep)
    as (g' & E & _ & B & F & R).
  destruct (cancelWith_saved improvementRefund_rev _ _ _ _ _ _ _ _ _ _ Eb Est Ec Ep)
    as (g2 & E2 & _).
  assert (Same : g2 = g').
  { unfold cancelWith in E, E2. rewrite Eb, Est, Ec, Ei in E, E2. congruence. }
  subst g2.
  rewrite Ei in B, R.
  destruct (findWithIndex_Some _ _ _ _ Eb) as (pre & post & L & I & _).
  exists g', pre, post.
  injection R as Rg Rw Rp.
  repeat split; auto.
  rewrite B, L, I. apply splice_middle.
Qed.

(** C10.  The peasants' assignment to release is looked up by end date
    against the entry found at the cancelled index after the construction
    list was updated: for an improvement, that is the construction which
    followed the cancelled one, and nothing when it was the last, in which
    case no assignment matches.  When no assignment matches, the index is
    [-1] and [splice(-1, 1)] removes the last assignment of the list,
    whichever it is; the method does not fail and a non-empty list is not
    left as it was. *)
Theorem cancelBuildingConstruction_release
  bid cid g building bIndex st target cIndex peasants pIndex :
  findBuilding g bid = Some (building, bIndex) ->
  findBuildingByCode (b_code building) = Some st ->
  findBuildingConstruction building cid = Some (target, cIndex) ->
  findUnit g "peasant" = Some (peasants, pIndex) ->
  let reference := releaseReference building target cIndex in
  let l := u_assignments peasants in
  let aIndex := releaseIndex reference l in
  exists g',
    cancelBuildingConstruction bid cid g = Done g'
    /\ units g' = JS.set_at (units g) pIndex (withAssignments peasants (JS.splice aIndex 1 l))
    /\ (c_improvement target <> None ->
        reference = JS.at_ (b_constructions building) (cIndex + 1))
    /\ ((forall a, In a l ->
                   match reference with
                   | Some c => a_endDate a <> c_endDate c
                   | None => True
                   end) ->
        aIndex = -1)
    /\ (c_improvement target <> None ->
        cIndex + 1 = Z.of_nat (List.length (b_constructions building)) ->
        aIndex = -1)
    /\ (aIndex = -1 ->
        JS.splice aIndex 1 l = removelast l
        /\ forall front a, l = front ++ [a] -> JS.splice aIndex 1 l = front).
Proof.
  intros Eb Est Ec Ep reference l aIndex.
  destruct (cancelWith_saved improvementRefund _ _ _ _ _ _ _ _ _ _ Eb Est Ec Ep)
    as (g' & E & U & _).
  assert (Ref : c_improvement target <> None ->
                reference = JS.at_ (b_constructions building) (cIndex + 1)).
  { intros Hi. unfold reference, releaseReference.
    destruct (c_improvement target); [|congruence].
    destruct (findWithIndex_Some _ _ _ _ Ec) as (pre & post & L & I & _).
    rewrite L, I, splice_middle. apply at_after_splice. }
  assert (NoMatch : (forall a, In a l ->
                                match reference with
                                | Some c => a_endDate a <> c_endDate c
                                | None => True
                                end) -> aIndex = -1).
  { intros N. unfold aIndex, releaseIndex. apply findIndex_no_match.
    apply forallb_forall. intros a Ia. specialize (N a Ia).
    destruct reference as [c|]; [|reflexivity].
    apply negb_true_iff, Z.eqb_neq. exact N. }
  exists g'. split; [exact E|]. split; [exact U|]. split; [exact Ref|].
  split; [exact NoMatch|]. split.
  - intros Hi Last. apply NoMatch. rewrite (Ref Hi), Last, at_length. auto.
  - intros ->. split; [apply splice_minus_one|].
    intros front a ->. rewrite splice_minus_one. apply removelast_last.
Qed.

(** What [garrison.repo.ts] credits when it cancels an improvement of
    level [l]: gold receives the plot cost scaled by [decreasedFactor ^ l],
    wood and plot receive their unscaled cost; the construction alone is
    removed. *)
Lemma cancelBuildingConstruction_improvement
  bid cid g building bIndex st target cIndex peasants pIndex improvement :
  findBuilding g bid = Some (building, bIndex) ->
  findBuildingByCode (b_code building) = Some st ->
  findBuildingConstruction building cid = Some (target, cIndex) ->
  c_improvement target = Some improvement ->
  findUnit g "peasant" = Some (peasants, pIndex) ->
  exists g' cpre cpost,
    cancelBuildingConstruction bid cid g = Done g'
    /\ b_constructions building = cpre ++ target :: cpost
    /\ buildings g'
       = JS.set_at (buildings g) bIndex (withConstructions building (cpre ++ cpost))
    /\ gold (resources g')
       = (gold (resources g)
          + bc_plot (sb_cost st) * JS.pow decreasedFactor (i_level improvement))%Q
    /\ wood (resources g') = (wood (resources g) + bc_wood (sb_cost st))%Q
    /\ plot (resources g') = (plot (resources g) + bc_plot (sb_cost st))%Q.
Proof.
  intros Eb Est Ec Ei Ep.
  destruct (cancelWith_saved improvementRefund _ _ _ _ _ _ _ _ _ _ Eb Est Ec Ep)
    as (g' & E & _ & B & _ & R).
  rewrite Ei in B, R. cbn in R. injection R as Rg Rw Rp.
  destruct (findWithIndex_Some _ _ _ _ Ec) as (cpre & cpost & L & I & _).
  exists g', cpre, cpost. repeat split; auto.
  rewrite B. rewrite L at 1. rewrite I, splice_middle. reflexivity.
Qed.

(** The second copy of the repository credits what the rule asks for:
    gold and wood scaled by [defaultFactor ^ l], plot by
    [decreasedFactor ^ l], the construction alone being removed. *)
Lemma cancelBuildingConstruction_rev_improvement
  bid cid g building bIndex st target cIndex peasants pIndex improvement :
  findBuilding g bid = Some (building, bIndex) ->
  findBuildingByCode (b_code building) = Some st ->
  findBuildingConstruction building cid = Some (target, cIndex) ->
  c_improvement target = Some improvement ->
  findUnit g "peasant" = Some (peasants, pIndex) ->
  exists g' cpre cpost,
    cancelBuildingConstruction_rev bid cid g = Done g'
    /\ b_constructions building = cpre ++ target :: cpost
    /\ buildings g'
       = JS.set_at (buildings g) bIndex (withConstructions building (cpre ++ cpost))
    /\ gold (resources g')
       = (gold (resources g)
          + bc_gold (sb_cost st) * JS.pow defaultFactor (i_level improvement))%Q
    /\ wood (resources g')
       = (wood (resources g)
          + bc_wood (sb_cost st) * JS.pow defaultFactor (i_level improvement))%Q
    /\ plot (resources g')
       = (plot (resources g)
          + bc_plot (sb_cost st) * JS.pow decreasedFactor (i_level improvement))%Q.
Proof.
  intros Eb Est Ec Ei Ep.
  destruct (cancelWith_saved improvementRefund_rev _ _ _ _ _ _ _ _ _ _ Eb Est Ec Ep)
    as (g' & E & _ & B & _ & R).
  rewrite Ei in B, R. cbn in R. injection R as Rg Rw Rp.
  destruct (findWithIndex_Some _ _ _ _ Ec) as (cpre & cpost & L & I & _).
  exists g', cpre, cpost. repeat split; auto.
  rewrite B. rewrite L at 1. rewrite I, splice_middle. reflexivity.
Qed.

End CancelProperties.

(** Cancelling the instantiation of the only gold mine: the building is
    gone and 100 gold, 50 wood and 5 plot come back. *)
Lemma cancelBuildingConstruction_instantiation_witness :
  exists g',
    cancelBuildingConstruction (H:=Demo.catalog) 1 11 Demo.oneMine = Done g'
    /\ buildings g' = []
    /\ (gold (resources g') == 725)%Q
    /\ (wood (resources g') == 370)%Q
    /\ (plot (resources g') == 37)%Q.
Proof.
  destruct (cancelBuildingConstruction_instantiation (H:=Demo.catalog)
              1 11 Demo.oneMine Demo.mine1 0 Demo.goldmine (Demo.built 11) 0
              {| u_code := "peasant"; u_quantity := 3;
                 u_assignments := [Demo.harvesters 1 2] |} 0)
    as (g' & pre & post & E & _ & L & I & B & Rg & Rw & Rp & _); try reflexivity.
  exists g'. split; [exact E|].
  destruct pre; [|discriminate I]. injection L as <-.
  split; [exact B|]. rewrite Rg, Rw, Rp. repeat split; reflexivity.
Defined.

(** Cancelling the extension under way at the gold mine: no assignment is
    matched, and the harvest assignment at the saw mill, last in the list,
    is the one removed, while the assignment to the site stays. *)
Lemma cancelBuildingConstruction_release_witness :
  exists g',
    cancelBuildingConstruction (H:=Demo.catalog) 1 12 Demo.extending = Done g'
    /\ units g' = [ {| u_code := "peasant"; u_quantity := 3;
                       u_assignments := [Demo.onSite] |} ].
Proof.
  destruct (cancelBuildingConstruction_release (H:=Demo.catalog)
              1 12 Demo.extending Demo.mineSite 0 Demo.goldmine Demo.extension1 1
              {| u_code := "peasant"; u_quantity := 3;
                 u_assignments := [Demo.onSite; Demo.harvesters 2 1] |} 0)
    as (g' & E & U & _); try reflexivity.
  exists g'. split; [exact E|]. rewrite U. reflexivity.
Defined.

(** C2 at a failing input.  Cancelling a level-1 extension of a gold mine
    costing 100 gold, 50 wood and 5 plot, with factors 1.6 and 1.3:
    [garrison.repo.ts] credits 6.5 gold (the plot cost scaled by 1.3), 50
    wood and 5 plot, where the rule asks for 160 gold, 80 wood and 6.5
    plot, which is what the second copy of the repository credits. *)
Theorem cancelBuildingConstruction_improvement_refund :
  (exists g',
      cancelBuildingConstruction (H:=Demo.catalog) 1 12 Demo.extending = Done g'
      /\ (gold (resources g') == 625 + 5 * (13 # 10))%Q
      /\ (wood (resources g') == 320 + 50)%Q
      /\ (plot (resources g') == 32 + 5)%Q
      /\ ~ (gold (resources g') == 625 + 100 * (16 # 10))%Q
      /\ ~ (wood (resources g') == 320 + 50 * (16 # 10))%Q
      /\ ~ (plot (resources g') == 32 + 5 * (13 # 10))%Q)
  /\ (exists g',
         cancelBuildingConstruction_rev (H:=Demo.catalog) 1 12 Demo.extending = Done g'
         /\ (gold (resources g') == 625 + 100 * (16 # 10))%Q
         /\ (wood (resources g') == 320 + 50 * (16 # 10))%Q
         /\ (plot (resources g') == 32 + 5 * (13 # 10))%Q).
Proof.
  split; eexists; (split; [vm_compute; reflexivity|]); cbn [resources gold wood plot];
    repeat split; try reflexivity; intros E; vm_compute in E; discriminate.
Qed.

(** ** addUnit: the training batch *)


Lemma trainingAssignments_length n prev d :
  List.length (trainingAssignments n prev d) = n.
Proof. revert prev. induction n; cbn; intros; [reflexivity|]. now rewrite IHn. Qed.

Lemma trainingAssignments_nth n : forall prev d i,
  (i < n)%nat ->
  nth_error (trainingAssignments n prev d) i
  = Some (trainingSlot prev (JS.trunc (d * 1000)) (Z.of_nat i)).
Proof.
  induction n as [|n IH]; intros prev d i Hi; [lia|].
  cbn [trainingAssignments]. destruct i as [|i]; cbn [nth_error].
  - unfold trainingSlot, addTime.
    replace (prev + (Z.of_nat 0 + 1) * JS.trunc (d * 1000))
      with (prev + JS.trunc (d * 1000)) by (change (Z.of_nat 0) with 0; ring).
    reflexivity.
  - rewrite IH by lia. unfold trainingSlot, addTime.
    replace (prev + JS.trunc (d * 1000) + (Z.of_nat i + 1) * JS.trunc (d * 1000))
      with (prev + (Z.of_nat (S i) + 1) * JS.trunc (d * 1000))
      by (rewrite Nat2Z.inj_succ; ring).
    reflexivity.
Qed.

Lemma trainingAssignments_In n : forall prev d a,
  In a (trainingAssignments n prev d) ->
  exists i, 0 <= i < Z.of_nat n /\ a = trainingSlot prev (JS.trunc (d * 1000)) i.
Proof.
  intros prev d a I. apply In_nth_error in I as [i E].
  assert (Hi : (i < n)%nat).
  { rewrite <- (trainingAssignments_length n prev d). apply nth_error_Some. congruence. }
  rewrite trainingAssignments_nth in E by exact Hi. injection E as <-.
  exists (Z.of_nat i). split; [lia|reflexivity].
Qed.

(** ** Unavailable quantity and idle availability *)

Lemma sum_from (l : list Z) : forall a,
  fold_left (fun prev next => prev + next) l a
  = a + fold_left (fun prev next => prev + next) l 0.
Proof.
  induction l as [|x l IH]; intros a; cbn; [lia|].
  rewrite (IH (a + x)), (IH x). lia.
Qed.

Lemma unavailableQuantity_cons at_time a l :
  unavailableQuantity at_time (a :: l)
  = (if a_endDate a >? at_time then a_quantity a else 0) + unavailableQuantity at_time l.
Proof.
  unfold unavailableQuantity. cbn [filter].
  destruct (a_endDate a >? at_time); cbn [map fold_left]; [|lia].
  rewrite sum_from. lia.
Qed.

Lemma unavailableQuantity_app at_time l1 l2 :
  unavailableQuantity at_time (l1 ++ l2)
  = unavailableQuantity at_time l1 + unavailableQuantity at_time l2.
Proof.
  induction l1 as [|a l1 IH]; [reflexivity|].
  cbn [app]. rewrite !unavailableQuantity_cons, IH. lia.
Qed.




(** ** Merging the cohort into the unit list *)

Lemma withTrainedUnits_merge (newUnit : IGarrisonUnit) (us : list IGarrisonUnit) :
  (exists u pre post,
      findWithIndex (fun x => String.eqb (u_code x) (u_code newUnit)) us
      = Some (u, Z.of_nat (List.length pre))
      /\ us = pre ++ u :: post
      /\ forallb (fun x => negb (String.eqb (u_code x) (u_code newUnit))) pre = true
      /\ String.eqb (u_code u) (u_code newUnit) = true
      /\ withTrainedUnits newUnit us
         = pre ++ {| u_code := u_code u;
                     u_quantity := u_quantity u + u_quantity newUnit;
                     u_assignments := u_assignments u ++ u_assignments newUnit |} :: post)
  \/ (findWithIndex (fun x => String.eqb (u_code x) (u_code newUnit)) us = None
      /\ forallb (fun x => negb (String.eqb (u_code x) (u_code newUnit))) us = true
      /\ withTrainedUnits newUnit us = us ++ [newUnit]).
Proof.
  unfold withTrainedUnits, findWithIndex, JS.findIndex.
  destruct (findIndexFrom_spec (fun x => String.eqb (u_code x) (u_code newUnit)) us 0)
    as [(E & F) | (pre & u & post & E & F & Pu & R)]; [lia| |].
  - right. rewrite E. cbn. auto.
  - left. exists u, pre, post. rewrite R, Z.add_0_l. subst us.
    rewrite at_middle, set_at_middle.
    destruct (Z.ltb_spec (Z.of_nat (List.length pre)) 0); [lia|]. auto.
Qed.

Section TrainingProperties.
Context `{Collaborators}.



(** *** The refresh does not look at the cohort in training *)

Lemma find_append {A} (p : A -> bool) (l1 l2 : list A) :
  find p (l1 ++ l2) = match find p l1 with Some x => Some x | None => find p l2 end.
Proof.
  induction l1 as [|a l1 IH]; [reflexivity|]. cbn. destruct (p a); [reflexivity|exact IH].
Qed.

Lemma find_first {A} (p : A -> bool) (a : A) (l : list A) :
  find p (a :: l) = if p a then Some a else find p l.
Proof. reflexivity. Qed.

Lemma find_among_training (p : IUnitAssignment -> bool) n prev d :
  (forall a, a_type a = instantiation -> p a = false) ->
  find p (trainingAssignments n prev d) = None.
Proof.
  intros Hp. revert prev. induction n as [|n IH]; intros prev; [reflexivity|].
  cbn [trainingAssignments find]. rewrite Hp by reflexivity. apply IH.
Qed.

Lemma assignedWorkers_trained now unit quantity us b :
  assignedWorkers (withTrainedUnits (trainedCohort now unit quantity) us) b
  = assignedWorkers us b.
Proof.
  set (isWorker := fun a =>
         match a_type a, a_buildingId a, b_id b with
         | harvest, Some aid, Some bid => sameId aid bid
         | _, _, _ => false
         end).
  assert (NoWorker : forall n prev d, find isWorker (trainingAssignments n prev d) = None).
  { intros. apply find_among_training. intros a Ha. unfold isWorker. rewrite Ha. reflexivity. }
  unfold assignedWorkers. fold isWorker.
  destruct (withTrainedUnits_merge (trainedCohort now unit quantity) us)
    as [(u & pre & post & _ & L & _ & Cu & ->) | (_ & _ & ->)].
  - subst us. rewrite !find_append.
    destruct (find (fun u0 => String.eqb (u_code u0) "peasant") pre); [reflexivity|].
    rewrite !find_first. cbn [u_code u_assignments trainedCohort].
    destruct (String.eqb (u_code u) "peasant"); [|reflexivity].
    simpl u_assignments. rewrite find_append, NoWorker.
    destruct (find isWorker (u_assignments u)); reflexivity.
  - rewrite find_append.
    destruct (find (fun u0 => String.eqb (u_code u0) "peasant") us); [reflexivity|].
    rewrite !find_first. cbn [u_code u_assignments trainedCohort].
    unfold trainedCohort. simpl u_code.
    destruct (String.eqb (su_code unit) "peasant"); [|reflexivity].
    simpl u_assignments. rewrite NoWorker. reflexivity.
Qed.

Lemma updateResourcesFor_other_units now b g us' :
  assignedWorkers us' b = assignedWorkers (units g) b ->
  updateResourcesFor now b (withUnits g us')
  = mapOutcome (fun x => withUnits x us') (updateResourcesFor now b g).
Proof.
  intros W. unfold updateResourcesFor. cbn [units resources withUnits]. rewrite W.
  destruct (findBuildingByCode (b_code b)) as [st|]; [|reflexivity].
  destruct (sb_harvest st) as [h|]; [|reflexivity].
  destruct (isBusy now b); [reflexivity|].
  destruct (assignedWorkers (units g) b) as [w|]; [|reflexivity].
  destruct (w =? 0); [reflexivity|].
  destruct (elapsedSinceLastUpdate now (b_code b) (resources g)) as [[[e gn] wn]|];
    [|reflexivity].
  destruct (Double.isZero e); reflexivity.
Qed.

Lemma updateResourcesLoop_other_units now us' bs : forall g,
  (forall b, assignedWorkers us' b = assignedWorkers (units g) b) ->
  updateResourcesLoop now bs (withUnits g us')
  = mapOutcome (fun x => withUnits x us') (updateResourcesLoop now bs g).
Proof.
  induction bs as [|b rest IH]; intros g W; [reflexivity|].
  cbn [updateResourcesLoop]. rewrite updateResourcesFor_other_units by apply W.
  destruct (updateResourcesFor now b g) as [|g1] eqn:E1; [reflexivity|].
  cbn [mapOutcome andThen]. apply IH.
  apply updateResourcesFor_frame in E1 as [U1 _]. intros b'. rewrite U1. apply W.
Qed.

(** C6 (as amended).  When the catalog knows the unit and the resources,
    once refreshed by the ledger, cannot pay [quantity] times the unit
    cost, [addUnit] fails with status 412 and the stored document is exactly
    what it was.  The failure is raised either by the requirement check,
    before anything was touched, or by the payment check, after the
    in-memory document received the new cohort and the refreshed
    resources; that document is dropped, [garrison.save()] not being
    reached. *)
Theorem addUnit_insufficient now nowU code quantity g unit refreshed :
  findUnitByCode code = Some unit ->
  updateResources nowU g = Done refreshed ->
  cannotPay unit quantity (resources refreshed) = true ->
  exists mem,
    addUnit now nowU code quantity g = Threw 412 mem
    /\ persisted g (addUnit now nowU code quantity g) = g
    /\ (mem = g
        \/ mem = withUnits (withResources g (resources refreshed))
                   (withTrainedUnits (trainedCohort now unit quantity) (units g))).
Proof.
  intros Eu Er Pay. unfold addUnit. rewrite Eu.
  destruct (unfulfilled now (buildings g) (fun _ => true) (su_requiredEntities unit)).
  - exists g. auto.
  - cbv zeta. fold (trainedCohort now unit quantity).
    set (us' := withTrainedUnits (trainedCohort now unit quantity) (units g)).
    unfold updateResources in *. cbn [buildings withUnits].
    rewrite updateResourcesLoop_other_units
      by (intros b; apply assignedWorkers_trained).
    rewrite Er. cbn [mapOutcome andThen resources withUnits].
    unfold cannotPay in Pay. cbn [u_quantity trainedCohort]. rewrite Pay.
    eexists. split; [reflexivity|]. split; [reflexivity|]. right.
    apply updateResourcesLoop_frame in Er as [U B].
    destruct refreshed as [r bs us]. cbn in *. subst. reflexivity.
Qed.


End TrainingProperties.


(** A hundred peasants cost 2500 gold, the fresh garrison owns 625. *)
Lemma addUnit_insufficient_witness :
  exists mem,
    addUnit (H:=Demo.catalog) 1000 1000 "peasant" (Some 100) newGarrison = Threw 412 mem
    /\ persisted newGarrison
         (addUnit (H:=Demo.catalog) 1000 1000 "peasant" (Some 100) newGarrison)
       = newGarrison.
Proof.
  destruct (addUnit_insufficient (H:=Demo.catalog) 1000 1000 "peasant" (Some 100)
              newGarrison Demo.peasant newGarrison eq_refl eq_refl eq_refl)
    as (mem & E & P & _).
  exists mem. split; [exact E|exact P].
Defined.

(** C6 (as stated) fails on its ordering clause: when the payment check
    raises the failure, the in-memory document already holds the cohort. *)
Lemma failsBeforeMutating_fails :
  ~ failsBeforeMutating (H:=Demo.catalog) 1000 1000 "peasant" (Some 100) newGarrison.
Proof.
  intros C.
  destruct (C Demo.peasant newGarrison eq_refl eq_refl eq_refl) as (mem & E & _ & M).
  subst mem. vm_compute in E. discriminate.
Qed.

(** ** Busy buildings *)

Section BusyProperties.
Context `{Collaborators}.

(** C3 (as amended).  A request of [upgradeBuilding], [extendBuilding] or
    [assignUnit] aimed at a building with a construction ending after
    [now] always fails, with the in-memory and the stored document
    untouched.  The status is that of the first failing check:
    [upgradeBuilding] answers 409 and [extendBuilding] 412 as soon as the
    catalog knows the building (404 otherwise); [assignUnit] answers 412
    when the building can harvest and the unit exists in the catalog and
    in the garrison, and otherwise the 400 or 404 of the check that comes
    before the busy test. *)
Theorem busy_building_rejects now nowU bid g building bIndex :
  findBuilding g bid = Some (building, bIndex) ->
  isBusy now building = true ->
  (forall cId aId w,
      exists s,
        upgradeBuilding now nowU cId aId bid w g = Threw s g
        /\ persisted g (upgradeBuilding now nowU cId aId bid w g) = g
        /\ (s = 404 \/ s = 409)
        /\ (findBuildingByCode (b_code building) <> None -> s = 409))
  /\ (forall cId aId w,
         exists s,
           extendBuilding now cId aId bid w g = Threw s g
           /\ persisted g (extendBuilding now cId aId bid w g) = g
           /\ (s = 404 \/ s = 412)
           /\ (findBuildingByCode (b_code building) <> None -> s = 412))
  /\ (forall code quantity,
         exists s,
           assignUnit now nowU bid code quantity g = Threw s g
           /\ persisted g (assignUnit now nowU bid code quantity g) = g
           /\ (s = 400 \/ s = 404 \/ s = 412)
           /\ (forall st h,
                  findBuildingByCode (b_code building) = Some st ->
                  sb_harvest st = Some h ->
                  findUnitByCode code <> None ->
                  findUnit g code <> None ->
                  s = 412)).
Proof.
  intros Eb Busy.
  assert (Settle : forall (o : Outcome) (s : Z) (Codes StatusWhenKnown : Prop),
             o = Threw s g -> Codes -> StatusWhenKnown ->
             o = Threw s g /\ persisted g o = g /\ Codes /\ StatusWhenKnown).
  { intros o s Codes Known ->. auto. }
  split; [|split].
  - intros cId aId w. unfold upgradeBuilding. rewrite Eb.
    destruct (findBuildingByCode (b_code building)) as [st|] eqn:Est.
    + unfold checkBuildingAvailability. rewrite Busy.
      exists 409. apply Settle; auto.
    + exists 404. apply Settle; auto. congruence.
  - intros cId aId w. unfold extendBuilding. rewrite Eb.
    destruct (findBuildingByCode (b_code building)) as [st|] eqn:Est.
    + destruct (sb_extension st) as [ext|].
      * rewrite Busy. exists 412. apply Settle; auto.
      * exists 412. apply Settle; auto.
    + exists 404. apply Settle; auto. congruence.
  - intros code quantity. unfold assignUnit. rewrite Eb.
    destruct (findBuildingByCode (b_code building)) as [st|] eqn:Est;
      [|exists 404; apply Settle; auto; congruence].
    destruct (sb_harvest st) as [h|] eqn:Eh;
      [|exists 400; apply Settle; auto; congruence].
    destruct (findUnitByCode code) as [unit|] eqn:Eu;
      [|exists 404; apply Settle; auto; congruence].
    destruct (findUnit g code) as [[garrUnits uIndex]|] eqn:Eg;
      [|exists 404; apply Settle; auto; congruence].
    cbv zeta.
    destruct (quantityOr1 quantity >? u_quantity garrUnits);
      [exists 412; apply Settle; auto|].
    rewrite Busy. exists 412. apply Settle; auto.
Qed.

End BusyProperties.

(** The gold mine is under extension until 100000: at time 60000 the
    three requests are refused, with 409, 412 and 412. *)
Lemma busy_building_rejects_witness :
  upgradeBuilding (H:=Demo.catalog) 60000 60000 13 14 1 1 Demo.extending
  = Threw 409 Demo.extending
  /\ extendBuilding (H:=Demo.catalog) 60000 13 14 1 1 Demo.extending
     = Threw 412 Demo.extending
  /\ assignUnit (H:=Demo.catalog) 60000 60000 1 "peasant" (Some 1) Demo.extending
     = Threw 412 Demo.extending.
Proof.
  destruct (busy_building_rejects (H:=Demo.catalog) 60000 60000 1 Demo.extending
              Demo.mineSite 0 eq_refl eq_refl) as (U & X & A).
  split; [|split].
  - destruct (U 13 14 1) as (s & E & _ & _ & S). rewrite E, S; [reflexivity|discriminate].
  - destruct (X 13 14 1) as (s & E & _ & _ & S). rewrite E, S; [reflexivity|discriminate].
  - destruct (A "peasant"%string (Some 1)) as (s & E & _ & _ & S).
    rewrite E, (S Demo.goldmine _ eq_refl eq_refl); [reflexivity|discriminate|discriminate].
Defined.

(** C3 (as stated) fails: assigning a peasant to barracks under
    construction is refused with 400, barracks not being a harvest
    building, before the busy test is reached. *)
Lemma busyRejected_fails :
  ~ busyRejected (H:=Demo.catalog) 60000 60000 7 Demo.fortifying.
Proof.
  intros C.
  destruct (C Demo.barracksSite 0 eq_refl eq_refl) as (_ & _ & A).
  destruct (A "peasant"%string (Some 1)) as ((mem & [E | E]) & _); vm_compute in E; discriminate.
Qed.

(** ** extendBuilding: work force bounds and duration *)

Lemma fold_max_bounds ls : forall acc,
  acc <= fold_left (fun prev next => if next >? prev then next else prev) ls acc.
Proof.
  induction ls as [|x ls IH]; intros acc; cbn [fold_left]; [lia|].
  destruct (Z.gtb_spec x acc); [|apply IH].
  etransitivity; [|apply IH]. lia.
Qed.

Lemma fold_max_above ls : forall acc x,
  In x ls -> x <= fold_left (fun prev next => if next >? prev then next else prev) ls acc.
Proof.
  induction ls as [|y ls IH]; intros acc x I; [destruct I|].
  cbn [fold_left]. destruct I as [-> | I]; [|apply IH; exact I].
  etransitivity; [|apply fold_max_bounds].
  destruct (Z.gtb_spec x acc); lia.
Qed.

Lemma fold_max_reached ls : forall acc,
  fold_left (fun prev next => if next >? prev then next else prev) ls acc = acc
  \/ In (fold_left (fun prev next => if next >? prev then next else prev) ls acc) ls.
Proof.
  induction ls as [|y ls IH]; intros acc; cbn [fold_left]; [left; reflexivity|].
  destruct (Z.gtb_spec y acc).
  - destruct (IH y) as [-> | I]; right; [left; reflexivity|right; exact I].
  - destruct (IH acc) as [-> | I]; [left; reflexivity|right; right; exact I].
Qed.

(** The current extension level is the greatest level among the
    extension constructions of the building, and 0 when it has none. *)
Lemma currentExtensionLevel_greatest b :
  0 <= currentExtensionLevel b
  /\ (forall c i,
         In c (b_constructions b) -> c_improvement c = Some i -> i_type i = extension ->
         i_level i <= currentExtensionLevel b)
  /\ (currentExtensionLevel b = 0
      \/ exists c i,
           In c (b_constructions b) /\ c_improvement c = Some i
           /\ i_type i = extension /\ i_level i = currentExtensionLevel b).
Proof.
  unfold currentExtensionLevel. split; [apply fold_max_bounds|]. split.
  - intros c i Ic Imp Ty. apply fold_max_above.
    apply in_map_iff. exists c. rewrite Imp. split; [reflexivity|].
    apply filter_In. split; [exact Ic|]. rewrite Imp. destruct i as [ty l].
    cbn in Ty. rewrite Ty. reflexivity.
  - match goal with |- ?f = 0 \/ _ => destruct (fold_max_reached
        (map (fun c => match c_improvement c with Some i => i_level i | None => 0 end)
           (filter (fun c => match c_improvement c with
                             | Some {| i_type := extension |} => true
                             | _ => false
                             end) (b_constructions b))) 0) as [E | I] end.
    + left. exact E.
    + right. apply in_map_iff in I as (c & Lc & Ic).
      apply filter_In in Ic as [Ic Pc].
      destruct (c_improvement c) as [[ty l]|] eqn:Imp; [|discriminate Pc].
      destruct ty; [discriminate Pc|].
      exists c, {| i_type := extension; i_level := l |}. repeat split; auto.
Qed.

Section ExtensionProperties.
Context `{Collaborators}.

(** C8.  With [level] the greatest level among the extension constructions
    of the building (0 when it has none), [extendBuilding] rejects a work
    force below the level-scaled minimum [minWorkforce * 2 ^ (level + 1)]
    or above twice that minimum.  An accepted work force [w] lies between
    the two, and the construction appended to the buildings of the
    extended kind begins at [now] and ends [newDuration * 1000]
    milliseconds later, a date holding whole milliseconds, where
    [newDuration] is the level-scaled base duration
    [Math.round(duration * Math.pow(1.3, level + 1))] multiplied by
    [Math.pow(0.97, w - minimum)]: every worker above the minimum raises
    the exponent of 0.97 by one.  The products are those of binary64. *)
Theorem extendBuilding_workforce now cId aId bid w g garrBuilding bIndex building :
  findBuilding g bid = Some (garrBuilding, bIndex) ->
  findBuildingByCode (b_code garrBuilding) = Some building ->
  let level := currentExtensionLevel garrBuilding in
  let minimum := sb_minWorkforce building * 2 ^ (level + 1) in
  let base :=
    Double.round (Double.mul (Double.ofQ (sb_duration building))
                             (Double.pow (13 # 10) (level + 1))) in
  let newDuration :=
    Double.mul (Double.ofZ base) (Double.pow (97 # 100) (w - minimum)) in
  (0 <= level
   /\ (forall c i,
          In c (b_constructions garrBuilding) -> c_improvement c = Some i ->
          i_type i = extension -> i_level i <= level)
   /\ (level = 0
       \/ exists c i,
            In c (b_constructions garrBuilding) /\ c_improvement c = Some i
            /\ i_type i = extension /\ i_level i = level))
  /\ (w < minimum \/ 2 * minimum < w ->
      exists s mem,
        extendBuilding now cId aId bid w g = Threw s mem
        /\ persisted g (extendBuilding now cId aId bid w g) = g)
  /\ (forall g',
         extendBuilding now cId aId bid w g = Done g' ->
         minimum <= w <= 2 * minimum
         /\ exists constructed,
              c_id constructed = cId
              /\ c_beginDate constructed = now
              /\ c_endDate constructed
                 = now + JS.trunc (Double.toQ (Double.mul newDuration (Double.ofZ 1000)))
              /\ c_workforce constructed = w
              /\ c_improvement constructed
                 = Some {| i_type := extension; i_level := level + 1 |}
              /\ buildings g'
                 = map (fun b => if String.eqb (b_code b) (sb_code building)
                                 then withConstructions b (b_constructions b ++ [constructed])
                                 else b) (buildings g)
              /\ (sb_code building = b_code garrBuilding ->
                  In (withConstructions garrBuilding
                        (b_constructions garrBuilding ++ [constructed])) (buildings g'))).
Proof.
  intros Eb Est level minimum base newDuration.
  assert (Cases :
            (exists s mem, extendBuilding now cId aId bid w g = Threw s mem)
            \/ (minimum <= w <= 2 * minimum
                /\ exists g' constructed,
                     extendBuilding now cId aId bid w g = Done g'
                     /\ c_id constructed = cId
                     /\ c_beginDate constructed = now
                     /\ c_endDate constructed
                        = now + JS.trunc (Double.toQ
                                            (Double.mul newDuration (Double.ofZ 1000)))
                     /\ c_workforce constructed = w
                     /\ c_improvement constructed
                        = Some {| i_type := extension; i_level := level + 1 |}
                     /\ buildings g'
                        = map (fun b =>
                                 if String.eqb (b_code b) (sb_code building)
                                 then withConstructions b
                                        (b_constructions b ++ [constructed])
                                 else b) (buildings g))).
  { unfold extendBuilding. rewrite Eb, Est.
    destruct (sb_extension building) as [ext|]; [|left; eauto].
    destruct (isBusy now garrBuilding); [left; eauto|].
    fold level.
    destruct (match ext_maxLevel ext with
              | Some maxLevel => level + 1 >? maxLevel
              | None => false
              end); [left; eauto|].
    destruct (unfulfilled now (buildings g) _ (ext_requiredEntities ext)); [left; eauto|].
    cbv zeta.
    destruct (findUnit g "peasant") as [[peasants pIndex]|]; [|left; eauto].
    destruct (w >? u_quantity peasants); [left; eauto|].
    destruct (w >? u_quantity peasants - unavailableQuantity now (u_assignments peasants));
      [left; eauto|].
    unfold extensionMinWorkforce. fold minimum.
    destruct (Z.ltb_spec w minimum); [left; eauto|].
    destruct (Z.gtb_spec w (minimum * 2)); [left; eauto|].
    match goal with |- context [if ?c then Threw 412 _ else _] => destruct c end;
      [left; eauto|].
    right. split; [lia|].
    eexists. eexists. split; [reflexivity|].
    cbn [buildings withResources withBuildings pushAssignment withUnits
         c_id c_beginDate c_endDate c_workforce c_improvement].
    repeat split; reflexivity. }
  split; [apply currentExtensionLevel_greatest|]. split; [|].
  - intros Out. destruct Cases as [(s & mem & E) | (Range & _)]; [|lia].
    exists s, mem. rewrite E. split; reflexivity.
  - intros g' E.
    destruct Cases as [(s & mem & E') | (Range & g2 & c & E2 & I & B & En & W & Im & Bs)];
      [congruence|].
    assert (g2 = g') by congruence. subst g2.
    split; [exact Range|]. exists c.
    repeat split; auto.
    intros Code. rewrite Bs.
    destruct (findWithIndex_Some _ _ _ _ Eb) as (pre & post & L & _).
    apply in_map_iff. exists garrBuilding.
    rewrite Code, String.eqb_refl. split; [reflexivity|].
    rewrite L. apply in_elt.
Qed.

End ExtensionProperties.

(** Extending, with nine peasants at time 1000, a gold mine that stands at
    extension level 2: the minimum is 1 * 2 ^ 3 = 8, the base duration
    round(60 * 1.3 ^ 3) = 132 seconds, the new duration 132 * 0.97 seconds,
    which is 128039.99999999999 milliseconds in binary64: the construction
    ends 128039 milliseconds after it began.  Seven peasants are refused. *)
Lemma extendBuilding_workforce_witness :
  currentExtensionLevel Demo.grownMine = 2
  /\ (exists g' constructed,
         extendBuilding (H:=Demo.catalog) 1000 41 42 1 9 Demo.grown = Done g'
         /\ buildings g'
            = [withConstructions Demo.grownMine
                 (b_constructions Demo.grownMine ++ [constructed])]
         /\ c_beginDate constructed = 1000
         /\ c_endDate constructed = 129039
         /\ c_workforce constructed = 9
         /\ c_improvement constructed = Some {| i_type := extension; i_level := 3 |})
  /\ (exists s mem,
         extendBuilding (H:=Demo.catalog) 1000 41 42 1 7 Demo.grown = Threw s mem
         /\ persisted Demo.grown
              (extendBuilding (H:=Demo.catalog) 1000 41 42 1 7 Demo.grown) = Demo.grown)
  /\ (exists s mem,
         extendBuilding (H:=Demo.catalog) 1000 41 42 1 17 Demo.grown = Threw s mem).
Proof.
  split; [reflexivity|]. split; [|split].
  - destruct (extendBuilding_workforce (H:=Demo.catalog) 1000 41 42 1 9 Demo.grown
                Demo.grownMine 0 Demo.goldmine eq_refl eq_refl) as (_ & _ & Acc).
    destruct (extendBuilding (H:=Demo.catalog) 1000 41 42 1 9 Demo.grown)
      as [status mem|g'] eqn:E; [vm_compute in E; discriminate E|].
    destruct (Acc g' eq_refl) as (_ & c & _ & Bg & En & Wf & Im & Bs & _).
    exists g', c. split; [reflexivity|]. split; [exact Bs|].
    split; [exact Bg|]. split; [rewrite En; vm_compute; reflexivity|].
    split; [exact Wf|exact Im].
  - destruct (extendBuilding_workforce (H:=Demo.catalog) 1000 41 42 1 7 Demo.grown
                Demo.grownMine 0 Demo.goldmine eq_refl eq_refl) as (_ & Rej & _).
    destruct Rej as (s & mem & E & P); [left; vm_compute; reflexivity|].
    exists s, mem. split; [exact E|exact P].
  - destruct (extendBuilding_workforce (H:=Demo.catalog) 1000 41 42 1 17 Demo.grown
                Demo.grownMine 0 Demo.goldmine eq_refl eq_refl) as (_ & Rej & _).
    destruct Rej as (s & mem & E & _); [right; vm_compute; reflexivity|].
    exists s, mem. exact E.
Defined.

(** ** unassignUnit: the last-update timestamps *)

Lemma hasActiveWorker_spec code bs l :
  hasActiveWorker code bs l = true <-> stillWorked code bs l.
Proof.
  unfold hasActiveWorker, stillWorked. rewrite existsb_exists. split.
  - intros (a & Ia & P). apply andb_prop in P as [Ha P].
    destruct (find _ bs) as [b|] eqn:F; [|discriminate].
    apply find_some in F as [Ib Q]. apply andb_prop in Q as [Qi Qc].
    destruct (b_id b) as [x|] eqn:Bx; [|discriminate].
    destruct (a_buildingId a) as [y|] eqn:Ay; [|discriminate].
    apply Z.eqb_eq in Qi. subst y. apply String.eqb_eq in Qc.
    exists a, b, x. destruct (a_type a); try discriminate. repeat split; auto.
  - intros (a & b & i & Ia & Ha & Ib & Cb & Bi & Ai).
    exists a. split; [exact Ia|]. rewrite Ha. cbn [isHarvest andb].
    destruct (find _ bs) as [b'|] eqn:F; [reflexivity|].
    pose proof (find_none _ _ F b Ib) as N. cbn beta in N.
    rewrite Bi, Ai, Cb in N. unfold sameId in N.
    rewrite Z.eqb_refl, String.eqb_refl in N. discriminate.
Qed.

Lemma unassignFrom_middle pre a post qty :
  unassignFrom (Z.of_nat (List.length pre)) a qty (pre ++ a :: post)
  = if a_quantity a - qty =? 0 then pre ++ post
    else pre ++ withQuantity a (a_quantity a - qty) :: post.
Proof.
  unfold unassignFrom. rewrite set_at_middle.
  destruct (a_quantity a - qty =? 0); [|reflexivity].
  apply splice_middle.
Qed.

Section UnassignProperties.
Context `{Collaborators}.

Lemma refreshIfPeasant_frame nowU unit g refreshed :
  refreshIfPeasant nowU unit g = Done refreshed ->
  units refreshed = units g /\ buildings refreshed = buildings g.
Proof.
  unfold refreshIfPeasant, updateResources.
  destruct (String.eqb (su_code unit) "peasant").
  - apply updateResourcesLoop_frame.
  - intros [= <-]. split; reflexivity.
Qed.

(** What a saved [unassignUnit] stores.  It takes [quantity] workers off
    the harvest assignment of the unit kind at the building, removing the
    assignment when it reaches zero.  For a "goldmine" ("sawmill") building
    the [goldLastUpdate] ([woodLastUpdate]) timestamp is deleted when no
    harvest assignment left in the list of that unit kind names an owned
    building of that code, and kept as the ledger refresh left it when one
    does; the other timestamp is not touched. *)
Lemma unassignUnit_lastUpdate
  nowU bid code quantity g garrBuilding bIndex building h unit garrUnits uIndex a index
  refreshed :
  findBuilding g bid = Some (garrBuilding, bIndex) ->
  findBuildingByCode (b_code garrBuilding) = Some building ->
  sb_harvest building = Some h ->
  findUnitByCode code = Some unit ->
  findUnit g code = Some (garrUnits, uIndex) ->
  findWithIndex (isHarvestOf garrBuilding) (u_assignments garrUnits) = Some (a, index) ->
  quantityOr1 quantity <= a_quantity a ->
  refreshIfPeasant nowU unit g = Done refreshed ->
  let qty := quantityOr1 quantity in
  let remaining := unassignFrom index a qty (u_assignments garrUnits) in
  exists g' pre post,
    unassignUnit nowU bid code quantity g = Done g'
    /\ u_assignments garrUnits = pre ++ a :: post
    /\ remaining = (if a_quantity a =? qty then pre ++ post
                    else pre ++ withQuantity a (a_quantity a - qty) :: post)
    /\ units g' = JS.set_at (units g) uIndex (withAssignments garrUnits remaining)
    /\ (sb_code building = "goldmine"%string ->
        woodLastUpdate (resources g') = woodLastUpdate (resources refreshed)
        /\ (~ stillWorked "goldmine" (buildings g) remaining ->
            goldLastUpdate (resources g') = None)
        /\ (stillWorked "goldmine" (buildings g) remaining ->
            goldLastUpdate (resources g') = goldLastUpdate (resources refreshed)))
    /\ (sb_code building = "sawmill"%string ->
        goldLastUpdate (resources g') = goldLastUpdate (resources refreshed)
        /\ (~ stillWorked "sawmill" (buildings g) remaining ->
            woodLastUpdate (resources g') = None)
        /\ (stillWorked "sawmill" (buildings g) remaining ->
            woodLastUpdate (resources g') = woodLastUpdate (resources refreshed)))
    /\ (a_quantity a <> qty ->
        sb_code building = b_code garrBuilding ->
        stillWorked (sb_code building) (buildings g) remaining).
Proof.
  intros Eb Est Eh Eu Eg Ea Hq Er qty remaining.
  destruct (findWithIndex_Some _ _ _ _ Ea) as (pre & post & L & I & _ & Pa).
  destruct (refreshIfPeasant_frame _ _ _ _ Er) as [Ur Br].
  assert (Rem : remaining = (if a_quantity a =? qty then pre ++ post
                             else pre ++ withQuantity a (a_quantity a - qty) :: post)).
  { unfold remaining. rewrite L, I, unassignFrom_middle.
    destruct (Z.eqb_spec (a_quantity a - qty) 0), (Z.eqb_spec (a_quantity a) qty);
      try reflexivity; lia. }
  unfold unassignUnit. rewrite Eb, Est, Eh, Eu, Eg, Ea.
  fold qty. destruct (Z.ltb_spec (a_quantity a) qty); [unfold qty in *; lia|].
  rewrite Er. cbn [andThen]. fold remaining.
  eexists. exists pre, post. split; [reflexivity|].
  cbn [resources units buildings withResources withUnits].
  rewrite Ur, Br.
  split; [exact L|]. split; [exact Rem|]. split; [reflexivity|].
  split; [|split].
  - intros ->. cbn [String.eqb Ascii.eqb Bool.eqb].
    destruct (hasActiveWorker "goldmine" (buildings g) remaining) eqn:W; cbn [negb].
    + split; [reflexivity|]. split; [|reflexivity].
      intros N. apply hasActiveWorker_spec in W. contradiction.
    + split; [reflexivity|]. split; [reflexivity|].
      intros S. apply hasActiveWorker_spec in S. congruence.
  - intros ->. cbn [String.eqb Ascii.eqb Bool.eqb].
    destruct (hasActiveWorker "sawmill" (buildings g) remaining) eqn:W; cbn [negb].
    + split; [reflexivity|]. split; [|reflexivity].
      intros N. apply hasActiveWorker_spec in W. contradiction.
    + split; [reflexivity|]. split; [reflexivity|].
      intros S. apply hasActiveWorker_spec in S. congruence.
  - intros Ne Code. rewrite Rem.
    destruct (Z.eqb_spec (a_quantity a) qty); [contradiction|].
    unfold isHarvestOf in Pa.
    destruct (b_id garrBuilding) as [x|] eqn:Bx; [|discriminate].
    destruct (a_buildingId a) as [y|] eqn:Ay; [|discriminate].
    apply andb_prop in Pa as [Pi Ph]. apply Z.eqb_eq in Pi. subst y.
    destruct (findWithIndex_Some _ _ _ _ Eb) as (bpre & bpost & Lb & _).
    change (findBuilding g bid = Some (garrBuilding, bIndex)) in Eb.
    exists (withQuantity a (a_quantity a - qty)), garrBuilding, x.
    repeat split; auto.
    + apply in_elt.
    + cbn. destruct (a_type a); try discriminate; reflexivity.
    + unfold findBuilding in Lb. rewrite Lb. apply in_elt.
Qed.

End UnassignProperties.

(** C9 at a failing input.  A gold mine worked by two peasants and one
    footman, the gold timestamp being set.  Taking the footman off deletes
    [goldLastUpdate] although the two peasants still harvest at the mine,
    where the rule keeps the timestamp while a harvest assignment remains:
    the scan that decides reads the assignments of the unit kind named in
    the payload only.  From then on the refresh finds no timestamp and
    credits nothing for the mine, whatever the instant. *)
Theorem unassignUnit_stops_worked_mine :
  exists g',
    unassignUnit (H:=Demo.catalog) 600000 1 "footman" (Some 1) Demo.mixedCrew = Done g'
    /\ goldLastUpdate (resources Demo.mixedCrew) = Some 0
    /\ harvestedBy "goldmine" g'
    /\ assignedWorkers (units g') Demo.mine1 = Some 2
    /\ goldLastUpdate (resources g') = None
    /\ forall later, updateResources (H:=Demo.catalog) later g' = Done g'.
Proof.
  eexists. split; [vm_compute; reflexivity|]. split; [reflexivity|].
  split.
  { exists {| u_code := "peasant"; u_quantity := 3;
              u_assignments := [Demo.harvesters 1 2] |}.
    split; [left; reflexivity|].
    exists (Demo.harvesters 1 2), Demo.mine1, 1.
    repeat split; left; reflexivity. }
  split; [reflexivity|]. split; [reflexivity|].
  intros later. unfold updateResources. cbn [buildings updateResourcesLoop].
  unfold updateResourcesFor. cbn [b_code].
  change (findBuildingByCode (Collaborators := Demo.catalog) "goldmine")
    with (Some Demo.goldmine).
  cbn [sb_harvest Demo.goldmine].
  match goal with |- context [isBusy later ?b] => destruct (isBusy later b) end;
    reflexivity.
Qed.

(** ** Resources never go negative *)

Lemma ltb_zero_false (x : Q) : JS.ltb x 0 = false -> (0 <= x)%Q.
Proof.
  unfold JS.ltb. intros E. apply negb_false_iff in E. apply Qle_bool_iff. exact E.
Qed.

Lemma sum_nonnegative (a b : Q) : (0 <= a)%Q -> (0 <= b)%Q -> (0 <= a + b)%Q.
Proof.
  intros Ha Hb. setoid_replace 0%Q with (0 + 0)%Q by ring.
  apply Qplus_le_compat; assumption.
Qed.

Lemma difference_checked (a b : Q) : JS.ltb (a - b) 0 = false -> (0 <= a - b)%Q.
Proof. apply ltb_zero_false. Qed.

Lemma accrued_nonnegative rate now t w :
  (0 <= rate)%Q -> t <= now -> 0 <= w -> (0 <= inject_Z (accrued rate now t w))%Q.
Proof.
  intros Hr Ht Hw. change 0%Q with (inject_Z 0). rewrite <- Zle_Qle.
  unfold accrued, gained. apply floor_of_nonnegative.
  apply mul_nonnegative; [apply mul_nonnegative|].
  - apply ofQ_nonnegative. exact Hr.
  - apply elapsedMinutes_nonnegative. exact Ht.
  - apply ofZ_nonnegative. exact Hw.
Qed.

Lemma nonnegative_setResource k v r :
  (0 <= v)%Q -> nonnegative r -> nonnegative (setResource k v r).
Proof. unfold nonnegative. destruct k; cbn; tauto. Qed.

Lemma nonnegative_timestamps r r' :
  gold r' = gold r -> wood r' = wood r -> food r' = food r -> plot r' = plot r ->
  nonnegative r -> nonnegative r'.
Proof. unfold nonnegative. intros -> -> -> ->. tauto. Qed.

Lemma nonnegative_getResource k r : nonnegative r -> (0 <= getResource k r)%Q.
Proof. unfold nonnegative. destruct k; cbn; tauto. Qed.

Lemma notAfter_later t t' r : t <= t' -> notAfter t r -> notAfter t' r.
Proof.
  unfold notAfter. intros L [G W]. split; intros x E; [apply G in E|apply W in E]; lia.
Qed.

Lemma notAfter_setResource t k v r : notAfter t r -> notAfter t (setResource k v r).
Proof. unfold notAfter. destruct k; cbn; tauto. Qed.

Lemma sound_later t t' g : t <= t' -> sound t g -> sound t' g.
Proof.
  unfold sound. intros L (N & A & W). eauto using notAfter_later.
Qed.

(** *** Lists after an update *)

Lemma In_set_at {A} (l : list A) (i : Z) (y x : A) :
  In x (JS.set_at l i y) -> In x l \/ x = y.
Proof.
  unfold JS.set_at. destruct (i <? 0); [auto|].
  generalize (Z.to_nat i). clear i. intros n. revert l.
  induction n as [|n IH]; intros [|a l]; cbn; try tauto.
  - intros [<- | I]; auto.
  - intros [<- | I]; auto. destruct (IH l I); auto.
Qed.

Lemma In_firstn {A} (l : list A) n x : In x (firstn n l) -> In x l.
Proof.
  intros I. rewrite <- (firstn_skipn n l). apply in_or_app. auto.
Qed.

Lemma In_skipn {A} (l : list A) n x : In x (skipn n l) -> In x l.
Proof.
  intros I. rewrite <- (firstn_skipn n l). apply in_or_app. auto.
Qed.

Lemma In_splice {A} (l : list A) (s c : Z) (x : A) : In x (JS.splice s c l) -> In x l.
Proof.
  unfold JS.splice. intros I. apply in_app_or in I as [I | I];
    eauto using In_firstn, In_skipn.
Qed.

Lemma findWithIndex_In {A} (p : A -> bool) (l : list A) x i :
  findWithIndex p l = Some (x, i) -> In x l /\ p x = true.
Proof.
  intros E. destruct (findWithIndex_Some _ _ _ _ E) as (pre & post & -> & _ & _ & P).
  split; [apply in_elt|exact P].
Qed.

Lemma harvestersCounted_replace us i u l :
  harvestersCounted us ->
  (forall a, In a l -> a_type a = harvest -> 0 <= a_quantity a) ->
  harvestersCounted (JS.set_at us i (withAssignments u l)).
Proof.
  intros W Hl v a Iv Ia Ha. apply In_set_at in Iv as [Iv | ->].
  - eapply W; eauto.
  - cbn in Ia. auto.
Qed.

Lemma harvestersCounted_push g i u a :
  harvestersCounted (units g) -> In u (units g) -> a_type a <> harvest ->
  harvestersCounted (units (pushAssignment g i u a)).
Proof.
  intros W Iu Na. unfold pushAssignment. cbn [units withUnits].
  apply harvestersCounted_replace; [exact W|].
  intros x Ix Hx. apply in_app_or in Ix as [Ix | [<- | []]]; [|contradiction].
  eapply W; eauto.
Qed.

Ltac unfold_step E :=
  cbv zeta in E;
  match type of E with
  | andThen ?o _ = Done _ =>
      let g := fresh "g" in
      let R := fresh "Refresh" in
      destruct o as [|g] eqn:R; [discriminate E|unfold andThen in E; cbv beta iota in E]
  | match ?x with _ => _ end = Done _ =>
      let D := fresh "Case" in
      destruct x eqn:D; try discriminate E
  end.

Section SoundProperties.
Context `{Collaborators}.
Hypothesis Cat : nonnegativeCatalog.

Lemma assignedWorkers_counted us b w :
  harvestersCounted us -> assignedWorkers us b = Some w -> 0 <= w.
Proof.
  unfold assignedWorkers. intros W.
  destruct (find _ us) as [u|] eqn:Fu; [|discriminate].
  destruct (find _ (u_assignments u)) as [a|] eqn:Fa; [|discriminate].
  intros [= <-]. apply find_some in Fu as [Iu _]. apply find_some in Fa as [Ia Pa].
  eapply W; eauto. destruct (a_type a); try discriminate. reflexivity.
Qed.

Lemma updateResourcesFor_sound now b g g' :
  sound now g -> updateResourcesFor now b g = Done g' -> sound now g'.
Proof.
  intros S E. pose proof (updateResourcesFor_result now b g) as R.
  rewrite E in R.
  inversion R as [ | | st h w t Est Eh Eb Ew Ew0 Et Hne]; subst; [exact S|].
  destruct S as (N & A & W). destruct Cat as (Costs & _).
  destruct (Costs _ _ Est) as (_ & _ & _ & Amount). specialize (Amount _ Eh).
  assert (Ht : t <= now).
  { unfold lastUpdateOfCode in Et. destruct A as [Ag Aw].
    destruct (String.eqb (b_code b) "goldmine"); [auto|].
    destruct (String.eqb (b_code b) "sawmill"); [auto|discriminate]. }
  assert (Hw : 0 <= w) by (eapply assignedWorkers_counted; eauto).
  assert (V : (0 <= getResource (h_resource h) (resources g)
                    + inject_Z (accrued (h_amount h) now t w))%Q).
  { apply sum_nonnegative; auto using nonnegative_getResource, accrued_nonnegative. }
  unfold sound. cbn [resources units withResources]. split; [|split; [|exact W]].
  - destruct (String.eqb (b_code b) "goldmine");
      (eapply nonnegative_timestamps;
       [..|apply (nonnegative_setResource (h_resource h) _ _ V N)]); reflexivity.
  - pose proof (notAfter_setResource now (h_resource h)
                  (getResource (h_resource h) (resources g)
                   + inject_Z (accrued (h_amount h) now t w))%Q _ A) as [Ag Aw].
    destruct (String.eqb (b_code b) "goldmine"); split; cbn; auto; intros x [= <-]; lia.
Qed.

Lemma updateResourcesLoop_sound now bs : forall g g',
  sound now g -> updateResourcesLoop now bs g = Done g' -> sound now g'.
Proof.
  induction bs as [|b rest IH]; cbn; intros g g' S E.
  - injection E as <-. exact S.
  - destruct (updateResourcesFor now b g) as [|g1] eqn:E1; [discriminate|].
    eauto using updateResourcesFor_sound.
Qed.

Lemma updateResources_sound t now g g' :
  sound t g -> t <= now -> updateResources now g = Done g' -> sound now g'.
Proof.
  intros S L E. eapply updateResourcesLoop_sound; [|exact E].
  eapply sound_later; eauto.
Qed.

End SoundProperties.

Section ServingProperties.
Context `{Collaborators}.
Hypothesis Cat : nonnegativeCatalog.

(** *** Paying and crediting *)

Lemma payment_sound r cost type cs r' :
  checkConstructionPaymentCapacity r cost type cs = inr r' ->
  nonnegative r ->
  nonnegative r'
  /\ goldLastUpdate r' = goldLastUpdate r /\ woodLastUpdate r' = woodLastUpdate r.
Proof.
  unfold checkConstructionPaymentCapacity.
  set (c := match type with Some t => improvementCost cost t cs | None => cost end).
  destruct (JS.ltb (gold r - bc_gold c) 0) eqn:Eg; [discriminate|].
  destruct (JS.ltb (wood r - bc_wood c) 0) eqn:Ew; [discriminate|].
  destruct (JS.ltb (plot r - bc_plot c) 0) eqn:Ep; [discriminate|].
  cbn [orb]. intros [= <-] (_ & _ & F & _).
  apply ltb_zero_false in Eg, Ew, Ep.
  unfold nonnegative. cbn. auto.
Qed.

Lemma creditGift_sound st (amount : IHarvest -> Q) r :
  (forall h, sb_harvest st = Some h -> (0 <= amount h)%Q) ->
  nonnegative r ->
  nonnegative (creditGift st amount r)
  /\ goldLastUpdate (creditGift st amount r) = goldLastUpdate r
  /\ woodLastUpdate (creditGift st amount r) = woodLastUpdate r.
Proof.
  intros Ha N. unfold creditGift, giftOf.
  destruct (sb_harvest st) as [h|]; [|auto].
  assert (G : nonnegative
                (setResource (h_resource h) (getResource (h_resource h) r + amount h) r)
              /\ goldLastUpdate
                   (setResource (h_resource h) (getResource (h_resource h) r + amount h) r)
                 = goldLastUpdate r
              /\ woodLastUpdate
                   (setResource (h_resource h) (getResource (h_resource h) r + amount h) r)
                 = woodLastUpdate r).
  { split; [|apply lastUpdate_setResource].
    apply nonnegative_setResource; [|exact N].
    apply sum_nonnegative; auto using nonnegative_getResource. }
  destruct (h_maxWorkforce h) as [m|]; [destruct (m =? 0)|]; auto.
Qed.

Lemma scaled_gift_nonnegative (amount base : Q) (level : Z) :
  (0 <= amount)%Q -> (0 <= base)%Q ->
  (0 <= inject_Z (Double.floor (Double.mul (Double.ofQ amount) (Double.pow base level))))%Q.
Proof.
  intros Ha Hb. change 0%Q with (inject_Z 0). rewrite <- Zle_Qle.
  apply floor_of_nonnegative, mul_nonnegative.
  - apply ofQ_nonnegative. exact Ha.
  - apply pow_nonnegative. exact Hb.
Qed.

Lemma notAfter_same t r r' :
  goldLastUpdate r' = goldLastUpdate r -> woodLastUpdate r' = woodLastUpdate r ->
  notAfter t r -> notAfter t r'.
Proof. unfold notAfter. intros -> ->. tauto. Qed.

Lemma harvest_amount_nonnegative code st h :
  findBuildingByCode code = Some st -> sb_harvest st = Some h -> (0 <= h_amount h)%Q.
Proof.
  intros Est Eh. destruct Cat as (Costs & _).
  destruct (Costs _ _ Est) as (_ & _ & _ & A). auto.
Qed.

(** *** Each method keeps the invariant *)

Lemma addBuilding_sound t now nowU cId bId aId code w g g' :
  sound t g -> t <= now -> now <= nowU ->
  addBuilding now nowU cId bId aId code w g = Done g' -> sound nowU g'.
Proof.
  intros S L1 L2 E. unfold addBuilding in E.
  destruct (findBuildingByCode code) as [st|] eqn:Est; [|discriminate].
  destruct (findUnit g "peasant") as [[peasants pIndex]|] eqn:Ep; [|discriminate].
  destruct (checkWorkforceCoherence now w peasants st None []); [discriminate|].
  destruct (match sb_requiredEntities st with
            | Some req => checkConstructionRequirements now req (buildings g)
            | None => None
            end); [discriminate|].
  unfold_step E.
  destruct (checkConstructionPaymentCapacity (resources g0) (sb_cost st) None [])
    as [s|r] eqn:Pay; [discriminate|].
  injection E as <-.
  assert (S1 : sound nowU g0).
  { refine (updateResources_sound Cat t nowU _ g0 _ _ Refresh); [exact S|lia]. }
  destruct S1 as (N1 & A1 & W1).
  destruct (payment_sound _ _ _ _ _ Pay N1) as (N2 & Tg & Tw).
  destruct (creditGift_sound st h_amount r
              (fun h Eh => harvest_amount_nonnegative _ _ _ Est Eh) N2) as (N3 & Tg3 & Tw3).
  split; [exact N3|]. split.
  - exact (notAfter_same _ _ _ (eq_trans Tg3 Tg) (eq_trans Tw3 Tw) A1).
  - apply harvestersCounted_push; [exact W1| |discriminate].
    apply updateResourcesLoop_frame in Refresh as [U _]. cbn in U.
    cbn [units withResources]. rewrite U.
    apply (findWithIndex_In _ _ _ _ Ep).
Qed.

Lemma upgradeBuilding_sound t now nowU cId aId bId w g g' :
  sound t g -> t <= now -> now <= nowU ->
  upgradeBuilding now nowU cId aId bId w g = Done g' -> sound nowU g'.
Proof.
  intros S L1 L2 E. unfold upgradeBuilding in E.
  destruct (findBuilding g bId) as [[building bIndex]|]; [|discriminate].
  destruct (findBuildingByCode (b_code building)) as [st|] eqn:Est; [|discriminate].
  destruct (checkBuildingAvailability now building); [discriminate|].
  destruct (checkBuildingImprovable now building st) as [s|[level req]]; [discriminate|].
  destruct (match req with
            | Some l => checkConstructionRequirements now l (buildings g)
            | None => None
            end); [discriminate|].
  destruct (findUnit g "peasant") as [[peasants pIndex]|] eqn:Ep; [|discriminate].
  destruct (checkWorkforceCoherence now w peasants st (Some upgrade)
              (b_constructions building)); [discriminate|].
  unfold_step E.
  match type of E with
  | match ?pay with _ => _ end = _ => destruct pay as [s|r] eqn:Pay; [discriminate|]
  end.
  injection E as <-.
  assert (S1 : sound nowU g0).
  { refine (updateResources_sound Cat t nowU _ g0 _ _ Refresh); [exact S|lia]. }
  destruct S1 as (N1 & A1 & W1).
  destruct (payment_sound _ _ _ _ _ Pay N1) as (N2 & Tg & Tw).
  destruct (creditGift_sound st
              _ r
              (fun h Eh => scaled_gift_nonnegative _ (12 # 10) level
                             (harvest_amount_nonnegative _ _ _ Est Eh) ltac:(discriminate))
              N2) as (N3 & Tg3 & Tw3).
  split; [exact N3|]. split.
  - exact (notAfter_same _ _ _ (eq_trans Tg3 Tg) (eq_trans Tw3 Tw) A1).
  - apply harvestersCounted_push; [exact W1| |discriminate].
    apply updateResourcesLoop_frame in Refresh as [U _]. cbn in U.
    cbn [units withResources]. rewrite U.
    apply (findWithIndex_In _ _ _ _ Ep).
Qed.

Lemma extendBuilding_sound t now cId aId bId w g g' :
  sound t g -> extendBuilding now cId aId bId w g = Done g' -> sound t g'.
Proof.
  intros S E. unfold extendBuilding in E.
  destruct (findBuilding g bId) as [[garrBuilding bIndex]|]; [|discriminate].
  destruct (findBuildingByCode (b_code garrBuilding)) as [st|] eqn:Est; [|discriminate].
  destruct (sb_extension st) as [ext|]; [|discriminate].
  destruct (isBusy now garrBuilding); [discriminate|].
  set (level := currentExtensionLevel garrBuilding) in *.
  destruct (match ext_maxLevel ext with
            | Some maxLevel => level + 1 >? maxLevel
            | None => false
            end); [discriminate|].
  destruct (unfulfilled now (buildings g) _ (ext_requiredEntities ext)); [discriminate|].
  cbv zeta in E.
  destruct (findUnit g "peasant") as [[peasants pIndex]|] eqn:Ep; [|discriminate].
  destruct (w >? u_quantity peasants); [discriminate|].
  destruct (w >? u_quantity peasants - unavailableQuantity now (u_assignments peasants));
    [discriminate|].
  destruct (w <? extensionMinWorkforce st level); [discriminate|].
  destruct (w >? extensionMinWorkforce st level * 2); [discriminate|].
  cbn [resources withBuildings] in E.
  match type of E with
  | (if JS.ltb ?a 0 || JS.ltb ?b 0 || JS.ltb ?c 0 then _ else _) = _ =>
      destruct (JS.ltb a 0) eqn:Eg; [discriminate|];
      destruct (JS.ltb b 0) eqn:Ew; [discriminate|];
      destruct (JS.ltb c 0) eqn:Epl; [discriminate|]
  end.
  cbn [orb] in E. injection E as <-.
  apply ltb_zero_false in Eg, Ew, Epl.
  destruct S as (N & A & W).
  match goal with
  | |- sound _ (pushAssignment (withResources _ (creditGift _ ?gift ?r1)) _ _ _) =>
      assert (N1 : nonnegative r1) by (destruct N as (_ & _ & F & _); repeat split; auto);
      destruct (creditGift_sound st gift r1
                  (fun h Eh => scaled_gift_nonnegative _ (12 # 10) (level + 1)
                                 (harvest_amount_nonnegative _ _ _ Est Eh)
                                 ltac:(discriminate)) N1) as (N2 & Tg & Tw)
  end.
  split; [exact N2|]. split.
  - exact (notAfter_same _ _ _ Tg Tw A).
  - apply harvestersCounted_push; [exact W| |discriminate].
    apply (findWithIndex_In _ _ _ _ Ep).
Qed.

Lemma cancelHarvestUpdate_notAfter t st bs r :
  notAfter t r -> notAfter t (cancelHarvestUpdate st bs r).
Proof.
  unfold cancelHarvestUpdate, notAfter. intros [G W].
  destruct (sb_harvest st) as [h|]; [|auto].
  destruct (h_maxWorkforce h); [|auto].
  destruct (existsb _ bs); [|auto].
  destruct (h_resource h); cbn; split; auto; discriminate.
Qed.

Lemma cancelBuildingConstruction_sound t bId cId g g' :
  sound t g -> cancelBuildingConstruction bId cId g = Done g' -> sound t g'.
Proof.
  intros S E. unfold cancelBuildingConstruction, cancelWith in E.
  destruct (findBuilding g bId) as [[building bIndex]|]; [|discriminate].
  destruct (findBuildingByCode (b_code building)) as [st|] eqn:Est; [|discriminate].
  destruct (findBuildingConstruction building cId) as [[target cIndex]|]; [|discriminate].
  destruct Cat as (Costs & _ & Dec).
  destruct (Costs _ _ Est) as (Cg & Cw & Cp & _).
  destruct S as (N & A & W).
  assert (Refund : forall gold1 wood1 plot1 bs,
             (0 <= gold1)%Q -> (0 <= wood1)%Q -> (0 <= plot1)%Q ->
             let r := cancelHarvestUpdate st bs
                        (setResource Plot (plot (resources g) + plot1)
                           (setResource Wood (wood (resources g) + wood1)
                              (setResource Gold (gold (resources g) + gold1)
                                 (resources g))))%Q in
             nonnegative r /\ notAfter t r).
  { intros gold1 wood1 plot1 bs Hg Hw Hp r. subst r. split.
    - destruct (cancelHarvestUpdate_quantities st bs
                  (setResource Plot (plot (resources g) + plot1)
                     (setResource Wood (wood (resources g) + wood1)
                        (setResource Gold (gold (resources g) + gold1)
                           (resources g))))%Q) as (Kg & Kw & Kp & Kf).
      destruct N as (Ng & Nw & Nf & Np).
      unfold nonnegative. rewrite Kg, Kw, Kp, Kf. cbn.
      auto using sum_nonnegative.
    - apply cancelHarvestUpdate_notAfter. exact A. }
  assert (Release : forall g1 peasants pIndex aIndex,
             units g1 = units g ->
             findUnit g1 "peasant" = Some (peasants, pIndex) ->
             harvestersCounted
               (JS.set_at (units g1) pIndex
                  (withAssignments peasants (JS.splice aIndex 1 (u_assignments peasants))))).
  { intros g1 peasants pIndex aIndex U Ep.
    apply harvestersCounted_replace; [rewrite U; exact W|].
    intros a Ia Ha. apply In_splice in Ia.
    apply findWithIndex_In in Ep as [Ip _]. rewrite U in Ip. eapply W; eauto. }
  destruct (c_improvement target) as [improvement|]; cbv zeta in E; cbn [improvementRefund] in E.
  - match type of E with
    | match findUnit ?g1 _ with _ => _ end = _ =>
        destruct (findUnit g1 "peasant") as [[peasants pIndex]|] eqn:Ep; [|discriminate]
    end.
    injection E as <-.
    destruct (Refund (bc_plot (sb_cost st) * JS.pow decreasedFactor (i_level improvement))%Q
                (bc_wood (sb_cost st)) (bc_plot (sb_cost st))
                (JS.set_at (buildings g) bIndex
                   (withConstructions building
                      (JS.splice cIndex 1 (b_constructions building)))))
      as (N1 & A1); auto.
    { apply Qmult_le_0_compat; [exact Cp|]. apply Qpower_0_le. exact Dec. }
    split; [exact N1|]. split; [exact A1|].
    eapply Release; [|exact Ep]. reflexivity.
  - match type of E with
    | match findUnit ?g1 _ with _ => _ end = _ =>
        destruct (findUnit g1 "peasant") as [[peasants pIndex]|] eqn:Ep; [|discriminate]
    end.
    injection E as <-.
    destruct (Refund (bc_gold (sb_cost st)) (bc_wood (sb_cost st))
                (bc_plot (sb_cost st)) (JS.splice bIndex 1 (buildings g)))
      as (N1 & A1); auto.
    split; [exact N1|]. split; [exact A1|].
    eapply Release; [|exact Ep]. reflexivity.
Qed.

Lemma harvestersCounted_trained newUnit us :
  harvestersCounted us ->
  (forall a, In a (u_assignments newUnit) -> a_type a <> harvest) ->
  harvestersCounted (withTrainedUnits newUnit us).
Proof.
  intros W Hn.
  destruct (withTrainedUnits_merge newUnit us)
    as [(u & pre & post & _ & L & _ & _ & ->) | (_ & _ & ->)]; intros v a Iv Ia Ha.
  - subst us. apply in_app_or in Iv as [Iv | [<- | Iv]].
    + eapply W; eauto. apply in_or_app. auto.
    + cbn in Ia. apply in_app_or in Ia as [Ia | Ia].
      * eapply W; eauto. apply in_elt.
      * apply Hn in Ia. contradiction.
    + eapply W; eauto. apply in_or_app. right. right. exact Iv.
  - apply in_app_or in Iv as [Iv | [<- | []]].
    + eapply W; eauto.
    + apply Hn in Ia. contradiction.
Qed.

Lemma addUnit_sound t now nowU code quantity g g' :
  sound t g -> t <= now -> now <= nowU ->
  addUnit now nowU code quantity g = Done g' -> sound nowU g'.
Proof.
  intros S L1 L2 E. unfold addUnit in E.
  destruct (findUnitByCode code) as [unit|]; [|discriminate].
  destruct (unfulfilled now (buildings g) _ (su_requiredEntities unit)); [discriminate|].
  unfold_step E.
  match type of E with
  | (if JS.ltb ?a 0 || JS.ltb ?b 0 || JS.ltb ?c 0 then _ else _) = _ =>
      destruct (JS.ltb a 0) eqn:Eg; [discriminate|];
      destruct (JS.ltb b 0) eqn:Ew; [discriminate|];
      destruct (JS.ltb c 0) eqn:Ef; [discriminate|]
  end.
  unfold orb in E. injection E as <-.
  apply ltb_zero_false in Eg, Ew, Ef.
  assert (S1 : sound nowU g0).
  { refine (updateResources_sound Cat t nowU _ g0 _ _ Refresh); [|lia].
    destruct S as (N & A & W). split; [exact N|]. split; [exact A|].
    apply harvestersCounted_trained; [exact W|].
    intros a Ia. apply trainingAssignments_In in Ia as (i & _ & ->). discriminate. }
  destruct S1 as ((_ & _ & _ & Np) & A1 & W1).
  split; [|split; [exact A1|exact W1]].
  repeat split; assumption.
Qed.

Lemma at_In {A} (l : list A) i x : JS.at_ l i = Some x -> In x l.
Proof.
  unfold JS.at_. destruct (i <? 0); [discriminate|]. apply nth_error_In.
Qed.

Lemma assignLoop_counted n bid : forall l,
  (forall a, In a l -> a_type a = harvest -> 0 <= a_quantity a) ->
  forall a, In a (assignLoop n bid l) -> a_type a = harvest -> 0 <= a_quantity a.
Proof.
  induction n as [|n IH]; intros l Hl; [exact Hl|].
  cbn [assignLoop]. apply IH.
  destruct (JS.findIndex _ l <? 0).
  - intros a Ia Ha. apply in_app_or in Ia as [Ia | [<- | []]]; [auto|cbn; lia].
  - destruct (JS.at_ l (JS.findIndex _ l)) as [x|] eqn:Ex; [|exact Hl].
    intros a Ia Ha. apply In_set_at in Ia as [Ia | ->]; [auto|].
    cbn in *. apply at_In in Ex. specialize (Hl x Ex Ha). lia.
Qed.

Lemma refreshIfPeasant_sound t nowU unit g g' :
  sound t g -> t <= nowU -> refreshIfPeasant nowU unit g = Done g' -> sound nowU g'.
Proof.
  unfold refreshIfPeasant. intros S L.
  destruct (String.eqb (su_code unit) "peasant").
  - apply (updateResources_sound Cat t nowU g g' S L).
  - intros [= <-]. eapply sound_later; eauto.
Qed.

Lemma assignUnit_sound t now nowU bId code quantity g g' :
  sound t g -> t <= now -> now <= nowU ->
  assignUnit now nowU bId code quantity g = Done g' -> sound nowU g'.
Proof.
  intros S L1 L2 E. unfold assignUnit in E.
  destruct (findBuilding g bId) as [[garrBuilding bIndex]|]; [|discriminate].
  destruct (findBuildingByCode (b_code garrBuilding)) as [building|]; [|discriminate].
  destruct (sb_harvest building); [|discriminate].
  destruct (findUnitByCode code) as [unit|]; [|discriminate].
  destruct (findUnit g code) as [[garrUnits uIndex]|] eqn:Eu; [|discriminate].
  cbv zeta in E.
  destruct (quantityOr1 quantity >? u_quantity garrUnits); [discriminate|].
  destruct (isBusy now garrBuilding); [discriminate|].
  destruct (quantityOr1 quantity >?
            u_quantity garrUnits - unavailableQuantity now (u_assignments garrUnits));
    [discriminate|].
  unfold_step E. injection E as <-.
  assert (Lu : t <= nowU) by lia.
  pose proof (refreshIfPeasant_sound _ _ _ _ _ S Lu Refresh) as (N1 & A1 & W1).
  apply refreshIfPeasant_frame in Refresh as [U _].
  apply findWithIndex_In in Eu as [Iu _].
  cbn [resources units withUnits withResources].
  assert (W2 : harvestersCounted
                 (JS.set_at (units g0) uIndex
                    (withAssignments garrUnits
                       (assignLoop (Z.to_nat (quantityOr1 quantity)) (b_id garrBuilding)
                          (u_assignments garrUnits))))).
  { apply harvestersCounted_replace; [exact W1|].
    apply assignLoop_counted. intros a Ia Ha. rewrite U in W1. eapply W1; eauto. }
  destruct A1 as [Ag Aw].
  destruct (String.eqb (sb_code building) "goldmine" && isNone (goldLastUpdate (resources g0)));
    [|destruct (String.eqb (sb_code building) "sawmill"
                && isNone (woodLastUpdate (resources g0)))];
    (split; [exact N1|split; [|exact W2]]); split; cbn; auto; intros x [= <-]; lia.
Qed.

Lemma In_unassignFrom index a qty l x :
  In x (unassignFrom index a qty l) -> In x l \/ x = withQuantity a (a_quantity a - qty).
Proof.
  unfold unassignFrom. destruct (a_quantity a - qty =? 0); intros I.
  - apply In_splice in I. apply In_set_at in I. exact I.
  - apply In_set_at in I. exact I.
Qed.

Lemma unassignUnit_sound t nowU bId code quantity g g' :
  sound t g -> t <= nowU ->
  unassignUnit nowU bId code quantity g = Done g' -> sound nowU g'.
Proof.
  intros S L E. unfold unassignUnit in E.
  destruct (findBuilding g bId) as [[garrBuilding bIndex]|]; [|discriminate].
  destruct (findBuildingByCode (b_code garrBuilding)) as [building|]; [|discriminate].
  destruct (sb_harvest building); [|discriminate].
  destruct (findUnitByCode code) as [unit|]; [|discriminate].
  destruct (findUnit g code) as [[garrUnits uIndex]|] eqn:Eu; [|discriminate].
  destruct (findWithIndex (isHarvestOf garrBuilding) (u_assignments garrUnits))
    as [[a index]|] eqn:Ea; [|discriminate].
  cbv zeta in E.
  destruct (Z.ltb_spec (a_quantity a) (quantityOr1 quantity)); [discriminate|].
  unfold_step E. injection E as <-.
  pose proof (refreshIfPeasant_sound _ _ _ _ _ S L Refresh) as (N1 & A1 & W1).
  apply refreshIfPeasant_frame in Refresh as [U _].
  apply findWithIndex_In in Eu as [Iu _].
  apply findWithIndex_In in Ea as [Ia _].
  cbn [resources units buildings withUnits withResources].
  assert (W2 : harvestersCounted
                 (JS.set_at (units g0) uIndex
                    (withAssignments garrUnits
                       (unassignFrom index a (quantityOr1 quantity)
                          (u_assignments garrUnits))))).
  { apply harvestersCounted_replace; [exact W1|].
    intros x Ix Hx. apply In_unassignFrom in Ix as [Ix | ->].
    - rewrite U in W1. eapply W1; eauto.
    - cbn. lia. }
  destruct A1 as [Ag Aw].
  destruct (String.eqb (sb_code building) "goldmine");
    [|destruct (String.eqb (sb_code building) "sawmill")];
    try match goal with
        | |- context [if negb ?c then _ else _] => destruct c
        end;
    (split; [exact N1|split; [|exact W2]]); split; cbn; auto; discriminate.
Qed.

(** Serving one call keeps the invariant, whether the call is saved or
    fails. *)
Lemma serve_sound t c db :
  sound t db -> t <= call_now c -> call_now c <= call_nowU c ->
  sound (call_nowU c) (persisted db (serve c db)).
Proof.
  intros S L1 L2.
  assert (Later : sound (call_nowU c) db) by (eapply sound_later; [|exact S]; lia).
  unfold serve. destruct (call_request c);
    match goal with
    | |- sound _ (persisted _ ?o) => destruct o as [s mem|g'] eqn:E; [exact Later|]
    end; cbn [persisted].
  - exact (addBuilding_sound t _ _ _ _ _ _ _ _ _ S L1 L2 E).
  - eapply sound_later; [|exact (cancelBuildingConstruction_sound t _ _ _ _ S E)]. lia.
  - exact (upgradeBuilding_sound t _ _ _ _ _ _ _ _ S L1 L2 E).
  - eapply sound_later; [|exact (extendBuilding_sound t _ _ _ _ _ _ _ S E)]. lia.
  - exact (addUnit_sound t _ _ _ _ _ _ S L1 L2 E).
  - exact (assignUnit_sound t _ _ _ _ _ _ _ S L1 L2 E).
  - eapply unassignUnit_sound; [exact S|lia|exact E].
Qed.

Lemma serveAll_sound cs : forall t db,
  sound t db -> clockOrdered t cs -> exists t', sound t' (serveAll cs db).
Proof.
  induction cs as [|c rest IH]; intros t db S O.
  - exists t. exact S.
  - destruct O as (L1 & L2 & O). cbn [serveAll].
    eapply IH; [|exact O]. apply (serve_sound t); assumption.
Qed.

Lemma newGarrison_sound t : sound t newGarrison.
Proof.
  split; [|split].
  - repeat split; discriminate.
  - split; intros x; discriminate.
  - intros u a [<- | []] [].
Qed.

End ServingProperties.

(** C5.  Starting from the document [create] stores, after any sequence of
    calls to the exposed methods (add, cancel, upgrade, extend a building;
    add, assign, unassign a unit), each served at clock readings that never
    go back and over a catalog without negative cost, harvest amount or
    factor, gold, wood, food and plot of the stored garrison are
    non-negative. *)
Theorem resources_never_negative `{Collaborators} owned name zoneSide faction g0 t0 cs :
  create owned name zoneSide faction = inr g0 ->
  nonnegativeCatalog ->
  clockOrdered t0 cs ->
  nonnegative (resources (serveAll cs g0)).
Proof.
  intros Created Cat O.
  assert (g0 = newGarrison) as ->.
  { unfold create in Created.
    destruct owned as [n|]; [destruct (areSameString n name); [discriminate|]|];
      destruct (negb (areSameString zoneSide faction)); congruence. }
  destruct (serveAll_sound Cat cs t0 newGarrison (newGarrison_sound t0) O) as (t' & S & _).
  exact S.
Qed.

Lemma demo_catalog_nonnegative : nonnegativeCatalog (H:=Demo.catalog).
Proof.
  split; [|split; discriminate].
  intros code st E. cbn in E.
  repeat match type of E with
         | (if ?c then _ else _) = _ => destruct c
         end;
    try discriminate; injection E as <-;
    (repeat split; try discriminate; intros h [= <-]; discriminate).
Qed.

(** The session of the examples, served on a fresh garrison. *)
Lemma resources_never_negative_witness :
  nonnegative (resources (serveAll (H:=Demo.catalog) Demo.session newGarrison)).
Proof.
  apply (resources_never_negative (H:=Demo.catalog) None "Home" "alliance" "alliance"
           newGarrison 0 Demo.session eq_refl demo_catalog_nonnegative).
  cbn. lia.
Defined.

(** ** The scenarios of the specification, run on the model *)

(** 625 gold, 320 wood, 3 food, 32 plot and three peasants; a gold mine
    costing 100 gold, 50 wood and 5 plot, built in 60 seconds by two
    peasants. *)
Example scenario_addBuilding :
  exists g',
    addBuilding (H:=Demo.catalog) 1000 1001 101 100 102 "goldmine" 2 newGarrison = Done g'
    /\ (gold (resources g') == 525)%Q /\ (wood (resources g') == 270)%Q
    /\ (plot (resources g') == 27)%Q
    /\ buildings g'
       = [ {| b_id := Some 100; b_code := "goldmine";
              b_constructions :=
                [ {| c_id := 101; c_beginDate := 1000; c_endDate := 61000;
                     c_workforce := 2; c_improvement := None |} ] |} ]
    /\ units g'
       = [ {| u_code := "peasant"; u_quantity := 3;
              u_assignments :=
                [ {| a_id := Some 102; a_buildingId := Some 100; a_quantity := 2;
                     a_type := construction; a_endDate := 61000 |} ] |} ].
Proof. eexists. split; [vm_compute; reflexivity|]. repeat split. Qed.

(** Two peasants harvesting for ten minutes at 3 gold per worker per
    minute: the next refresh adds 60 gold and resets the timestamp. *)
Example scenario_harvest :
  updateResources (H:=Demo.catalog) 600000 Demo.oneMine
  = Done (withResources Demo.oneMine
            {| gold := 685; wood := 320; food := 3; plot := 32;
               goldLastUpdate := Some 600000; woodLastUpdate := None |}).
Proof. vm_compute. reflexivity. Qed.

(** The same refresh on two gold mines credits the first mine only. *)
Example scenario_two_mines :
  exists g',
    updateResources (H:=Demo.catalog) 600000 Demo.twoMines = Done g'
    /\ (gold (resources g') == 625 + 60)%Q.
Proof. eexists. split; [vm_compute; reflexivity|reflexivity]. Qed.


(** * Further properties of the repository *)

(** ** The ledger refresh: frame and monotonicity *)

Section RefreshProperties.
Context `{Collaborators}.

Lemma isBusy_later n1 n2 b : n1 <= n2 -> isBusy n1 b = false -> isBusy n2 b = false.
Proof.
  unfold isBusy. intros L E.
  destruct (existsb (fun c => c_endDate c >? n2) (b_constructions b)) eqn:E2; [|reflexivity].
  apply existsb_exists in E2 as (c & Ic & Hc).
  assert (existsb (fun c => c_endDate c >? n1) (b_constructions b) = true); [|congruence].
  apply existsb_exists. exists c. split; [exact Ic|]. lia.
Qed.

Lemma updateResourcesLoop_outcome now bs : forall g,
  ((forall b, In b bs -> findBuildingByCode (b_code b) <> None) ->
   exists g',
     updateResourcesLoop now bs g = Done g'
     /\ buildings g' = buildings g /\ units g' = units g)
  /\ ((exists b, In b bs /\ findBuildingByCode (b_code b) = None) ->
      exists mem,
        updateResourcesLoop now bs g = Threw typeError mem
        /\ buildings mem = buildings g /\ units mem = units g).
Proof.
  induction bs as [|b rest IH]; intros g; split.
  - intros _. exists g. cbn. auto.
  - intros (b & [] & _).
  - intros Known. cbn [updateResourcesLoop].
    pose proof (updateResourcesFor_result now b g) as R.
    destruct (updateResourcesFor now b g) as [s mem|g1] eqn:E1.
    + inversion R; subst. destruct (Known b (or_introl eq_refl)). assumption.
    + destruct (updateResourcesFor_frame _ _ _ _ E1) as [U1 B1].
      destruct (proj1 (IH g1)) as (g' & E & B & U).
      { intros b' I. apply Known. right. exact I. }
      exists g'. cbn [andThen]. split; [exact E|]. split; congruence.
  - intros (bad & I & Unknown). cbn [updateResourcesLoop].
    pose proof (updateResourcesFor_result now b g) as R.
    destruct (updateResourcesFor now b g) as [s mem|g1] eqn:E1.
    + inversion R; subst. eexists. split; [reflexivity|auto].
    + destruct (updateResourcesFor_frame _ _ _ _ E1) as [U1 B1].
      destruct I as [-> | I].
      * unfold updateResourcesFor in E1. rewrite Unknown in E1. discriminate.
      * destruct (proj2 (IH g1)) as (mem & E & B & U); [exists bad; auto|].
        exists mem. cbn [andThen]. split; [exact E|]. split; congruence.
Qed.

Lemma updateResourcesFor_grows now b g g' :
  nonnegativeCatalog ->
  notAfter now (resources g) ->
  harvestersCounted (units g) ->
  updateResourcesFor now b g = Done g' ->
  (forall k, getResource k (resources g) <= getResource k (resources g'))%Q
  /\ notAfter now (resources g').
Proof.
  intros Cat A W E. pose proof (updateResourcesFor_result now b g) as R.
  rewrite E in R.
  inversion R as [ | | st h w t Est Eh Eb Ew Ew0 Et Hne]; subst.
  - split; [intros k; apply Qle_refl|exact A].
  - destruct Cat as (Costs & _).
    destruct (Costs _ _ Est) as (_ & _ & _ & Amount). specialize (Amount _ Eh).
    assert (Ht : t <= now).
    { unfold lastUpdateOfCode in Et. destruct A as [Ag Aw].
      destruct (String.eqb (b_code b) "goldmine"); [auto|].
      destruct (String.eqb (b_code b) "sawmill"); [auto|discriminate]. }
    assert (Hw : 0 <= w) by (eapply assignedWorkers_counted; eauto).
    pose proof (accrued_nonnegative (h_amount h) now t w Amount Ht Hw) as Gain.
    cbn [resources withResources]. split.
    + intros k.
      assert (Up : forall x : Q, (x <= x + inject_Z (accrued (h_amount h) now t w))%Q).
      { intros x. rewrite <- (Qplus_0_r x) at 1.
        apply Qplus_le_compat; [apply Qle_refl|exact Gain]. }
      destruct (resources g) as [rg rw rf rp tg tw].
      destruct (String.eqb (b_code b) "goldmine"), (h_resource h), k; cbn;
        first [apply Up | apply Qle_refl].
    + pose proof (notAfter_setResource now (h_resource h)
                    (getResource (h_resource h) (resources g)
                     + inject_Z (accrued (h_amount h) now t w))%Q _ A) as [Ag Aw].
      destruct (String.eqb (b_code b) "goldmine"); split; cbn; auto; intros x [= <-]; lia.
Qed.

Lemma updateResourcesLoop_grows now bs : forall g g',
  nonnegativeCatalog ->
  notAfter now (resources g) ->
  harvestersCounted (units g) ->
  updateResourcesLoop now bs g = Done g' ->
  (forall k, getResource k (resources g) <= getResource k (resources g'))%Q.
Proof.
  induction bs as [|b rest IH]; cbn; intros g g' Cat A W E.
  - injection E as <-. intros k. apply Qle_refl.
  - destruct (updateResourcesFor now b g) as [|g1] eqn:E1; [discriminate|].
    destruct (updateResourcesFor_grows _ _ _ _ Cat A W E1) as [Up A1].
    destruct (updateResourcesFor_frame _ _ _ _ E1) as [U1 _].
    intros k. eapply Qle_trans; [apply Up|].
    apply (IH g1 g'); auto. rewrite U1. exact W.
Qed.

(** Over a catalog without negative amounts, with no timestamp after
    [now] and no negative harvest quantity, a refresh never lowers a
    resource. *)
Theorem updateResources_never_lowers now g g' :
  nonnegativeCatalog ->
  notAfter now (resources g) ->
  harvestersCounted (units g) ->
  updateResources now g = Done g' ->
  forall k, (getResource k (resources g) <= getResource k (resources g'))%Q.
Proof. intros Cat A W E. exact (updateResourcesLoop_grows now _ g g' Cat A W E). Qed.

End RefreshProperties.

Lemma updateResources_never_lowers_witness :
  (gold (resources Demo.oneMine) <= 685)%Q.
Proof.
  refine (updateResources_never_lowers (H:=Demo.catalog) 600000 Demo.oneMine _
            demo_catalog_nonnegative _ _ eq_refl Gold).
  - split; intros x [= <-]. lia.
  - intros u a [<- | []] [<- | []] _. cbn. lia.
Defined.

(** ** assignUnit and unassignUnit: the harvest assignment of a building *)

Lemma findIndex_middle {A} (p : A -> bool) pre x post :
  forallb (fun y => negb (p y)) pre = true -> p x = true ->
  JS.findIndex p (pre ++ x :: post) = Z.of_nat (List.length pre).
Proof.
  intros F Px. unfold JS.findIndex.
  assert (R : forall i, JS.findIndexFrom p i (pre ++ x :: post)
                        = i + Z.of_nat (List.length pre)).
  { clear -F Px. induction pre as [|a pre IH]; intros i; cbn [JS.findIndexFrom app].
    - rewrite Px. cbn. lia.
    - cbn in F. apply andb_prop in F as [Fa F]. apply negb_true_iff in Fa.
      rewrite Fa, IH by exact F. cbn [List.length]. lia. }
  rewrite R. lia.
Qed.

Lemma find_none_before {A} (p : A -> bool) (l : list A) :
  forallb (fun y => negb (p y)) l = true -> find p l = None.
Proof.
  induction l as [|a l IH]; [reflexivity|]. cbn. intros F.
  apply andb_prop in F as [Fa F]. apply negb_true_iff in Fa. rewrite Fa. auto.
Qed.

Lemma find_middle {A} (p : A -> bool) pre x post :
  forallb (fun y => negb (p y)) pre = true -> p x = true ->
  find p (pre ++ x :: post) = Some x.
Proof.
  intros F Px. rewrite find_append, find_none_before by exact F.
  cbn. rewrite Px. reflexivity.
Qed.

Lemma forallb_same {A} (p q : A -> bool) (l : list A) :
  (forall x, p x = q x) -> forallb p l = forallb q l.
Proof. intros E. induction l as [|a l IH]; cbn; [reflexivity|]. now rewrite E, IH. Qed.

Lemma withQuantity_same a : withQuantity a (a_quantity a) = a.
Proof. destruct a. reflexivity. Qed.

Lemma withAssignments_same u : withAssignments u (u_assignments u) = u.
Proof. destruct u. reflexivity. Qed.

Lemma assignLoop_found n x : forall pre a post,
  forallb (fun y => negb (isHarvestAt x y)) pre = true ->
  isHarvestAt x a = true ->
  assignLoop n (Some x) (pre ++ a :: post)
  = pre ++ withQuantity a (a_quantity a + Z.of_nat n) :: post.
Proof.
  induction n as [|n IH]; intros pre a post F Pa.
  - cbn [assignLoop]. rewrite Z.add_0_r, withQuantity_same. reflexivity.
  - cbn [assignLoop]. fold (isHarvestAt x).
    change (fun a0 => sameHex (a_buildingId a0) (Some x) && isHarvest (a_type a0))
      with (isHarvestAt x).
    rewrite (findIndex_middle (isHarvestAt x) pre a post F Pa).
    destruct (Z.ltb_spec (Z.of_nat (List.length pre)) 0); [lia|].
    rewrite at_middle, set_at_middle.
    rewrite IH by (auto; exact Pa).
    unfold withQuantity. cbn [a_id a_buildingId a_quantity a_type a_endDate].
    replace (a_quantity a + 1 + Z.of_nat n) with (a_quantity a + Z.of_nat (S n)) by lia.
    reflexivity.
Qed.

(** After [n >= 1] rounds the building has one more harvest assignment, of
    quantity [n], when it had none, and [n] more workers on its first
    harvest assignment otherwise; nothing else moves. *)
Lemma assignLoop_shape n x l :
  (0 < n)%nat ->
  (forallb (fun y => negb (isHarvestAt x y)) l = true
   /\ assignLoop n (Some x) l = l ++ [newHarvest (Some x) (Z.of_nat n)])
  \/ (exists pre a post,
         l = pre ++ a :: post
         /\ forallb (fun y => negb (isHarvestAt x y)) pre = true
         /\ isHarvestAt x a = true
         /\ assignLoop n (Some x) l
            = pre ++ withQuantity a (a_quantity a + Z.of_nat n) :: post).
Proof.
  intros Hn.
  destruct (findIndexFrom_spec (isHarvestAt x) l 0)
    as [(E & F) | (pre & a & post & E & F & Pa & _)]; [lia| |].
  - left. split; [exact F|].
    destruct n as [|n]; [lia|]. cbn [assignLoop].
    change (fun a0 => sameHex (a_buildingId a0) (Some x) && isHarvest (a_type a0))
      with (isHarvestAt x).
    unfold JS.findIndex. rewrite E. cbn [Z.ltb Z.compare].
    fold (newHarvest (Some x) 1).
    rewrite (assignLoop_found n x l (newHarvest (Some x) 1) [] F).
    + unfold newHarvest, withQuantity.
      cbn [a_id a_buildingId a_quantity a_type a_endDate].
      replace (1 + Z.of_nat n) with (Z.of_nat (S n)) by lia. reflexivity.
    + unfold isHarvestAt, newHarvest, sameHex, sameId. cbn. rewrite Z.eqb_refl. reflexivity.
  - right. exists pre, a, post. subst l. repeat split; auto.
    apply assignLoop_found; assumption.
Qed.

Lemma find_same {A} (p q : A -> bool) (l : list A) :
  (forall x, p x = q x) -> find p l = find q l.
Proof. intros E. induction l as [|a l IH]; cbn; [reflexivity|]. now rewrite E, IH. Qed.

Lemma findIndexFrom_same {A} (p q : A -> bool) (l : list A) :
  (forall x, p x = q x) -> forall i, JS.findIndexFrom p i l = JS.findIndexFrom q i l.
Proof.
  intros E. induction l as [|a l IH]; intros i; cbn [JS.findIndexFrom]; [reflexivity|].
  now rewrite E, IH.
Qed.

Lemma findWithIndex_same {A} (p q : A -> bool) (l : list A) :
  (forall x, p x = q x) -> findWithIndex p l = findWithIndex q l.
Proof.
  intros E. unfold findWithIndex, JS.findIndex.
  now rewrite (findIndexFrom_same p q l E).
Qed.

Lemma assignLoop_positive n bid : forall l,
  (forall a, In a l -> a_type a = harvest -> 0 < a_quantity a) ->
  forall a, In a (assignLoop n bid l) -> a_type a = harvest -> 0 < a_quantity a.
Proof.
  induction n as [|n IH]; intros l Hl; [exact Hl|].
  cbn [assignLoop]. apply IH.
  destruct (JS.findIndex _ l <? 0).
  - intros a Ia Ha. apply in_app_or in Ia as [Ia | [<- | []]]; [auto|cbn; lia].
  - destruct (JS.at_ l (JS.findIndex _ l)) as [x|] eqn:Ex; [|exact Hl].
    intros a Ia Ha. apply In_set_at in Ia as [Ia | ->]; [auto|].
    cbn in *. apply at_In in Ex. specialize (Hl x Ex Ha). lia.
Qed.

Lemma harvestersPositive_replace us i u l :
  harvestersPositive us ->
  (forall a, In a l -> a_type a = harvest -> 0 < a_quantity a) ->
  harvestersPositive (JS.set_at us i (withAssignments u l)).
Proof.
  intros W Hl v a Iv Ia Ha. apply In_set_at in Iv as [Iv | ->].
  - eapply W; eauto.
  - cbn in Ia. auto.
Qed.

Section AssignmentProperties.
Context `{Collaborators}.

(** A building found by id carries that id. *)
Lemma findBuilding_id g bid b i : findBuilding g bid = Some (b, i) -> b_id b = Some bid.
Proof.
  intros E. apply findWithIndex_In in E as [_ P].
  destruct (b_id b) as [x|]; [|discriminate]. apply Z.eqb_eq in P. congruence.
Qed.

(** What a saved [assignUnit] went through and what it stored. *)
Lemma assignUnit_saved now nowU bid code quantity g g' :
  assignUnit now nowU bid code quantity g = Done g' ->
  exists garrBuilding bIndex building unit garrUnits uIndex refreshed,
    findBuilding g bid = Some (garrBuilding, bIndex)
    /\ findBuildingByCode (b_code garrBuilding) = Some building
    /\ sb_harvest building <> None
    /\ findUnitByCode code = Some unit
    /\ findUnit g code = Some (garrUnits, uIndex)
    /\ quantityOr1 quantity <= u_quantity garrUnits
    /\ isBusy now garrBuilding = false
    /\ quantityOr1 quantity <= idle now garrUnits
    /\ refreshIfPeasant nowU unit g = Done refreshed
    /\ units g'
       = JS.set_at (units g) uIndex
           (withAssignments garrUnits
              (assignLoop (Z.to_nat (quantityOr1 quantity)) (Some bid)
                 (u_assignments garrUnits)))
    /\ buildings g' = buildings g.
Proof.
  intros E. unfold assignUnit in E.
  destruct (findBuilding g bid) as [[garrBuilding bIndex]|] eqn:Eb; [|discriminate].
  destruct (findBuildingByCode (b_code garrBuilding)) as [building|] eqn:Est;
    [|discriminate].
  destruct (sb_harvest building) eqn:Eh; [|discriminate].
  destruct (findUnitByCode code) as [unit|] eqn:Eu; [|discriminate].
  destruct (findUnit g code) as [[garrUnits uIndex]|] eqn:Eg; [|discriminate].
  cbv zeta in E.
  destruct (Z.gtb_spec (quantityOr1 quantity) (u_quantity garrUnits)); [discriminate|].
  destruct (isBusy now garrBuilding) eqn:Busy; [discriminate|].
  destruct (Z.gtb_spec (quantityOr1 quantity)
              (u_quantity garrUnits - unavailableQuantity now (u_assignments garrUnits)));
    [discriminate|].
  destruct (refreshIfPeasant nowU unit g) as [|g0] eqn:Er; [discriminate|].
  unfold andThen in E. cbv beta iota in E. injection E as <-.
  destruct (refreshIfPeasant_frame _ _ _ _ Er) as [U B].
  rewrite (findBuilding_id _ _ _ _ Eb).
  exists garrBuilding, bIndex, building, unit, garrUnits, uIndex, g0.
  cbn [units buildings withUnits withResources]. rewrite U, B.
  repeat split; auto. congruence.
Qed.

(** What a saved [unassignUnit] went through and what it stored. *)
Lemma unassignUnit_saved nowU bid code quantity g g' :
  unassignUnit nowU bid code quantity g = Done g' ->
  exists garrBuilding bIndex building unit garrUnits uIndex a index refreshed,
    findBuilding g bid = Some (garrBuilding, bIndex)
    /\ findBuildingByCode (b_code garrBuilding) = Some building
    /\ findUnitByCode code = Some unit
    /\ findUnit g code = Some (garrUnits, uIndex)
    /\ findWithIndex (isHarvestOf garrBuilding) (u_assignments garrUnits) = Some (a, index)
    /\ quantityOr1 quantity <= a_quantity a
    /\ refreshIfPeasant nowU unit g = Done refreshed
    /\ units g'
       = JS.set_at (units g) uIndex
           (withAssignments garrUnits
              (unassignFrom index a (quantityOr1 quantity) (u_assignments garrUnits)))
    /\ buildings g' = buildings g.
Proof.
  intros E. unfold unassignUnit in E.
  destruct (findBuilding g bid) as [[garrBuilding bIndex]|] eqn:Eb; [|discriminate].
  destruct (findBuildingByCode (b_code garrBuilding)) as [building|] eqn:Est;
    [|discriminate].
  destruct (sb_harvest building) eqn:Eh; [|discriminate].
  destruct (findUnitByCode code) as [unit|] eqn:Eu; [|discriminate].
  destruct (findUnit g code) as [[garrUnits uIndex]|] eqn:Eg; [|discriminate].
  destruct (findWithIndex (isHarvestOf garrBuilding) (u_assignments garrUnits))
    as [[a index]|] eqn:Ea; [|discriminate].
  cbv zeta in E.
  destruct (Z.ltb_spec (a_quantity a) (quantityOr1 quantity)); [discriminate|].
  destruct (refreshIfPeasant nowU unit g) as [|g0] eqn:Er; [discriminate|].
  unfold andThen in E. cbv beta iota in E. injection E as <-.
  destruct (refreshIfPeasant_frame _ _ _ _ Er) as [U B].
  exists garrBuilding, bIndex, building, unit, garrUnits, uIndex, a, index, g0.
  cbn [units buildings withUnits withResources]. rewrite U, B.
  repeat split; auto.
Qed.

Lemma isHarvestOf_at b x a : b_id b = Some x -> isHarvestOf b a = isHarvestAt x a.
Proof.
  intros E. unfold isHarvestOf, isHarvestAt, sameHex, sameId. rewrite E.
  destruct (a_buildingId a) as [y|]; [|reflexivity].
  rewrite (Z.eqb_sym x y). reflexivity.
Qed.

Lemma isWorker_at b x a :
  b_id b = Some x ->
  match a_type a, a_buildingId a, b_id b with
  | harvest, Some aid, Some bid => sameId aid bid
  | _, _, _ => false
  end = isHarvestAt x a.
Proof.
  intros E. unfold isHarvestAt, sameHex. rewrite E.
  destruct (a_type a), (a_buildingId a); cbn; auto using andb_true_r, andb_false_r.
Qed.

Lemma assignedWorkers_middle pre u post b x :
  forallb (fun y => negb (String.eqb (u_code y) "peasant")) pre = true ->
  String.eqb (u_code u) "peasant" = true ->
  b_id b = Some x ->
  assignedWorkers (pre ++ u :: post) b
  = match find (isHarvestAt x) (u_assignments u) with
    | Some a => Some (a_quantity a)
    | None => None
    end.
Proof.
  intros F Pu Id. unfold assignedWorkers.
  rewrite (find_middle (fun u0 => String.eqb (u_code u0) "peasant") pre u post F Pu).
  rewrite (find_same _ (isHarvestAt x)); [reflexivity|].
  intros a. apply isWorker_at. exact Id.
Qed.

Lemma assignUnit_workers now nowU bid N g g' garrBuilding bIndex :
  1 <= N ->
  findBuilding g bid = Some (garrBuilding, bIndex) ->
  assignUnit now nowU bid "peasant" (Some N) g = Done g' ->
  assignedWorkers (units g') garrBuilding
  = Some (match assignedWorkers (units g) garrBuilding with
          | Some q => q + N
          | None => N
          end).
Proof.
  intros HN Eb E.
  destruct (assignUnit_saved _ _ _ _ _ _ _ E)
    as (gb & bi & st & unit & gu & ui & g0 & Eb' & _ & _ & _ & Eg & _ & _ & _ & _ & U & _).
  rewrite Eb in Eb'. injection Eb' as <- <-.
  pose proof (findBuilding_id _ _ _ _ Eb) as Id.
  destruct (findWithIndex_Some _ _ _ _ Eg) as (pre & post & L & I & F & Pu).
  assert (Q1 : quantityOr1 (Some N) = N).
  { unfold quantityOr1. destruct (Z.eqb_spec N 0); [lia|reflexivity]. }
  rewrite Q1 in U. unfold findUnit in *. rewrite L, I, set_at_middle in U.
  rewrite U, L.
  rewrite (assignedWorkers_middle pre gu post garrBuilding bid F Pu Id).
  rewrite (assignedWorkers_middle pre
             (withAssignments gu (assignLoop (Z.to_nat N) (Some bid) (u_assignments gu)))
             post garrBuilding bid F Pu Id).
  cbn [u_assignments withAssignments].
  destruct (assignLoop_shape (Z.to_nat N) bid (u_assignments gu))
    as [(Fl & ->) | (p & a & s & La & Fp & Pa & ->)]; [lia| |].
  - rewrite find_append, (find_none_before (isHarvestAt bid) _ Fl).
    assert (Pn : isHarvestAt bid (newHarvest (Some bid) (Z.of_nat (Z.to_nat N))) = true).
    { unfold isHarvestAt, newHarvest, sameHex, sameId. cbn. rewrite Z.eqb_refl. reflexivity. }
    rewrite find_first, Pn. cbn [a_quantity newHarvest]. rewrite Z2Nat.id by lia.
    reflexivity.
  - rewrite La, !find_middle; auto. cbn [a_quantity withQuantity].
    rewrite Z2Nat.id by lia. reflexivity.
Qed.

(** A saved [assignUnit] of [N >= 1] peasants raises by [N] the number of
    workers the ledger counts at the building (from none, when no harvest
    assignment named it). *)
Theorem assignUnit_adds_workers now nowU bid N g g' garrBuilding bIndex :
  1 <= N ->
  findBuilding g bid = Some (garrBuilding, bIndex) ->
  assignUnit now nowU bid "peasant" (Some N) g = Done g' ->
  assignedWorkers (units g') garrBuilding
  = Some (match assignedWorkers (units g) garrBuilding with
          | Some q => q + N
          | None => N
          end).
Proof. apply assignUnit_workers. Qed.

Lemma updateResourcesLoop_known now bs g g' :
  updateResourcesLoop now bs g = Done g' ->
  forall b, In b bs -> findBuildingByCode (b_code b) <> None.
Proof.
  intros E b I Unknown.
  destruct (proj2 (updateResourcesLoop_outcome now bs g)) as (mem & T & _).
  - exists b. auto.
  - congruence.
Qed.

(** A refresh that went through goes through again at any later call, as
    long as the buildings are the same. *)
Lemma refreshIfPeasant_again nowU nowU' unit g r g1 :
  refreshIfPeasant nowU unit g = Done r ->
  buildings g1 = buildings g ->
  exists r', refreshIfPeasant nowU' unit g1 = Done r'
             /\ units r' = units g1 /\ buildings r' = buildings g1.
Proof.
  unfold refreshIfPeasant, updateResources. intros E B.
  destruct (String.eqb (su_code unit) "peasant").
  - destruct (proj1 (updateResourcesLoop_outcome nowU' (buildings g1) g1))
      as (r' & E' & B' & U').
    + rewrite B. exact (updateResourcesLoop_known _ _ _ _ E).
    + exists r'. auto.
  - exists g1. auto.
Qed.

(** A saved [assignUnit] followed by [unassignUnit] with the same payload,
    on a garrison whose harvest assignments all hold at least one worker:
    the second call is saved too, and the units and the buildings are back
    to what they were before the first. *)
Theorem assignUnit_then_unassignUnit now nowU nowU' bid code quantity g g1 :
  1 <= quantityOr1 quantity ->
  harvestersPositive (units g) ->
  assignUnit now nowU bid code quantity g = Done g1 ->
  exists g2,
    unassignUnit nowU' bid code quantity g1 = Done g2
    /\ units g2 = units g /\ buildings g2 = buildings g.
Proof.
  intros HN Pos E.
  destruct (assignUnit_saved _ _ _ _ _ _ _ E)
    as (gb & bi & st & unit & gu & ui & g0
        & Eb & Est & Eh & Eu & Eg & _ & _ & _ & Er & U & B).
  pose proof (findBuilding_id _ _ _ _ Eb) as Id.
  destruct (findWithIndex_Some _ _ _ _ Eg) as (pre & post & L & I & F & Pu).
  rewrite L, I, set_at_middle in U.
  set (qty := quantityOr1 quantity) in *.
  set (l1 := assignLoop (Z.to_nat qty) (Some bid) (u_assignments gu)) in *.
  assert (Igu : In gu (units g)) by (rewrite L; apply in_elt).
  destruct (refreshIfPeasant_again nowU nowU' unit g g0 g1 Er B) as (r & Er' & Ur & Br).
  assert (Found : exists a index,
             findWithIndex (isHarvestOf gb) l1 = Some (a, index)
             /\ qty <= a_quantity a
             /\ unassignFrom index a qty l1 = u_assignments gu).
  { rewrite (findWithIndex_same _ (isHarvestAt bid))
      by (intros a; apply isHarvestOf_at; exact Id).
    destruct (assignLoop_shape (Z.to_nat qty) bid (u_assignments gu))
      as [(Fl & S) | (p & a & s & La & Fp & Pa & S)]; [lia| |]; fold l1 in S.
    - assert (Pn : isHarvestAt bid (newHarvest (Some bid) (Z.of_nat (Z.to_nat qty))) = true).
      { unfold isHarvestAt, newHarvest, sameHex, sameId. cbn. rewrite Z.eqb_refl.
        reflexivity. }
      exists (newHarvest (Some bid) (Z.of_nat (Z.to_nat qty))),
        (Z.of_nat (List.length (u_assignments gu))).
      rewrite S, (findWithIndex_middle _ _ _ [] Fl Pn), unassignFrom_middle.
      cbn [a_quantity newHarvest]. rewrite Z2Nat.id by lia.
      rewrite Z.sub_diag. cbn [Z.eqb]. rewrite app_nil_r.
      repeat split; auto. lia.
    - assert (Ia : In a (u_assignments gu)) by (rewrite La; apply in_elt).
      assert (Ha : a_type a = harvest).
      { unfold isHarvestAt in Pa. apply andb_prop in Pa as [_ Pa].
        destruct (a_type a); try discriminate. reflexivity. }
      pose proof (Pos gu a Igu Ia Ha) as Qa.
      exists (withQuantity a (a_quantity a + Z.of_nat (Z.to_nat qty))),
        (Z.of_nat (List.length p)).
      rewrite S, unassignFrom_middle. rewrite Z2Nat.id by lia.
      rewrite (findWithIndex_middle (isHarvestAt bid) p _ s Fp)
        by (destruct a; exact Pa).
      cbn [a_quantity withQuantity].
      destruct (Z.eqb_spec (a_quantity a + qty - qty) 0) as [Z0|_]; [lia|].
      replace (a_quantity a + qty - qty) with (a_quantity a) by lia.
      split; [reflexivity|]. split; [lia|].
      rewrite La. destruct a; reflexivity. }
  destruct Found as (a & index & Ea & Qa & Back).
  unfold unassignUnit.
  replace (findBuilding g1 bid) with (Some (gb, bi))
    by (unfold findBuilding in *; rewrite B; auto).
  rewrite Est. destruct (sb_harvest st) as [h|]; [|contradiction]. rewrite Eu.
  unfold findUnit. rewrite U.
  rewrite (findWithIndex_middle (fun u => String.eqb (u_code u) code) pre
             (withAssignments gu l1) post F Pu).
  cbn [u_assignments withAssignments]. rewrite Ea. cbv zeta. fold qty.
  destruct (Z.ltb_spec (a_quantity a) qty); [lia|].
  rewrite Er'. unfold andThen. cbv beta iota. eexists. split; [reflexivity|].
  cbn [units buildings withUnits withResources].
  rewrite Ur, Br, U, set_at_middle, Back, B, L. cbn [withAssignments u_code u_quantity].
  split; [|reflexivity]. destruct gu; reflexivity.
Qed.

(** A harvest assignment never holds zero or a negative number of workers:
    over a garrison where this is so, it is so again after a saved
    [assignUnit] and after a saved [unassignUnit], whatever the quantity
    asked for. *)
Theorem harvesters_stay_positive now nowU bid code quantity g g' :
  harvestersPositive (units g) ->
  assignUnit now nowU bid code quantity g = Done g'
  \/ unassignUnit nowU bid code quantity g = Done g' ->
  harvestersPositive (units g').
Proof.
  intros Pos [E | E].
  - destruct (assignUnit_saved _ _ _ _ _ _ _ E)
      as (gb & bi & st & unit & gu & ui & g0
          & _ & _ & _ & _ & Eg & _ & _ & _ & _ & U & _).
    rewrite U. apply harvestersPositive_replace; [exact Pos|].
    apply assignLoop_positive. intros a Ia Ha.
    apply findWithIndex_In in Eg as [Iu _]. eapply Pos; eauto.
  - destruct (unassignUnit_saved _ _ _ _ _ _ E)
      as (gb & bi & st & unit & gu & ui & a & index & g0
          & _ & _ & _ & Eg & Ea & Qa & _ & U & _).
    rewrite U. apply harvestersPositive_replace; [exact Pos|].
    apply findWithIndex_In in Eg as [Iu _].
    destruct (findWithIndex_Some _ _ _ _ Ea) as (p & s & La & -> & _ & Pa).
    rewrite La, unassignFrom_middle.
    assert (Old : forall x, In x (p ++ s) -> a_type x = harvest -> 0 < a_quantity x).
    { intros x Ix Hx. apply (Pos gu x Iu); [|exact Hx].
      rewrite La. apply in_app_or in Ix as [Ix | Ix]; apply in_or_app; cbn; auto. }
    destruct (Z.eqb_spec (a_quantity a - quantityOr1 quantity) 0) as [_|Nz].
    + exact Old.
    + intros x Ix Hx. apply in_app_or in Ix as [Ix | [<- | Ix]].
      * apply Old; [apply in_or_app|]; auto.
      * cbn. lia.
      * apply Old; [apply in_or_app|]; auto.
Qed.

End AssignmentProperties.

Lemma assignUnit_adds_workers_witness :
  exists g',
    assignUnit (H:=Demo.catalog) 100 100 1 "peasant" (Some 1) Demo.oneMine = Done g'
    /\ assignedWorkers (units Demo.oneMine) Demo.mine1 = Some 2
    /\ assignedWorkers (units g') Demo.mine1 = Some 3.
Proof.
  destruct (assignUnit (H:=Demo.catalog) 100 100 1 "peasant" (Some 1) Demo.oneMine)
    as [status mem|g'] eqn:E; [vm_compute in E; discriminate E|].
  exists g'. split; [reflexivity|]. split; [reflexivity|].
  exact (assignUnit_adds_workers (H:=Demo.catalog) 100 100 1 1 Demo.oneMine g'
           Demo.mine1 0 ltac:(lia) eq_refl E).
Defined.

Lemma assignUnit_then_unassignUnit_witness :
  exists g1 g2,
    assignUnit (H:=Demo.catalog) 100 100 1 "peasant" (Some 1) Demo.oneMine = Done g1
    /\ unassignUnit (H:=Demo.catalog) 200 1 "peasant" (Some 1) g1 = Done g2
    /\ units g2 = units Demo.oneMine.
Proof.
  destruct (assignUnit (H:=Demo.catalog) 100 100 1 "peasant" (Some 1) Demo.oneMine)
    as [status mem|g1] eqn:E; [vm_compute in E; discriminate E|].
  destruct (assignUnit_then_unassignUnit (H:=Demo.catalog) 100 100 200 1 "peasant"
              (Some 1) Demo.oneMine g1) as (g2 & E2 & U2 & _).
  - cbn. lia.
  - intros u a [<- | []] [<- | []] _. cbn. lia.
  - exact E.
  - exists g1, g2. auto.
Defined.

Lemma harvesters_stay_positive_witness :
  exists g',
    unassignUnit (H:=Demo.catalog) 200 1 "peasant" (Some 2) Demo.oneMine = Done g'
    /\ harvestersPositive (units g').
Proof.
  destruct (unassignUnit (H:=Demo.catalog) 200 1 "peasant" (Some 2) Demo.oneMine)
    as [status mem|g'] eqn:E; [vm_compute in E; discriminate E|].
  exists g'. split; [reflexivity|].
  apply (harvesters_stay_positive (H:=Demo.catalog) 200 200 1 "peasant" (Some 2)
           Demo.oneMine g').
  - intros u a [<- | []] [<- | []] _. cbn. lia.
  - right. exact E.
Defined.

(** ** Constructions: what a cancellation undoes *)

Lemma forallb_negb_not {A} (p : A -> bool) (l : list A) :
  (forall x, In x l -> p x = false) -> forallb (fun y => negb (p y)) l = true.
Proof.
  intros N. apply forallb_forall. intros x I. rewrite (N x I). reflexivity.
Qed.

Lemma findWithIndex_last {A} (p : A -> bool) (l : list A) (x : A) :
  (forall y, In y l -> p y = false) -> p x = true ->
  findWithIndex p (l ++ [x]) = Some (x, Z.of_nat (List.length l)).
Proof.
  intros N Px. apply findWithIndex_middle; [apply forallb_negb_not; exact N|exact Px].
Qed.

Lemma splice_last {A} (l : list A) (x : A) :
  JS.splice (Z.of_nat (List.length l)) 1 (l ++ [x]) = l.
Proof. rewrite splice_middle. apply app_nil_r. Qed.

Lemma findWithIndex_map {A} (p : A -> bool) (f : A -> A) (l : list A) x i :
  (forall y, p (f y) = p y) ->
  findWithIndex p l = Some (x, i) ->
  findWithIndex p (map f l) = Some (f x, i).
Proof.
  intros Pf E. destruct (findWithIndex_Some _ _ _ _ E) as (pre & post & -> & -> & F & Px).
  rewrite map_app. cbn [map].
  rewrite <- (length_map f pre).
  apply findWithIndex_middle; [|rewrite Pf; exact Px].
  rewrite forallb_forall in F. apply forallb_forall.
  intros y Iy. apply in_map_iff in Iy as (z & <- & Iz). rewrite Pf. auto.
Qed.

Lemma filter_none {A} (p : A -> bool) (l : list A) :
  filter p l = [] -> forall y, In y l -> p y = false.
Proof.
  intros El y Iy. destruct (p y) eqn:Py; [|reflexivity].
  assert (I : In y (filter p l)) by (apply filter_In; auto).
  rewrite El in I. destruct I.
Qed.

Lemma filter_only {A} (p : A -> bool) pre x post :
  p x = true ->
  filter p (pre ++ x :: post) = [x] ->
  (forall y, In y pre -> p y = false) /\ (forall y, In y post -> p y = false).
Proof.
  intros Px. rewrite filter_app. cbn [filter]. rewrite Px. intros E.
  destruct (filter p pre) as [|a r] eqn:Ep.
  - cbn in E. injection E as E. split; apply filter_none; assumption.
  - cbn in E. injection E as _ E. destruct r; discriminate E.
Qed.

Lemma map_unchanged {A} (f : A -> A) (l : list A) :
  (forall y, In y l -> f y = y) -> map f l = l.
Proof.
  induction l as [|a l IH]; cbn; intros E; [reflexivity|].
  rewrite E by auto. rewrite IH; auto.
Qed.

Lemma withConstructions_same b : withConstructions b (b_constructions b) = b.
Proof. destruct b. reflexivity. Qed.

Section ConstructionProperties.
Context `{Collaborators}.

(** Cancelling the improvement that is the last construction of its
    building, the peasants' last assignment being the one of that site. *)
Lemma cancelWith_last_improvement refund bid cid g1 pre b post cs c st peasants upre upost a :
  buildings g1 = pre ++ withConstructions b (cs ++ [c]) :: post ->
  (forall y, In y pre ->
             match b_id y with Some x => sameId x bid | None => false end = false) ->
  b_id b = Some bid ->
  findBuildingByCode (b_code b) = Some st ->
  c_id c = cid ->
  (forall y, In y cs -> c_id y <> cid) ->
  c_improvement c <> None ->
  units g1 = upre ++ withAssignments peasants (u_assignments peasants ++ [a]) :: upost ->
  forallb (fun y => negb (String.eqb (u_code y) "peasant")) upre = true ->
  String.eqb (u_code peasants) "peasant" = true ->
  exists g2,
    cancelWith refund bid cid g1 = Done g2
    /\ buildings g2 = pre ++ withConstructions b cs :: post
    /\ units g2 = upre ++ peasants :: upost.
Proof.
  intros B Fpre Id Est Ic Fresh Imp U Fu Pu.
  assert (Eb : findBuilding g1 bid
               = Some (withConstructions b (cs ++ [c]), Z.of_nat (List.length pre))).
  { unfold findBuilding. rewrite B. apply findWithIndex_middle.
    - apply forallb_negb_not. exact Fpre.
    - cbn [b_id withConstructions]. rewrite Id. apply Z.eqb_refl. }
  assert (Ec : findBuildingConstruction (withConstructions b (cs ++ [c])) cid
               = Some (c, Z.of_nat (List.length cs))).
  { unfold findBuildingConstruction. cbn [b_constructions withConstructions].
    apply findWithIndex_last.
    - intros y Iy. apply Z.eqb_neq. apply Fresh. exact Iy.
    - apply Z.eqb_eq. exact Ic. }
  assert (Ep : findUnit g1 "peasant"
               = Some (withAssignments peasants (u_assignments peasants ++ [a]),
                       Z.of_nat (List.length upre))).
  { unfold findUnit. rewrite U. apply findWithIndex_middle; [exact Fu|exact Pu]. }
  destruct (cancelWith_saved refund _ _ _ _ _ _ _ _ _ _ Eb Est Ec Ep)
    as (g2 & E & U2 & B2 & _).
  exists g2. split; [exact E|].
  destruct (c_improvement c) as [imp|] eqn:Ei; [|congruence].
  split.
  - rewrite B2, B, set_at_middle. cbn [b_constructions withConstructions b_id b_code].
    rewrite splice_last. reflexivity.
  - rewrite U2, U, set_at_middle. unfold releaseReference. rewrite Ei.
    cbn [b_constructions withConstructions u_assignments withAssignments
         u_code u_quantity].
    rewrite splice_last, at_length. unfold releaseIndex.
    rewrite findIndex_no_match by (apply forallb_forall; reflexivity).
    rewrite splice_minus_one, removelast_last. destruct peasants; reflexivity.
Qed.

(** What a saved [extendBuilding] went through and what it stored. *)
Lemma extendBuilding_saved now cId aId bid w g g' :
  extendBuilding now cId aId bid w g = Done g' ->
  exists garrBuilding bIndex building ext peasants pIndex constructed a,
    findBuilding g bid = Some (garrBuilding, bIndex)
    /\ findBuildingByCode (b_code garrBuilding) = Some building
    /\ sb_extension building = Some ext
    /\ match ext_maxLevel ext with
       | Some maxLevel => currentExtensionLevel garrBuilding + 1 <= maxLevel
       | None => True
       end
    /\ findUnit g "peasant" = Some (peasants, pIndex)
    /\ c_id constructed = cId
    /\ c_improvement constructed
       = Some {| i_type := extension; i_level := currentExtensionLevel garrBuilding + 1 |}
    /\ buildings g'
       = map (fun b => if String.eqb (b_code b) (sb_code building)
                       then withConstructions b (b_constructions b ++ [constructed])
                       else b) (buildings g)
    /\ units g'
       = JS.set_at (units g) pIndex
           (withAssignments peasants (u_assignments peasants ++ [a])).
Proof.
  intros E. unfold extendBuilding in E.
  destruct (findBuilding g bid) as [[garrBuilding bIndex]|] eqn:Eb; [|discriminate].
  destruct (findBuildingByCode (b_code garrBuilding)) as [building|] eqn:Est;
    [|discriminate].
  destruct (sb_extension building) as [ext|] eqn:Ex; [|discriminate].
  destruct (isBusy now garrBuilding); [discriminate|].
  cbv zeta in E.
  destruct (match ext_maxLevel ext with
            | Some maxLevel => currentExtensionLevel garrBuilding + 1 >? maxLevel
            | None => false
            end) eqn:Max; [discriminate|].
  destruct (unfulfilled now (buildings g) _ (ext_requiredEntities ext)); [discriminate|].
  destruct (findUnit g "peasant") as [[peasants pIndex]|] eqn:Ep; [|discriminate].
  destruct (w >? u_quantity peasants); [discriminate|].
  destruct (w >? u_quantity peasants - unavailableQuantity now (u_assignments peasants));
    [discriminate|].
  destruct (w <? extensionMinWorkforce building (currentExtensionLevel garrBuilding));
    [discriminate|].
  destruct (w >? extensionMinWorkforce building (currentExtensionLevel garrBuilding) * 2);
    [discriminate|].
  match type of E with
  | (if ?c then Threw 412 _ else _) = _ => destruct c; [discriminate|]
  end.
  injection E as <-.
  exists garrBuilding, bIndex, building, ext, peasants, pIndex.
  eexists. eexists.
  split; [reflexivity|]. split; [exact Est|]. split; [exact Ex|].
  split.
  { destruct (ext_maxLevel ext) as [m|]; [|exact I].
    destruct (Z.gtb_spec (currentExtensionLevel garrBuilding + 1) m);
      [discriminate|lia]. }
  split; [reflexivity|].
  cbn [buildings units withResources withBuildings pushAssignment withUnits
       c_id c_improvement].
  repeat split; reflexivity.
Qed.

Lemma currentExtensionLevel_bounds ls : forall acc,
  acc <= fold_left (fun prev next => if next >? prev then next else prev) ls acc.
Proof.
  induction ls as [|x ls IH]; intros acc; cbn [fold_left]; [lia|].
  destruct (Z.gtb_spec x acc); [|apply IH].
  etransitivity; [|apply IH]. lia.
Qed.

Lemma currentExtensionLevel_extended b cs l (c : IOperatedConstruction) :
  c_improvement c
  = Some {| i_type := extension;
            i_level := currentExtensionLevel (withConstructions b cs) + 1 |} ->
  l = currentExtensionLevel (withConstructions b cs) ->
  currentExtensionLevel (withConstructions b (cs ++ [c])) = l + 1.
Proof.
  intros Ic ->.
  remember (currentExtensionLevel (withConstructions b cs)) as level eqn:El.
  unfold currentExtensionLevel in *. cbn [b_constructions withConstructions] in *.
  rewrite filter_app, map_app, fold_left_app. cbn [filter]. rewrite Ic.
  cbn [map fold_left i_level]. rewrite <- El. rewrite Ic. cbn [i_level].
  destruct (Z.gtb_spec (level + 1) level); lia.
Qed.

(** A saved [extendBuilding] raises the extension level of the building it
    was asked for by exactly one, and never beyond the [maxLevel] of its
    catalog entry. *)
Theorem extendBuilding_raises_level now cId aId bid w g g' garrBuilding bIndex building :
  answersByCode ->
  findBuilding g bid = Some (garrBuilding, bIndex) ->
  findBuildingByCode (b_code garrBuilding) = Some building ->
  extendBuilding now cId aId bid w g = Done g' ->
  exists extended,
    findBuilding g' bid = Some (extended, bIndex)
    /\ currentExtensionLevel extended = currentExtensionLevel garrBuilding + 1
    /\ forall ext maxLevel,
         sb_extension building = Some ext -> ext_maxLevel ext = Some maxLevel ->
         currentExtensionLevel extended <= maxLevel.
Proof.
  intros Codes Eb Est E.
  destruct (extendBuilding_saved _ _ _ _ _ _ _ E)
    as (gb & bi & st & ext & peasants & pIndex & c & a
        & Eb' & Est' & Ex & Max & _ & _ & Ic & B & _).
  rewrite Eb in Eb'. injection Eb' as <- <-.
  rewrite Est in Est'. injection Est' as <-.
  pose proof (Codes _ _ Est) as Code.
  exists (withConstructions garrBuilding (b_constructions garrBuilding ++ [c])).
  assert (L : currentExtensionLevel
                (withConstructions garrBuilding (b_constructions garrBuilding ++ [c]))
              = currentExtensionLevel garrBuilding + 1).
  { apply currentExtensionLevel_extended; rewrite withConstructions_same; auto. }
  split; [|split].
  - unfold findBuilding in *. rewrite B.
    rewrite (findWithIndex_map _ _ _ garrBuilding bIndex); [|intros y|exact Eb].
    + rewrite Code, String.eqb_refl. reflexivity.
    + destruct (String.eqb (b_code y) (sb_code building)); reflexivity.
  - exact L.
  - intros ext' m Ex' Em. rewrite Ex in Ex'. injection Ex' as <-.
    rewrite Em in Max. lia.
Qed.

(** A saved [extendBuilding] followed by the cancellation of the
    construction it created, in a garrison that owns one building of that
    code and where the construction id is new to the building: the
    cancellation is saved, and the buildings and the units are back to what
    they were before the extension. *)
Theorem extendBuilding_then_cancel now cId aId bid w g g1 garrBuilding bIndex :
  answersByCode ->
  findBuilding g bid = Some (garrBuilding, bIndex) ->
  ownedOfCode (b_code garrBuilding) (buildings g) = [garrBuilding] ->
  freshConstruction cId garrBuilding ->
  extendBuilding now cId aId bid w g = Done g1 ->
  exists g2,
    cancelBuildingConstruction bid cId g1 = Done g2
    /\ buildings g2 = buildings g /\ units g2 = units g.
Proof.
  intros Codes Eb Only Fresh E.
  destruct (extendBuilding_saved _ _ _ _ _ _ _ E)
    as (gb & bi & st & ext & peasants & pIndex & c & a
        & Eb' & Est & _ & _ & Ep & Ic & Imp & B & U).
  rewrite Eb in Eb'. injection Eb' as <- <-.
  pose proof (Codes _ _ Est) as Code.
  pose proof (findBuilding_id _ _ _ _ Eb) as Id.
  destruct (findWithIndex_Some _ _ _ _ Eb) as (pre & post & L & I & F & _).
  destruct (findWithIndex_Some _ _ _ _ Ep) as (upre & upost & Lu & Iu & Fu & Pu).
  rewrite L in Only.
  destruct (filter_only (fun b => String.eqb (b_code b) (b_code garrBuilding))
              pre garrBuilding post (String.eqb_refl _) Only) as [Npre Npost].
  rewrite Code in B. rewrite L, map_app in B. cbn [map] in B.
  rewrite String.eqb_refl in B.
  rewrite (map_unchanged _ pre) in B by (intros y Iy; rewrite (Npre y Iy); reflexivity).
  rewrite (map_unchanged _ post) in B by (intros y Iy; rewrite (Npost y Iy); reflexivity).
  rewrite Lu, Iu, set_at_middle in U.
  destruct (cancelWith_last_improvement improvementRefund bid cId g1 pre garrBuilding post
              (b_constructions garrBuilding) c st peasants upre upost a)
    as (g2 & E2 & B2 & U2); auto.
  - rewrite forallb_forall in F. intros y Iy. apply negb_true_iff. apply F. exact Iy.
  - rewrite Imp. discriminate.
  - exists g2. split; [exact E2|].
    rewrite B2, U2, L, Lu, withConstructions_same. auto.
Qed.

(** What a saved [upgradeBuilding] went through and what it stored. *)
Lemma upgradeBuilding_saved now nowU cId aId bid w g g' :
  upgradeBuilding now nowU cId aId bid w g = Done g' ->
  exists building bIndex st level peasants pIndex constructed a,
    findBuilding g bid = Some (building, bIndex)
    /\ findBuildingByCode (b_code building) = Some st
    /\ findUnit g "peasant" = Some (peasants, pIndex)
    /\ c_id constructed = cId
    /\ c_improvement constructed = Some {| i_type := upgrade; i_level := level |}
    /\ buildings g'
       = JS.set_at (buildings g) bIndex
           (withConstructions building (b_constructions building ++ [constructed]))
    /\ units g'
       = JS.set_at (units g) pIndex
           (withAssignments peasants (u_assignments peasants ++ [a])).
Proof.
  intros E. unfold upgradeBuilding in E.
  destruct (findBuilding g bid) as [[building bIndex]|] eqn:Eb; [|discriminate].
  destruct (findBuildingByCode (b_code building)) as [st|] eqn:Est; [|discriminate].
  destruct (checkBuildingAvailability now building); [discriminate|].
  destruct (checkBuildingImprovable now building st) as [|[level req]]; [discriminate|].
  match type of E with
  | match ?c with Some _ => _ | None => _ end = _ => destruct c; [discriminate|]
  end.
  cbv zeta in E.
  destruct (findUnit g "peasant") as [[peasants pIndex]|] eqn:Ep; [|discriminate].
  destruct (checkWorkforceCoherence now w peasants st (Some upgrade)
              (b_constructions building)); [discriminate|].
  match type of E with
  | andThen (updateResources nowU ?g1) _ = _ =>
      destruct (updateResources nowU g1) as [|g2] eqn:Er; [discriminate|]
  end.
  unfold andThen in E. cbv beta iota in E.
  apply updateResourcesLoop_frame in Er as [U2 B2].
  match type of E with
  | match ?c with inl _ => _ | inr _ => _ end = _ =>
      destruct c as [|r]; [discriminate|]
  end.
  injection E as <-.
  exists building, bIndex, st, level, peasants, pIndex.
  eexists. eexists.
  split; [reflexivity|]. split; [exact Est|]. split; [reflexivity|].
  cbn [buildings units withResources withBuildings pushAssignment withUnits
       c_id c_improvement] in *.
  rewrite U2, B2. repeat split; reflexivity.
Qed.

(** A saved [upgradeBuilding] followed by the cancellation of the
    construction it created, the construction id being new to the
    building: the cancellation is saved, and the buildings and the units
    are back to what they were before the upgrade. *)
Theorem upgradeBuilding_then_cancel now nowU cId aId bid w g g1 building bIndex :
  findBuilding g bid = Some (building, bIndex) ->
  freshConstruction cId building ->
  upgradeBuilding now nowU cId aId bid w g = Done g1 ->
  exists g2,
    cancelBuildingConstruction bid cId g1 = Done g2
    /\ buildings g2 = buildings g /\ units g2 = units g.
Proof.
  intros Eb Fresh E.
  destruct (upgradeBuilding_saved _ _ _ _ _ _ _ _ E)
    as (gb & bi & st & level & peasants & pIndex & c & a
        & Eb' & Est & Ep & Ic & Imp & B & U).
  rewrite Eb in Eb'. injection Eb' as <- <-.
  pose proof (findBuilding_id _ _ _ _ Eb) as Id.
  destruct (findWithIndex_Some _ _ _ _ Eb) as (pre & post & L & I & F & _).
  destruct (findWithIndex_Some _ _ _ _ Ep) as (upre & upost & Lu & Iu & Fu & Pu).
  rewrite L, I, set_at_middle in B. rewrite Lu, Iu, set_at_middle in U.
  destruct (cancelWith_last_improvement improvementRefund bid cId g1 pre building post
              (b_constructions building) c st peasants upre upost a)
    as (g2 & E2 & B2 & U2); auto.
  - rewrite forallb_forall in F. intros y Iy. apply negb_true_iff. apply F. exact Iy.
  - rewrite Imp. discriminate.
  - exists g2. split; [exact E2|].
    rewrite B2, U2, L, Lu, withConstructions_same. auto.
Qed.

(** What a saved [addBuilding] went through and what it stored. *)
Lemma addBuilding_saved now nowU cId bId aId code w g g' :
  addBuilding now nowU cId bId aId code w g = Done g' ->
  exists st peasants pIndex,
    findBuildingByCode code = Some st
    /\ findUnit g "peasant" = Some (peasants, pIndex)
    /\ buildings g'
       = buildings g
         ++ [ {| b_id := Some bId; b_code := code;
                 b_constructions :=
                   [ {| c_id := cId; c_beginDate := now;
                        c_endDate :=
                          addTime now (computeConstructionDuration w st None * 1000);
                        c_workforce := w; c_improvement := None |} ] |} ]
    /\ units g'
       = JS.set_at (units g) pIndex
           (withAssignments peasants
              (u_assignments peasants
               ++ [ {| a_id := Some aId; a_buildingId := Some bId; a_quantity := w;
                       a_type := construction;
                       a_endDate :=
                         addTime now (computeConstructionDuration w st None * 1000) |} ])).
Proof.
  intros E. unfold addBuilding in E.
  destruct (findBuildingByCode code) as [st|] eqn:Est; [|discriminate].
  destruct (findUnit g "peasant") as [[peasants pIndex]|] eqn:Ep; [|discriminate].
  destruct (checkWorkforceCoherence now w peasants st None []); [discriminate|].
  match type of E with
  | match ?c with Some _ => _ | None => _ end = _ => destruct c; [discriminate|]
  end.
  cbv zeta in E.
  match type of E with
  | andThen (updateResources nowU ?g1) _ = _ =>
      destruct (updateResources nowU g1) as [|g2] eqn:Er; [discriminate|]
  end.
  unfold andThen in E. cbv beta iota in E.
  apply updateResourcesLoop_frame in Er as [U2 B2].
  match type of E with
  | match ?c with inl _ => _ | inr _ => _ end = _ =>
      destruct c as [|r]; [discriminate|]
  end.
  injection E as <-.
  exists st, peasants, pIndex.
  split; [reflexivity|]. split; [reflexivity|].
  cbn [buildings units withResources withBuildings pushAssignment withUnits] in *.
  rewrite U2, B2. split; reflexivity.
Qed.

(** A saved [addBuilding] followed by the cancellation of its construction,
    the building id being new to the garrison and no assignment ending at
    the instant the site does: the cancellation is saved, and the buildings
    and the units are back to what they were before the building was
    added. *)
Theorem addBuilding_then_cancel now nowU cId bId aId code w g g1 st :
  findBuildingByCode code = Some st ->
  freshBuilding bId (buildings g) ->
  (forall u a, In u (units g) -> In a (u_assignments u) ->
               a_endDate a <> addTime now (computeConstructionDuration w st None * 1000)) ->
  addBuilding now nowU cId bId aId code w g = Done g1 ->
  exists g2,
    cancelBuildingConstruction bId cId g1 = Done g2
    /\ buildings g2 = buildings g /\ units g2 = units g.
Proof.
  intros Est Fresh Ends E.
  destruct (addBuilding_saved _ _ _ _ _ _ _ _ _ E)
    as (st' & peasants & pIndex & Est' & Ep & B & U).
  rewrite Est in Est'. injection Est' as <-.
  destruct (findWithIndex_Some _ _ _ _ Ep) as (upre & upost & Lu & Iu & Fu & Pu).
  rewrite Lu, Iu, set_at_middle in U.
  set (e := addTime now (computeConstructionDuration w st None * 1000)) in *.
  set (c := {| c_id := cId; c_beginDate := now; c_endDate := e; c_workforce := w;
               c_improvement := None |}) in *.
  set (nb := {| b_id := Some bId; b_code := code; b_constructions := [c] |}) in *.
  set (a := {| a_id := Some aId; a_buildingId := Some bId; a_quantity := w;
               a_type := construction; a_endDate := e |}) in *.
  assert (Eb : findBuilding g1 bId = Some (nb, Z.of_nat (List.length (buildings g)))).
  { unfold findBuilding. rewrite B. apply findWithIndex_last.
    - intros y Iy. specialize (Fresh y Iy).
      destruct (b_id y) as [x|]; [|reflexivity].
      apply Z.eqb_neq. congruence.
    - cbn. apply Z.eqb_refl. }
  assert (Ec : findBuildingConstruction nb cId = Some (c, 0)).
  { unfold findBuildingConstruction, findWithIndex, JS.findIndex. cbn.
    unfold sameId. rewrite Z.eqb_refl. reflexivity. }
  assert (Ep1 : findUnit g1 "peasant"
                = Some (withAssignments peasants (u_assignments peasants ++ [a]),
                        Z.of_nat (List.length upre))).
  { unfold findUnit. rewrite U. apply findWithIndex_middle; [exact Fu|exact Pu]. }
  destruct (cancelWith_saved improvementRefund _ _ _ _ _ _ _ _ _ _ Eb Est Ec Ep1)
    as (g2 & E2 & U2 & B2 & _).
  exists g2. split; [exact E2|]. split.
  - rewrite B2, B. cbn [c_improvement c]. apply splice_last.
  - rewrite U2, U, set_at_middle. unfold releaseReference, releaseIndex.
    cbn [c_improvement c b_constructions nb u_assignments withAssignments
         u_code u_quantity].
    change (JS.at_ [c] 0) with (Some c). cbv beta iota.
    rewrite (findIndex_middle (fun x => a_endDate x =? c_endDate c)
               (u_assignments peasants) a []).
    + rewrite splice_last, Lu. destruct peasants; reflexivity.
    + apply forallb_negb_not. intros x Ix. apply Z.eqb_neq.
      apply (Ends peasants x); [rewrite Lu; apply in_elt|exact Ix].
    + cbn. apply Z.eqb_refl.
Qed.

End ConstructionProperties.

Lemma demo_catalog_answers : answersByCode (H:=Demo.catalog).
Proof.
  intros code st. cbn.
  destruct (String.eqb_spec code "goldmine"); [intros [= <-]; auto|].
  destruct (String.eqb_spec code "sawmill"); [intros [= <-]; auto|].
  destruct (String.eqb_spec code "quarry"); [intros [= <-]; auto|].
  destruct (String.eqb_spec code "farm"); [intros [= <-]; auto|].
  destruct (String.eqb_spec code "barracks"); [intros [= <-]; auto|].
  discriminate.
Qed.

Lemma extendBuilding_raises_level_witness :
  exists g' extended,
    extendBuilding (H:=Demo.catalog) 200000 41 42 1 3 Demo.settledMine = Done g'
    /\ findBuilding g' 1 = Some (extended, 0)
    /\ currentExtensionLevel Demo.mine1 = 0
    /\ currentExtensionLevel extended = 1.
Proof.
  destruct (extendBuilding (H:=Demo.catalog) 200000 41 42 1 3 Demo.settledMine)
    as [status mem|g'] eqn:E; [vm_compute in E; discriminate E|].
  destruct (extendBuilding_raises_level (H:=Demo.catalog) 200000 41 42 1 3
              Demo.settledMine g' Demo.mine1 0 Demo.goldmine
              demo_catalog_answers eq_refl eq_refl E) as (extended & Eb & L & _).
  exists g', extended. repeat split; auto.
Defined.

Lemma extendBuilding_then_cancel_witness :
  exists g1 g2,
    extendBuilding (H:=Demo.catalog) 200000 41 42 1 3 Demo.settledMine = Done g1
    /\ cancelBuildingConstruction (H:=Demo.catalog) 1 41 g1 = Done g2
    /\ buildings g2 = buildings Demo.settledMine
    /\ units g2 = units Demo.settledMine.
Proof.
  destruct (extendBuilding (H:=Demo.catalog) 200000 41 42 1 3 Demo.settledMine)
    as [status mem|g1] eqn:E; [vm_compute in E; discriminate E|].
  destruct (extendBuilding_then_cancel (H:=Demo.catalog) 200000 41 42 1 3
              Demo.settledMine g1 Demo.mine1 0
              demo_catalog_answers eq_refl eq_refl) as (g2 & E2 & B2 & U2).
  - intros c [<- | []]. cbn. lia.
  - exact E.
  - exists g1, g2. auto.
Defined.

Lemma upgradeBuilding_then_cancel_witness :
  exists g1 g2,
    upgradeBuilding (H:=Demo.catalog) 200000 200001 41 42 1 1 Demo.settledMine = Done g1
    /\ cancelBuildingConstruction (H:=Demo.catalog) 1 41 g1 = Done g2
    /\ buildings g2 = buildings Demo.settledMine
    /\ units g2 = units Demo.settledMine.
Proof.
  destruct (upgradeBuilding (H:=Demo.catalog) 200000 200001 41 42 1 1 Demo.settledMine)
    as [status mem|g1] eqn:E; [vm_compute in E; discriminate E|].
  destruct (upgradeBuilding_then_cancel (H:=Demo.catalog) 200000 200001 41 42 1 1
              Demo.settledMine g1 Demo.mine1 0 eq_refl) as (g2 & E2 & B2 & U2).
  - intros c [<- | []]. cbn. lia.
  - exact E.
  - exists g1, g2. auto.
Defined.

Lemma addBuilding_then_cancel_witness :
  exists g1 g2,
    addBuilding (H:=Demo.catalog) 200000 200001 51 5 52 "sawmill" 1 Demo.settledMine
    = Done g1
    /\ cancelBuildingConstruction (H:=Demo.catalog) 5 51 g1 = Done g2
    /\ buildings g2 = buildings Demo.settledMine
    /\ units g2 = units Demo.settledMine.
Proof.
  destruct (addBuilding (H:=Demo.catalog) 200000 200001 51 5 52 "sawmill" 1
              Demo.settledMine)
    as [status mem|g1] eqn:E; [vm_compute in E; discriminate E|].
  destruct (addBuilding_then_cancel (H:=Demo.catalog) 200000 200001 51 5 52 "sawmill" 1
              Demo.settledMine g1 Demo.sawmill eq_refl) as (g2 & E2 & B2 & U2).
  - intros b [<- | []]. discriminate.
  - intros u a [<- | []] [].
  - exact E.
  - exists g1, g2. auto.
Defined.

(** ** cancelBuildingConstruction: the harvest timestamps *)

Section CancelLedgerProperties.
Context `{Collaborators}.

Lemma cancelHarvestUpdate_lastUpdate st bs r r' :
  goldLastUpdate r' = goldLastUpdate r ->
  woodLastUpdate r' = woodLastUpdate r ->
  goldLastUpdate (cancelHarvestUpdate st bs r')
  = goldLastUpdate (cancelHarvestUpdate st bs r)
  /\ woodLastUpdate (cancelHarvestUpdate st bs r')
     = woodLastUpdate (cancelHarvestUpdate st bs r).
Proof.
  intros G W. unfold cancelHarvestUpdate.
  destruct (sb_harvest st) as [h|]; [|auto].
  destruct (h_maxWorkforce h); [|auto].
  destruct (existsb _ bs); [|auto].
  destruct (h_resource h); cbn; auto.
Qed.

(** The timestamps a saved cancellation stores. *)
Lemma cancelWith_lastUpdate refund bid cid g building bIndex st target cIndex peasants pIndex :
  findBuilding g bid = Some (building, bIndex) ->
  findBuildingByCode (b_code building) = Some st ->
  findBuildingConstruction building cid = Some (target, cIndex) ->
  findUnit g "peasant" = Some (peasants, pIndex) ->
  exists g',
    cancelWith refund bid cid g = Done g'
    /\ goldLastUpdate (resources g')
       = goldLastUpdate (cancelHarvestUpdate st (buildings g') (resources g))
    /\ woodLastUpdate (resources g')
       = woodLastUpdate (cancelHarvestUpdate st (buildings g') (resources g))
    /\ buildings g'
       = match c_improvement target with
         | Some _ =>
             JS.set_at (buildings g) bIndex
               (withConstructions building (JS.splice cIndex 1 (b_constructions building)))
         | None => JS.splice bIndex 1 (buildings g)
         end.
Proof.
  intros Eb Est Ec Ep. unfold cancelWith. rewrite Eb, Est, Ec.
  destruct (c_improvement target) as [improvement|].
  - destruct (refund (sb_cost st) (i_level improvement)) as [[gold1 wood1] plot1].
    cbv zeta.
    match goal with
    | |- context [findUnit ?g1 "peasant"] =>
        change (findUnit g1 "peasant") with (findUnit g "peasant")
    end.
    rewrite Ep. eexists. split; [reflexivity|].
    cbn [units buildings resources withUnits withResources withBuildings].
    split; [|split; [|reflexivity]];
      apply cancelHarvestUpdate_lastUpdate; reflexivity.
  - cbv zeta.
    match goal with
    | |- context [findUnit ?g1 "peasant"] =>
        change (findUnit g1 "peasant") with (findUnit g "peasant")
    end.
    rewrite Ep. eexists. split; [reflexivity|].
    cbn [units buildings resources withUnits withResources withBuildings].
    split; [|split; [|reflexivity]];
      apply cancelHarvestUpdate_lastUpdate; reflexivity.
Qed.

Lemma existsb_set_at {A} (p : A -> bool) pre x y post :
  p y = true ->
  existsb p (JS.set_at (pre ++ x :: post) (Z.of_nat (List.length pre)) y) = true.
Proof.
  intros Py. rewrite set_at_middle, existsb_app. cbn [existsb]. rewrite Py.
  apply orb_true_iff. right. reflexivity.
Qed.

(** Cancelling a construction of a building whose catalog entry harvests
    with a numeric [maxWorkforce]: the timestamp of the harvested resource
    is deleted when a building of that code is still owned once the
    construction is removed, which is always so for an improvement, and the
    timestamps are left alone otherwise; the timestamp of the other
    resource is never touched. *)
Theorem cancelBuildingConstruction_lastUpdate
  bid cid g building bIndex st target cIndex peasants pIndex h m :
  findBuilding g bid = Some (building, bIndex) ->
  findBuildingByCode (b_code building) = Some st ->
  findBuildingConstruction building cid = Some (target, cIndex) ->
  findUnit g "peasant" = Some (peasants, pIndex) ->
  sb_harvest st = Some h ->
  h_maxWorkforce h = Some m ->
  exists g',
    cancelBuildingConstruction bid cid g = Done g'
    /\ (ownedOfCode (sb_code st) (buildings g') <> [] ->
        lastUpdateOf (h_resource h) (resources g') = None)
    /\ (ownedOfCode (sb_code st) (buildings g') = [] ->
        goldLastUpdate (resources g') = goldLastUpdate (resources g)
        /\ woodLastUpdate (resources g') = woodLastUpdate (resources g))
    /\ (sb_code st = b_code building -> c_improvement target <> None ->
        ownedOfCode (sb_code st) (buildings g') <> [])
    /\ (forall k, k <> h_resource h ->
                  lastUpdateOf k (resources g') = lastUpdateOf k (resources g)).
Proof.
  intros Eb Est Ec Ep Eh Em.
  destruct (cancelWith_lastUpdate improvementRefund _ _ _ _ _ _ _ _ _ _ Eb Est Ec Ep)
    as (g' & E & G & W & B).
  exists g'. split; [exact E|].
  assert (Owned : forall bs,
             existsb (fun b => String.eqb (b_code b) (sb_code st)) bs = true
             <-> ownedOfCode (sb_code st) bs <> []).
  { intros bs. unfold ownedOfCode.
    induction bs as [|b bs IH]; cbn; [split; [discriminate|congruence]|].
    destruct (String.eqb (b_code b) (sb_code st)); cbn; [|exact IH].
    split; [discriminate|reflexivity]. }
  unfold cancelHarvestUpdate in G, W. rewrite Eh, Em in G, W.
  split; [|split; [|split]].
  - intros O. apply Owned in O. rewrite O in G, W.
    unfold lastUpdateOf. destruct (h_resource h); auto.
  - intros O.
    destruct (existsb (fun b => String.eqb (b_code b) (sb_code st)) (buildings g')) eqn:X.
    + apply Owned in X. contradiction.
    + auto.
  - intros Code Imp. apply Owned. rewrite B.
    destruct (c_improvement target); [|congruence].
    destruct (findWithIndex_Some _ _ _ _ Eb) as (pre & post & -> & -> & _).
    apply existsb_set_at. cbn [b_code withConstructions].
    rewrite Code. apply String.eqb_refl.
  - intros k Hk.
    destruct (existsb (fun b => String.eqb (b_code b) (sb_code st)) (buildings g'));
      unfold lastUpdateOf; destruct k, (h_resource h); cbn in *; congruence.
Qed.

End CancelLedgerProperties.

(** Cancelling the extension under way at the gold mine deletes
    [goldLastUpdate]. *)
Lemma cancelBuildingConstruction_lastUpdate_witness :
  exists g',
    cancelBuildingConstruction (H:=Demo.catalog) 1 12
      (withResources Demo.extending (Demo.stock (Some 0))) = Done g'
    /\ goldLastUpdate (resources g') = None.
Proof.
  destruct (cancelBuildingConstruction_lastUpdate (H:=Demo.catalog) 1 12
              (withResources Demo.extending (Demo.stock (Some 0)))
              Demo.mineSite 0 Demo.goldmine Demo.extension1 1 _ 0
              {| h_resource := Gold; h_amount := 3; h_maxWorkforce := Some 5 |} 5
              eq_refl eq_refl eq_refl eq_refl eq_refl eq_refl)
    as (g' & E & Del & _ & Own & _).
  exists g'. split; [exact E|].
  apply Del. apply Own; [reflexivity|discriminate].
Defined.

(** ** addUnit: the instantiation requirements *)

Section RequirementProperties.
Context `{Collaborators}.

Lemma existsb_false_all {A} (p : A -> bool) (l : list A) :
  existsb p l = false -> forall x, In x l -> p x = false.
Proof.
  intros E x I. destruct (p x) eqn:Px; [|reflexivity].
  assert (T : existsb p l = true) by (apply existsb_exists; eauto).
  congruence.
Qed.

(** What the requirement callback answering [false] tells. *)
Lemma unfulfilledRequirement_false now bs levelApplies b :
  unfulfilledRequirement now bs levelApplies b = false ->
  exists existing,
    find (fun gB => String.eqb (b_code gB) (rb_code b)) bs = Some existing
    /\ (forall c, In c (b_constructions existing) ->
                  c_improvement c = None -> c_endDate c <= now)
    /\ (forall l, rb_upgradeLevel b = Some l -> l <> 0 -> levelApplies b = true ->
                  exists c i,
                    In c (b_constructions existing)
                    /\ c_improvement c = Some i /\ l <= i_level i
                    /\ c_endDate c <= now).
Proof.
  unfold unfulfilledRequirement.
  destruct (find _ bs) as [existing|]; [|discriminate].
  intros E. apply orb_false_iff in E as [Up Inst].
  exists existing. split; [reflexivity|]. split.
  - intros c Ic Imp. pose proof (existsb_false_all _ _ Inst c Ic) as Pc.
    cbv beta in Pc. rewrite Imp in Pc.
    destruct (Z.gtb_spec (c_endDate c) now); [discriminate|lia].
  - intros l El Nz Applies. rewrite El, Applies in Up.
    destruct (Z.eqb_spec l 0); [contradiction|]. cbn [negb andb] in Up.
    destruct (find _ (b_constructions existing)) as [c|] eqn:Ec; [|discriminate].
    apply find_some in Ec as [Ic Pc].
    destruct (c_improvement c) as [i|] eqn:Imp; [|discriminate].
    exists c, i. repeat split; auto.
    + destruct (Z.geb_spec (i_level i) l); [lia|discriminate].
    + destruct (Z.gtb_spec (c_endDate c) now); [discriminate|lia].
Qed.

(** A required building that is not standing makes the callback answer
    [true]. *)
Lemma unfulfilledRequirement_notStanding now bs levelApplies b :
  notStanding now bs b -> unfulfilledRequirement now bs levelApplies b = true.
Proof.
  unfold notStanding, unfulfilledRequirement.
  destruct (find _ bs) as [existing|]; [|reflexivity].
  intros (c & Ic & Imp & Late). apply orb_true_iff. right.
  apply existsb_exists. exists c. split; [exact Ic|]. rewrite Imp.
  apply Z.gtb_lt. exact Late.
Qed.

(** [addUnit] and the buildings a unit requires: when one of them is not
    standing (no owned building of its code, or the first one still being
    built) the call fails with status 412 on the document as loaded; a
    saved call had every one of them fulfilled at [now]. *)
Theorem addUnit_requirements now nowU code quantity g unit req :
  findUnitByCode code = Some unit ->
  su_requiredEntities unit = Some req ->
  ((exists b, In b req /\ notStanding now (buildings g) b) ->
   addUnit now nowU code quantity g = Threw 412 g)
  /\ (forall g',
         addUnit now nowU code quantity g = Done g' ->
         forall b, In b req -> fulfilled now (buildings g) b).
Proof.
  intros Eu Er. unfold addUnit. rewrite Eu, Er. cbn [unfulfilled]. split.
  - intros (b & Ib & N).
    assert (T : existsb (unfulfilledRequirement now (buildings g) (fun _ => true)) req
                = true).
    { apply existsb_exists. exists b. split; [exact Ib|].
      apply unfulfilledRequirement_notStanding. exact N. }
    rewrite T. reflexivity.
  - intros g' E b Ib.
    destruct (existsb (unfulfilledRequirement now (buildings g) (fun _ => true)) req)
      eqn:X; [discriminate|].
    pose proof (existsb_false_all _ _ X b Ib) as F.
    destruct (unfulfilledRequirement_false _ _ _ _ F) as (existing & Ef & Inst & Up).
    exists existing. split; [exact Ef|]. split; [exact Inst|].
    intros l El Nz. apply (Up l El Nz). reflexivity.
Qed.

End RequirementProperties.

(** Training a knight while the barracks are still being built fails. *)
Lemma addUnit_requirements_witness :
  addUnit (H:=Demo.catalogWithKnight) 50000 50001 "knight" (Some 1) Demo.fortifying
  = Threw 412 Demo.fortifying.
Proof.
  destruct (addUnit_requirements (H:=Demo.catalogWithKnight) 50000 50001 "knight"
              (Some 1) Demo.fortifying Demo.knight
              [ {| rb_code := "barracks"; rb_upgradeLevel := None; rb_level := None |} ]
              eq_refl eq_refl) as [Fails _].
  apply Fails. eexists. split; [left; reflexivity|].
  cbn. eexists. split; [left; reflexivity|]. cbn. split; [reflexivity|lia].
Defined.

(** ** assignUnit: the harvest clock *)

Section ClockProperties.
Context `{Collaborators}.

(** A refresh never sets a timestamp that was absent. *)
Lemma updateResourcesFor_keeps_unset now b g g' :
  updateResourcesFor now b g = Done g' ->
  (goldLastUpdate (resources g) = None -> goldLastUpdate (resources g') = None)
  /\ (woodLastUpdate (resources g) = None -> woodLastUpdate (resources g') = None).
Proof.
  intros E. pose proof (updateResourcesFor_result now b g) as R. rewrite E in R.
  inversion R as [ | | st h w t Est Eh Eb Ew Ew0 Et Hne]; subst; [auto|].
  cbn [resources withResources]. unfold lastUpdateOfCode in Et.
  destruct (String.eqb (b_code b) "goldmine") eqn:Eg.
  - split; intros N.
    + congruence.
    + destruct (resources g), (h_resource h); cbn in *; exact N.
  - destruct (String.eqb (b_code b) "sawmill"); [|discriminate].
    split; intros N.
    + destruct (resources g), (h_resource h); cbn in *; exact N.
    + congruence.
Qed.

Lemma updateResourcesLoop_keeps_unset now bs : forall g g',
  updateResourcesLoop now bs g = Done g' ->
  (goldLastUpdate (resources g) = None -> goldLastUpdate (resources g') = None)
  /\ (woodLastUpdate (resources g) = None -> woodLastUpdate (resources g') = None).
Proof.
  induction bs as [|b rest IH]; cbn [updateResourcesLoop]; intros g g' E.
  - injection E as <-. auto.
  - destruct (updateResourcesFor now b g) as [|g1] eqn:E1; [discriminate|].
    cbn [andThen] in E.
    destruct (updateResourcesFor_keeps_unset _ _ _ _ E1) as [G1 W1].
    destruct (IH _ _ E) as [G2 W2]. auto.
Qed.

(** The resources a saved [assignUnit] stores. *)
Lemma assignUnit_ledger now nowU bid code quantity g g' :
  assignUnit now nowU bid code quantity g = Done g' ->
  exists garrBuilding bIndex building unit refreshed,
    findBuilding g bid = Some (garrBuilding, bIndex)
    /\ findBuildingByCode (b_code garrBuilding) = Some building
    /\ findUnitByCode code = Some unit
    /\ isBusy now garrBuilding = false
    /\ refreshIfPeasant nowU unit g = Done refreshed
    /\ resources g'
       = (let r := resources refreshed in
          if String.eqb (sb_code building) "goldmine" && isNone (goldLastUpdate r)
          then setGoldLastUpdate (Some now) r
          else if String.eqb (sb_code building) "sawmill" && isNone (woodLastUpdate r)
               then setWoodLastUpdate (Some now) r
               else r).
Proof.
  intros E. unfold assignUnit in E.
  destruct (findBuilding g bid) as [[garrBuilding bIndex]|] eqn:Eb; [|discriminate].
  destruct (findBuildingByCode (b_code garrBuilding)) as [building|] eqn:Est;
    [|discriminate].
  destruct (sb_harvest building) eqn:Eh; [|discriminate].
  destruct (findUnitByCode code) as [unit|] eqn:Eu; [|discriminate].
  destruct (findUnit g code) as [[garrUnits uIndex]|] eqn:Eg; [|discriminate].
  cbv zeta in E.
  destruct (Z.gtb_spec (quantityOr1 quantity) (u_quantity garrUnits)); [discriminate|].
  destruct (isBusy now garrBuilding) eqn:Busy; [discriminate|].
  destruct (Z.gtb_spec (quantityOr1 quantity)
              (u_quantity garrUnits - unavailableQuantity now (u_assignments garrUnits)));
    [discriminate|].
  destruct (refreshIfPeasant nowU unit g) as [|g0] eqn:Er; [discriminate|].
  unfold andThen in E. cbv beta iota in E. injection E as <-.
  exists garrBuilding, bIndex, building, unit, g0.
  cbn [resources withUnits withResources]. repeat split; auto.
Qed.

Lemma refreshIfPeasant_keeps_unset nowU unit g refreshed :
  refreshIfPeasant nowU unit g = Done refreshed ->
  (goldLastUpdate (resources g) = None -> goldLastUpdate (resources refreshed) = None)
  /\ (woodLastUpdate (resources g) = None -> woodLastUpdate (resources refreshed) = None).
Proof.
  unfold refreshIfPeasant, updateResources.
  destruct (String.eqb (su_code unit) "peasant").
  - apply updateResourcesLoop_keeps_unset.
  - intros [= <-]. auto.
Qed.

(** A saved [assignUnit] at a gold mine (saw mill) leaves the gold (wood)
    timestamp set: to the [now] of the call when the garrison had none, so
    that the harvest is counted from that instant on. *)
Theorem assignUnit_starts_clock now nowU bid code quantity g g' garrBuilding bIndex :
  answersByCode ->
  findBuilding g bid = Some (garrBuilding, bIndex) ->
  b_code garrBuilding = "goldmine"%string \/ b_code garrBuilding = "sawmill"%string ->
  assignUnit now nowU bid code quantity g = Done g' ->
  lastUpdateOfCode (b_code garrBuilding) (resources g') <> None
  /\ (lastUpdateOfCode (b_code garrBuilding) (resources g) = None ->
      lastUpdateOfCode (b_code garrBuilding) (resources g') = Some now).
Proof.
  intros Codes Eb Kind E.
  destruct (assignUnit_ledger _ _ _ _ _ _ _ E)
    as (gb & bi & st & unit & g0 & Eb' & Est & _ & _ & Er & R).
  rewrite Eb in Eb'. injection Eb' as <- <-.
  pose proof (Codes _ _ Est) as Code.
  destruct (refreshIfPeasant_keeps_unset _ _ _ _ Er) as [Kg Kw].
  rewrite R, Code. cbv zeta. unfold lastUpdateOfCode.
  destruct Kind as [-> | ->]; cbn [String.eqb Ascii.eqb Bool.eqb andb].
  - destruct (goldLastUpdate (resources g0)) as [t|] eqn:G; cbn [isNone].
    + rewrite G. split; [discriminate|]. intros N. discriminate (Kg N).
    + cbn. split; [discriminate|reflexivity].
  - destruct (woodLastUpdate (resources g0)) as [t|] eqn:W; cbn [isNone].
    + rewrite W. split; [discriminate|]. intros N. discriminate (Kw N).
    + cbn. split; [discriminate|reflexivity].
Qed.

(** The first peasants put to a gold mine or a saw mill whose timestamp is
    absent: the iteration of a refresh at that building at a later instant
    [later] credits what the code computes in doubles for the [N] peasants
    over the time elapsed since the [now] of the [assignUnit] call, the
    floor of the product [(amount * ((later - now) / 1000 / 60)) * N] of
    doubles, as long as that product is finite; it touches no other
    resource, and it moves the timestamp to [later]. *)
Theorem assignUnit_then_refresh now nowU later bid N g g1 garrBuilding bIndex st h :
  answersByCode ->
  findBuilding g bid = Some (garrBuilding, bIndex) ->
  b_code garrBuilding = "goldmine"%string \/ b_code garrBuilding = "sawmill"%string ->
  findBuildingByCode (b_code garrBuilding) = Some st ->
  sb_harvest st = Some h ->
  lastUpdateOfCode (b_code garrBuilding) (resources g) = None ->
  assignedWorkers (units g) garrBuilding = None ->
  1 <= N ->
  now < later ->
  Double.finite (accrualProduct (h_amount h) later now N) = true ->
  assignUnit now nowU bid "peasant" (Some N) g = Done g1 ->
  exists g2,
    updateResourcesFor later garrBuilding g1 = Done g2
    /\ (getResource (h_resource h) (resources g2)
        == getResource (h_resource h) (resources g1)
           + inject_Z (Double.floor (accrualProduct (h_amount h) later now N)))%Q
    /\ (forall k, k <> h_resource h ->
        getResource k (resources g2) = getResource k (resources g1))
    /\ lastUpdateOfCode (b_code garrBuilding) (resources g2) = Some later.
Proof.
  intros Codes Eb Kind Est Eh Unset Nobody HN Later Finite E.
  pose proof (assignUnit_workers _ _ _ _ _ _ _ _ HN Eb E) as W. rewrite Nobody in W.
  destruct (assignUnit_ledger _ _ _ _ _ _ _ E)
    as (gb & bi & st' & unit & g0 & Eb' & Est' & _ & Busy & Er & R).
  rewrite Eb in Eb'. injection Eb' as <- <-.
  rewrite Est in Est'. injection Est' as <-.
  pose proof (Codes _ _ Est) as Code.
  destruct (refreshIfPeasant_keeps_unset _ _ _ _ Er) as [Kg Kw].
  assert (T : lastUpdateOfCode (b_code garrBuilding) (resources g1) = Some now).
  { rewrite R, Code. cbv zeta. unfold lastUpdateOfCode in *.
    destruct Kind as [K | K]; rewrite K in *;
      cbn [String.eqb Ascii.eqb Bool.eqb andb] in *.
    - rewrite (Kg Unset). reflexivity.
    - rewrite (Kw Unset). reflexivity. }
  destruct (updateResourcesFor_credits later garrBuilding g1 st h N now)
    as (g2 & E2 & V & Fr & T2 & _); auto; try lia.
  - apply (isBusy_later now); [lia|exact Busy].
  - exists g2. repeat split; auto.
    apply T2, elapsedMinutes_positive. exact Later.
Qed.

End ClockProperties.

Lemma assignUnit_starts_clock_witness :
  exists g',
    assignUnit (H:=Demo.catalog) 100 101 1 "peasant" (Some 2) Demo.settledMine = Done g'
    /\ goldLastUpdate (resources g') = Some 100.
Proof.
  destruct (assignUnit (H:=Demo.catalog) 100 101 1 "peasant" (Some 2) Demo.settledMine)
    as [status mem|g'] eqn:E; [vm_compute in E; discriminate E|].
  exists g'. split; [reflexivity|].
  destruct (assignUnit_starts_clock (H:=Demo.catalog) 100 101 1 "peasant" (Some 2)
              Demo.settledMine g' Demo.mine1 0 demo_catalog_answers eq_refl
              (or_introl eq_refl) E) as [_ Started].
  apply Started. reflexivity.
Defined.

(** Five peasants put to the gold mine at time 100 have earned 10 gold
    44 seconds later: the product of doubles is just under 11. *)
Lemma assignUnit_then_refresh_witness :
  exists g1 g2,
    assignUnit (H:=Demo.catalog) 100 101 1 "peasant" (Some 5) Demo.crew = Done g1
    /\ updateResourcesFor (H:=Demo.catalog) 44100 Demo.mine1 g1 = Done g2
    /\ (gold (resources g2) == gold (resources g1) + 10)%Q
    /\ wood (resources g2) = wood (resources g1)
    /\ goldLastUpdate (resources g2) = Some 44100
    /\ accruedExactly 3 44100 100 5 = 11.
Proof.
  destruct (assignUnit (H:=Demo.catalog) 100 101 1 "peasant" (Some 5) Demo.crew)
    as [status mem|g1] eqn:E; [vm_compute in E; discriminate E|].
  destruct (assignUnit_then_refresh (H:=Demo.catalog) 100 101 44100 1 5
              Demo.crew g1 Demo.mine1 0 Demo.goldmine
              {| h_resource := Gold; h_amount := 3; h_maxWorkforce := Some 5 |}
              demo_catalog_answers eq_refl (or_introl eq_refl) eq_refl eq_refl
              eq_refl eq_refl ltac:(lia) ltac:(lia) eq_refl E) as (g2 & E2 & V & Fr & T).
  exists g1, g2. split; [reflexivity|]. split; [exact E2|].
  split; [|split; [|split]].
  - cbn [getResource h_resource] in V. rewrite V. reflexivity.
  - exact (Fr Wood ltac:(discriminate)).
  - exact T.
  - reflexivity.
Defined.

(** ** Availability: no call commits more units than are idle *)

Lemma unavailableQuantity_middle at_time pre a post :
  unavailableQuantity at_time (pre ++ a :: post)
  = unavailableQuantity at_time pre
    + (if a_endDate a >? at_time then a_quantity a else 0)
    + unavailableQuantity at_time post.
Proof. rewrite unavailableQuantity_app, unavailableQuantity_cons. lia. Qed.

Lemma unavailableQuantity_last at_time l a :
  unavailableQuantity at_time (l ++ [a])
  = unavailableQuantity at_time l + (if a_endDate a >? at_time then a_quantity a else 0).
Proof.
  rewrite unavailableQuantity_app, unavailableQuantity_cons.
  change (unavailableQuantity at_time []) with 0. lia.
Qed.

Section AvailabilityProperties.
Context `{Collaborators}.

(** A saved [assignUnit] of [N >= 1] units leaves the cohort with the same
    quantity and a non-negative number of idle units at [now]: [N] fewer
    than before when the harvest assignment it wrote ends after [now], as
    the assignments it creates do, and as many as before otherwise. *)
Theorem assignUnit_never_overcommits now nowU bid code quantity g g' garrUnits uIndex :
  1 <= quantityOr1 quantity ->
  findUnit g code = Some (garrUnits, uIndex) ->
  assignUnit now nowU bid code quantity g = Done g' ->
  exists assigned,
    findUnit g' code = Some (assigned, uIndex)
    /\ u_quantity assigned = u_quantity garrUnits
    /\ 0 <= idle now assigned
    /\ (idle now assigned = idle now garrUnits - quantityOr1 quantity
        \/ idle now assigned = idle now garrUnits)
    /\ (now < harvestEndDate ->
        find (isHarvestAt bid) (u_assignments garrUnits) = None ->
        idle now assigned = idle now garrUnits - quantityOr1 quantity).
Proof.
  intros HN Eg E.
  destruct (assignUnit_saved _ _ _ _ _ _ _ E)
    as (gb & bi & st & unit & gu & ui & g0
        & _ & _ & _ & _ & Eg' & _ & _ & Idle & _ & U & _).
  rewrite Eg in Eg'. injection Eg' as <- <-.
  destruct (findWithIndex_Some _ _ _ _ Eg) as (pre & post & L & I & F & Pu).
  rewrite L, I, set_at_middle in U.
  set (qty := quantityOr1 quantity) in *.
  exists (withAssignments garrUnits
            (assignLoop (Z.to_nat qty) (Some bid) (u_assignments garrUnits))).
  split.
  { unfold findUnit. rewrite U, I. apply findWithIndex_middle; [exact F|exact Pu]. }
  split; [reflexivity|].
  unfold idle in *. cbn [u_quantity u_assignments withAssignments].
  destruct (assignLoop_shape (Z.to_nat qty) bid (u_assignments garrUnits))
    as [(Fl & ->) | (p & a & s & La & Fp & Pa & ->)]; [lia| |].
  - rewrite unavailableQuantity_last. cbn [a_endDate a_quantity newHarvest].
    rewrite Z2Nat.id by lia.
    destruct (Z.gtb_spec harvestEndDate now) as [Late|Early].
    + split; [lia|]. split; [left; lia|]. intros _ _. lia.
    + split; [lia|]. split; [right; lia|]. intros Lt _. lia.
  - rewrite La in *. rewrite !unavailableQuantity_middle in *.
    cbn [a_endDate a_quantity withQuantity]. rewrite Z2Nat.id by lia.
    destruct (a_endDate a >? now).
    + split; [lia|]. split; [left; lia|]. intros _ _. lia.
    + split; [lia|]. split; [right; lia|].
      intros _ Nf. rewrite (find_middle (isHarvestAt bid) p a s Fp Pa) in Nf.
      discriminate Nf.
Qed.

(** A saved [extendBuilding] with a non-negative work force leaves a
    non-negative number of idle peasants at [now]. *)
Theorem extendBuilding_never_overcommits now cId aId bid w g g' peasants pIndex :
  0 <= w ->
  findUnit g "peasant" = Some (peasants, pIndex) ->
  extendBuilding now cId aId bid w g = Done g' ->
  exists committed,
    findUnit g' "peasant" = Some (committed, pIndex)
    /\ u_quantity committed = u_quantity peasants
    /\ 0 <= idle now committed <= idle now peasants.
Proof.
  intros Hw Ep E. unfold extendBuilding in E.
  destruct (findBuilding g bid) as [[garrBuilding bIndex]|] eqn:Eb; [|discriminate].
  destruct (findBuildingByCode (b_code garrBuilding)) as [building|] eqn:Est;
    [|discriminate].
  destruct (sb_extension building) as [ext|] eqn:Ex; [|discriminate].
  destruct (isBusy now garrBuilding); [discriminate|].
  cbv zeta in E.
  destruct (match ext_maxLevel ext with
            | Some maxLevel => currentExtensionLevel garrBuilding + 1 >? maxLevel
            | None => false
            end); [discriminate|].
  destruct (unfulfilled now (buildings g) _ (ext_requiredEntities ext)); [discriminate|].
  rewrite Ep in E.
  destruct (w >? u_quantity peasants); [discriminate|].
  destruct (Z.gtb_spec w
              (u_quantity peasants - unavailableQuantity now (u_assignments peasants)))
    as [|Idle]; [discriminate|].
  destruct (w <? extensionMinWorkforce building (currentExtensionLevel garrBuilding));
    [discriminate|].
  destruct (w >? extensionMinWorkforce building (currentExtensionLevel garrBuilding) * 2);
    [discriminate|].
  match type of E with
  | (if ?c then Threw 412 _ else _) = _ => destruct c; [discriminate|]
  end.
  injection E as <-.
  destruct (findWithIndex_Some _ _ _ _ Ep) as (pre & post & L & I & F & Pu).
  unfold findUnit, pushAssignment.
  cbn [units buildings withResources withBuildings withUnits].
  rewrite L, I, set_at_middle.
  eexists. split; [apply findWithIndex_middle; [exact F|exact Pu]|].
  split; [reflexivity|].
  unfold idle. cbn [u_quantity u_assignments withAssignments].
  rewrite unavailableQuantity_last. cbn [a_endDate a_quantity].
  match goal with |- context [if ?c then w else 0] => destruct c end; lia.
Qed.

End AvailabilityProperties.

Lemma assignUnit_never_overcommits_witness :
  exists g' assigned,
    assignUnit (H:=Demo.catalog) 100 101 1 "peasant" (Some 2) Demo.settledMine = Done g'
    /\ findUnit g' "peasant" = Some (assigned, 0)
    /\ idle 100 assigned = 1.
Proof.
  destruct (assignUnit (H:=Demo.catalog) 100 101 1 "peasant" (Some 2) Demo.settledMine)
    as [status mem|g'] eqn:E; [vm_compute in E; discriminate E|].
  destruct (assignUnit_never_overcommits (H:=Demo.catalog) 100 101 1 "peasant" (Some 2)
              Demo.settledMine g' _ 0 ltac:(cbn; lia) eq_refl E)
    as (assigned & Ef & _ & _ & _ & Exact).
  exists g', assigned. split; [reflexivity|]. split; [exact Ef|].
  rewrite Exact; [reflexivity|reflexivity|reflexivity].
Defined.

Lemma extendBuilding_never_overcommits_witness :
  exists g' committed,
    extendBuilding (H:=Demo.catalog) 200000 41 42 1 3 Demo.settledMine = Done g'
    /\ findUnit g' "peasant" = Some (committed, 0)
    /\ 0 <= idle 200000 committed.
Proof.
  destruct (extendBuilding (H:=Demo.catalog) 200000 41 42 1 3 Demo.settledMine)
    as [status mem|g'] eqn:E; [vm_compute in E; discriminate E|].
  destruct (extendBuilding_never_overcommits (H:=Demo.catalog) 200000 41 42 1 3
              Demo.settledMine g' _ 0 ltac:(lia) eq_refl E)
    as (committed & Ef & _ & Pos & _).
  exists g', committed. auto.
Defined.

(** ** The assignment loop of the second copy *)

Lemma assignLoop_rev_none n bid aIndex : forall l,
  aIndex < 0 ->
  assignLoop_rev n aIndex bid l = l ++ repeat (newHarvest bid 1) n.
Proof.
  induction n as [|n IH]; intros l Neg; cbn [assignLoop_rev repeat].
  - symmetry. apply app_nil_r.
  - destruct (Z.ltb_spec aIndex 0); [|lia].
    rewrite IH by exact Neg. rewrite <- app_assoc. reflexivity.
Qed.

Lemma assignLoop_rev_found n bid : forall pre a post,
  assignLoop_rev n (Z.of_nat (List.length pre)) bid (pre ++ a :: post)
  = pre ++ withQuantity a (a_quantity a + Z.of_nat n) :: post.
Proof.
  induction n as [|n IH]; intros pre a post; cbn [assignLoop_rev].
  - rewrite Z.add_0_r, withQuantity_same. reflexivity.
  - destruct (Z.ltb_spec (Z.of_nat (List.length pre)) 0); [lia|].
    rewrite at_middle, set_at_middle, IH.
    unfold withQuantity. cbn [a_id a_buildingId a_quantity a_type a_endDate].
    replace (a_quantity a + 1 + Z.of_nat n) with (a_quantity a + Z.of_nat (S n)) by lia.
    reflexivity.
Qed.

(** The loop of the second copy, which looks the assignment up once before
    the loop: with a negative index every round appends an assignment of
    one worker, so [n] rounds leave [n] new assignments where the loop of
    [garrison.repo.ts] leaves one assignment of [n] workers; with the index
    of the first harvest assignment at the building, both loops add [n]
    workers to that assignment. *)
Theorem assignLoop_rev_shape n x l :
  (forall aIndex,
      aIndex < 0 ->
      assignLoop_rev n aIndex (Some x) l = l ++ repeat (newHarvest (Some x) 1) n)
  /\ ((0 < n)%nat ->
      find (isHarvestAt x) l = None ->
      assignLoop n (Some x) l = l ++ [newHarvest (Some x) (Z.of_nat n)])
  /\ (forall pre a post,
         l = pre ++ a :: post ->
         forallb (fun y => negb (isHarvestAt x y)) pre = true ->
         isHarvestAt x a = true ->
         assignLoop_rev n (Z.of_nat (List.length pre)) (Some x) l
         = pre ++ withQuantity a (a_quantity a + Z.of_nat n) :: post
         /\ assignLoop n (Some x) l
            = assignLoop_rev n (Z.of_nat (List.length pre)) (Some x) l).
Proof.
  split; [|split].
  - intros aIndex Neg. apply assignLoop_rev_none. exact Neg.
  - intros Hn Nf.
    destruct (assignLoop_shape n x l Hn) as [(_ & S) | (p & a & s & -> & Fp & Pa & _)];
      [exact S|].
    rewrite (find_middle (isHarvestAt x) p a s Fp Pa) in Nf. discriminate Nf.
  - intros pre a post -> F Pa. rewrite assignLoop_rev_found. split; [reflexivity|].
    apply assignLoop_found; assumption.
Qed.

(** Two rounds at a building nobody harvests: two assignments of one
    worker in the second copy, one assignment of two workers in
    [garrison.repo.ts]. *)
Lemma assignLoop_rev_shape_witness :
  assignLoop_rev 2 (-1) (Some 1) [] = [newHarvest (Some 1) 1; newHarvest (Some 1) 1]
  /\ assignLoop 2 (Some 1) [] = [newHarvest (Some 1) 2].
Proof.
  destruct (assignLoop_rev_shape 2 1 []) as (Rev & Named & _). split.
  - apply (Rev (-1)). lia.
  - apply Named; [lia|reflexivity].
Defined.
